(** * Cockpit Machines Dashboard: registry reader, connection prober,
    update-transaction client and dashboard orchestration.

    Shallow embedding of [src/machines-api.ts] and of the state handling
    of [src/dashboard.tsx].  The browser, the D-Bus client and the remote
    package service are explicit state and explicit environment scripts. *)

From Stdlib Require Import List String Ascii ZArith Bool Lia Sorted Arith.
From Stdlib Require Import OrderedTypeEx.
Import ListNotations.
Open Scope string_scope.
Open Scope Z_scope.

Set Implicit Arguments.

(* ================================================================== *)
(** ** JavaScript helpers *)

Module Js.

(** [a || b] on strings: the empty string is falsy. *)
Definition orElse (a b : string) : string :=
  if String.eqb a "" then b else a.

(** Truthiness of an optional string ([undefined] and [""] are falsy). *)
Definition truthy (o : option string) : bool :=
  match o with
  | Some s => negb (String.eqb s "")
  | None => false
  end.

(** [s.includes(sub)]. *)
Fixpoint includes (sub s : string) : bool :=
  if String.prefix sub s then true
  else match s with
       | EmptyString => false
       | String _ rest => includes sub rest
       end.

(** [s.split(sep)[0]]: the text before the first separator. *)
Fixpoint splitHead (sep : ascii) (s : string) : string :=
  match s with
  | EmptyString => EmptyString
  | String c rest =>
      if Ascii.eqb c sep then EmptyString else String c (splitHead sep rest)
  end.

(** Lookup [obj[k]] in an object given as its own enumerable
    properties in [Object.keys] order. *)
Fixpoint prop {A : Type} (obj : list (string * A)) (k : string) : option A :=
  match obj with
  | [] => None
  | (k', v) :: rest => if String.eqb k' k then Some v else prop rest k
  end.

Definition keys {A : Type} (obj : list (string * A)) : list string :=
  map fst obj.

Definition mem (k : string) (l : list string) : bool :=
  existsb (String.eqb k) l.

(** [new Set(l)] iterated: first occurrences, in insertion order. *)
Fixpoint setAdd (seen l : list string) : list string :=
  match l with
  | [] => []
  | k :: rest =>
      if mem k seen then setAdd seen rest
      else k :: setAdd (k :: seen) rest
  end.

Definition newSet (l : list string) : list string := setAdd [] l.

(** [Array.prototype.sort(cmp)]: the sort is stable, and for a
    consistent comparator its result is the stable sorted
    permutation, computed here by insertion from the right. *)
Section Sort.
Variable A : Type.
Variable cmp : A -> A -> Z.

Fixpoint insert (x : A) (l : list A) : list A :=
  match l with
  | [] => [x]
  | y :: ys => if cmp x y <=? 0 then x :: y :: ys else y :: insert x ys
  end.

Fixpoint sort (l : list A) : list A :=
  match l with
  | [] => []
  | x :: xs => insert x (sort xs)
  end.
End Sort.

End Js.

(* ================================================================== *)
(** ** Data model ([machines-api.ts], interfaces) *)

Definition Date := nat.

Record UpdateInfo := mkUpdateInfo {
  total : Z;
  security : Z;
  loading : bool;
  error : option string;
  lastChecked : option Date
}.

Record Machine := mkMachine {
  key : string;
  address : string;
  label : string;
  user : option string;
  color : option string;
  state : option string;
  visible : option bool;
  avatar : option string
}.

(** [Partial<Machine>]: what a registry record may carry. *)
Record PartialMachine := mkPartial {
  p_key : option string;
  p_address : option string;
  p_label : option string;
  p_user : option string;
  p_color : option string;
  p_state : option string;
  p_visible : option bool;
  p_avatar : option string
}.

Definition noFields : PartialMachine :=
  mkPartial None None None None None None None None.

(** [MachinesData]; either map may be missing from the document. *)
Record MachinesData := mkMachinesData {
  content : option (list (string * PartialMachine));
  overlay : option (list (string * PartialMachine))
}.

(** The browser as the registry reader sees it. *)
Record Browser := mkBrowser {
  sessionStorage : list (string * string);
  hostname : string;
  console : list string
}.

(* ================================================================== *)
(** ** Machine registry reader ([getMachinesList]) *)

Module Registry.

Definition override {A : Type} (o : option A) (d : A) : A :=
  match o with Some v => v | None => d end.

Definition overrideOpt {A : Type} (o d : option A) : option A :=
  match o with Some v => Some v | None => d end.

(** [{ ...m, ...p }]: the fields present in [p] win. *)
Definition spread (m : Machine) (p : option PartialMachine) : Machine :=
  match p with
  | None => m
  | Some p =>
      mkMachine (override (p_key p) (key m))
                (override (p_address p) (address m))
                (override (p_label p) (label m))
                (overrideOpt (p_user p) (user m))
                (overrideOpt (p_color p) (color m))
                (overrideOpt (p_state p) (state m))
                (overrideOpt (p_visible p) (visible m))
                (overrideOpt (p_avatar p) (avatar m))
  end.

Definition setLabel (m : Machine) (l : string) : Machine :=
  mkMachine (key m) (address m) l (user m) (color m) (state m)
            (visible m) (avatar m).

(** [machine.visible !== false]. *)
Definition isVisible (m : Machine) : bool :=
  match visible m with
  | Some false => false
  | _ => true
  end.

(** The entry returned on every fallback path. *)
Definition localhostOnly (b : Browser) : list Machine :=
  [ mkMachine "localhost" "localhost" (Js.orElse (hostname b) "localhost")
              None None (Some "connected") (Some true) None ].

Section Reader.
(** [cockpit.sessionStorage.prefixedKey("v2-machines.json")]. *)
Variable SESSION_KEY : string.
(** [JSON.parse] at type [MachinesData]; [None] when the text makes
    the [try] block throw (a syntax error, or the document [null],
    whose [.content] access raises). *)
Variable JSON_parse : string -> option MachinesData.
(** [String.prototype.localeCompare]. *)
Variable localeCompare : string -> string -> Z.

(** The body of the [for (const host of allHosts)] loop. *)
Definition mergeHost (b : Browser)
    (content overlay : list (string * PartialMachine))
    (host : string) : option Machine :=
  let machine :=
    spread (spread (mkMachine host host host None None None None None)
                   (Js.prop content host))
           (Js.prop overlay host) in
  if isVisible machine then
    if String.eqb (label machine) "" then
      if String.eqb host "localhost"
         || String.eqb host "localhost.localdomain"
      then Some (setLabel machine (hostname b))
      else Some (setLabel machine host)
    else Some machine
  else None.

Fixpoint collect (b : Browser)
    (content overlay : list (string * PartialMachine))
    (hosts : list string) : list Machine :=
  match hosts with
  | [] => []
  | host :: rest =>
      match mergeHost b content overlay host with
      | Some m => m :: collect b content overlay rest
      | None => collect b content overlay rest
      end
  end.

Definition byLabel (a c : Machine) : Z :=
  localeCompare (label a) (label c).

Definition logError (b : Browser) (msg : string) : Browser :=
  mkBrowser (sessionStorage b) (hostname b) (console b ++ [msg]).

Definition getMachinesList (b : Browser) : list Machine * Browser :=
  match Js.prop (sessionStorage b) SESSION_KEY with
  | None => (localhostOnly b, b)
  | Some data =>
      if String.eqb data "" then (localhostOnly b, b)
      else
        match JSON_parse data with
        | None =>
            (localhostOnly b,
             logError b "Failed to parse machines data:")
        | Some parsed =>
            let content := override (content parsed) [] in
            let overlay := override (overlay parsed) [] in
            let allHosts :=
              Js.newSet (Js.keys content ++ Js.keys overlay) in
            let machines := collect b content overlay allHosts in
            match machines with
            | [] => (localhostOnly b, b)
            | _ => (Js.sort byLabel machines, b)
            end
        end
  end.

End Reader.

(** The local machine, as the prober and the fallback entry name it. *)
Definition isLocal (m : Machine) : bool :=
  String.eqb (key m) "localhost" || String.eqb (address m) "localhost".

End Registry.

(* ================================================================== *)
(** ** Asynchronous control flow

    An [async] function is a transformer of the state it can reach.
    It returns, throws (its promise rejects), or stays suspended on an
    [await] that never settles; the state reached so far is kept in
    every case. *)

Record JsError := mkError { message : option string }.

Definition newError (msg : string) : JsError := mkError (Some msg).

Inductive Outcome (A : Type) : Type :=
| Returned (a : A)
| Threw (e : JsError)
| Pending.
Arguments Threw {A} e.
Arguments Pending {A}.

(** How a promise handed out by the environment settles. *)
Inductive Settles (A : Type) : Type :=
| Resolves (a : A)
| Rejects (e : JsError)
| Never.
Arguments Rejects {A} e.
Arguments Never {A}.

Module Async.

Definition t (S A : Type) : Type := S -> Outcome A * S.

Definition ret {S A} (a : A) : t S A := fun s => (Returned a, s).

Definition throw {S A} (e : JsError) : t S A := fun s => (Threw e, s).

Definition bind {S A B} (m : t S A) (f : A -> t S B) : t S B :=
  fun s =>
    match m s with
    | (Returned a, s1) => f a s1
    | (Threw e, s1) => (Threw e, s1)
    | (Pending, s1) => (Pending, s1)
    end.

Definition await {S A} (p : Settles A) : t S A :=
  fun s =>
    match p with
    | Resolves a => (Returned a, s)
    | Rejects e => (Threw e, s)
    | Never => (Pending, s)
    end.

Definition modify {S} (f : S -> S) : t S unit :=
  fun s => (Returned tt, f s).

Definition gets {S A} (f : S -> A) : t S A :=
  fun s => (Returned (f s), s).

(** [try { body } catch (e) { handler(e) }]. *)
Definition tryCatch {S A} (body : t S A) (handler : JsError -> t S A)
  : t S A :=
  fun s =>
    match body s with
    | (Threw e, s1) => handler e s1
    | r => r
    end.

(** [try { body } finally { fin }]: [fin] runs once [body] has
    returned or thrown, and never while [body] is suspended. *)
Definition tryFinally {S A} (body : t S A) (fin : t S unit) : t S A :=
  fun s =>
    match body s with
    | (Pending, s1) => (Pending, s1)
    | (r, s1) =>
        match fin s1 with
        | (Returned _, s2) => (r, s2)
        | (Threw e, s2) => (Threw e, s2)
        | (Pending, s2) => (Pending, s2)
        end
    end.

(** [for (const x of l) { await body(x) }]. *)
Fixpoint forEach {S A} (l : list A) (body : A -> t S unit) : t S unit :=
  match l with
  | [] => ret tt
  | x :: rest => bind (body x) (fun _ => forEach rest body)
  end.

End Async.

Declare Scope async_scope.
Delimit Scope async_scope with async.
Notation "x <- m ;; k" := (Async.bind m (fun x => k))
  (at level 61, m at next level, right associativity) : async_scope.
Notation "m ;; k" := (Async.bind m (fun _ => k))
  (at level 61, right associativity) : async_scope.

(* ================================================================== *)
(** ** The D-Bus client and the remote package service *)

Module DBus.

(** Signals of one PackageKit transaction, with the arguments the
    callbacks read. *)
Inductive Signal :=
| Package (info : Z) (packageId : string)
| Finished (exitCode : Z)
| ErrorCode (code : Z) (details : string)
| Percentage (percent : Z)
| ItemProgress (packageId : string) (percent : Z).

Definition member (s : Signal) : string :=
  match s with
  | Package _ _ => "Package"
  | Finished _ => "Finished"
  | ErrorCode _ _ => "ErrorCode"
  | Percentage _ => "Percentage"
  | ItemProgress _ _ => "ItemProgress"
  end.

(** What reaches the page while it waits for the transaction: a
    signal, or the rejection of the promise of the invoked method. *)
Inductive Event :=
| Emit (s : Signal)
| CallFails (e : JsError).

(** The remote side of one transaction, as a script. *)
Record Remote := mkRemote {
  createTransaction : Settles (option string);
  proxyWait : Settles unit;
  events : list Event
}.

Inductive Call :=
| Connect (host : option string)
| CreateTransaction
| Wait
| GetUpdates (filter : Z)
| UpdatePackages (flags : Z)
| RefreshCache (force : bool).

(** The client returned by [cockpit.dbus]: its live subscriptions
    (identifier and member) and the calls made through it. *)
Record Client := mkClient {
  nextId : nat;
  active : list (nat * string);
  calls : list Call
}.

Definition newClient : Client := mkClient 0 [] [].

Definition subscribe (m : string) (c : Client) : nat * Client :=
  (nextId c,
   mkClient (S (nextId c)) (active c ++ [(nextId c, m)]) (calls c)).

Definition remove (id : nat) (c : Client) : Client :=
  mkClient (nextId c)
           (filter (fun s => negb (Nat.eqb (fst s) id)) (active c))
           (calls c).

Definition record (k : Call) (c : Client) : Client :=
  mkClient (nextId c) (active c) (calls c ++ [k]).

Definition isActive (id : nat) (c : Client) : bool :=
  existsb (fun s => Nat.eqb (fst s) id) (active c).

Definition ids (c : Client) : list nat := map fst (active c).

Section Callbacks.
(** [L]: the variables the callbacks of one call close over. *)
Variable L : Type.

Definition World : Type := Client * L.
Definition Callback : Type := Signal -> World -> World.

(** The callbacks one call has registered: subscription, member
    matched, callback. *)
Definition Table : Type := list (nat * string * Callback).

(** Delivery of one signal: every registered callback whose
    subscription is still live and matches the member runs, in
    registration order. *)
Fixpoint deliver (tbl : Table) (s : Signal) (w : World) : World :=
  match tbl with
  | [] => w
  | (id, m, cb) :: rest =>
      if String.eqb m (member s) && isActive id (fst w)
      then deliver rest s (cb s w)
      else deliver rest s w
  end.

(** State of a [new Promise<void>]: pending, resolved or rejected;
    the first [resolve] or [reject] wins. *)
Definition Promise : Type := option (option JsError).

Variable getPromise : L -> Promise.
Variable setPromise : Promise -> L -> L.

Definition settle (r : option JsError) (w : World) : World :=
  match getPromise (snd w) with
  | None => (fst w, setPromise (Some r) (snd w))
  | Some _ => w
  end.

Definition resolve : World -> World := settle None.
Definition reject (e : JsError) : World -> World := settle (Some e).

Definition step (tbl : Table) (ev : Event) (w : World) : World :=
  match ev with
  | Emit s => deliver tbl s w
  | CallFails e => reject e w
  end.

(** [await new Promise(...)]: events are taken one at a time until
    the promise has settled. *)
Fixpoint awaitPromise (tbl : Table) (evs : list Event)
  : Async.t World unit :=
  fun w =>
    match getPromise (snd w) with
    | Some None => (Returned tt, w)
    | Some (Some e) => (Threw e, w)
    | None =>
        match evs with
        | [] => (Pending, w)
        | ev :: rest => awaitPromise tbl rest (step tbl ev w)
        end
    end.

Definition onClient {A} (f : Client -> A * Client) : Async.t World A :=
  fun w => let '(a, c) := f (fst w) in (Returned a, (c, snd w)).

Definition call (k : Call) : Async.t World unit :=
  Async.modify (fun w => (record k (fst w), snd w)).

End Callbacks.

End DBus.

(* ================================================================== *)
(** ** Update-transaction client ([machines-api.ts]) *)

Record InstallResult := mkInstallResult {
  success : bool;
  installError : option string;
  rebootRequired : option bool
}.

Module Transactions.
Import DBus.
Local Open Scope async_scope.

(** Variables of one [getUpdatesForHost] call. *)
Record CheckVars := mkCheckVars {
  cv_promise : Promise;
  cv_updates : list (string * string);
  cv_result : UpdateInfo
}.

(** Variables of one [installUpdatesOnHost] call; [iv_caller] is the
    state the caller's progress callback acts on. *)
Record InstallVars (U : Type) := mkInstallVars {
  iv_promise : Promise;
  iv_reboot : bool;
  iv_caller : U
}.

Section Client.
(** [cockpit.gettext] and [cockpit.format]. *)
Variable gettext : string -> string.
Variable cockpit_format : string -> list (option string) -> string.

(** [cockpit.dbus(...)] up to [await transaction.wait()], the part
    the three operations share. *)
Definition openTransaction (L : Type) (host : string) (rem : Remote)
  : Async.t (World L) string :=
  call (Connect (if String.eqb host "localhost" then None
                 else Some host)) ;;
  call CreateTransaction ;;
  transactionPath <- Async.await (createTransaction rem) ;;
  if Js.truthy transactionPath then
    call Wait ;;
    Async.await (proxyWait rem) ;;
    Async.ret (Registry.override transactionPath "")
  else
    Async.throw
      (newError (gettext "Failed to create PackageKit transaction")).

(* ---------------- getUpdatesForHost ---------------- *)

Definition cvSetPromise (p : Promise) (v : CheckVars) : CheckVars :=
  mkCheckVars p (cv_updates v) (cv_result v).

Definition cvPush (u : string * string) (v : CheckVars) : CheckVars :=
  mkCheckVars (cv_promise v) (cv_updates v ++ [u]) (cv_result v).

Definition cvSetResult (r : UpdateInfo) (v : CheckVars) : CheckVars :=
  mkCheckVars (cv_promise v) (cv_updates v) r.

Definition onPackage : Callback CheckVars :=
  fun s w =>
    match s with
    | Package info packageId =>
        let name := Js.splitHead ";" packageId in
        let isSecurity := info =? 8 in
        (fst w,
         cvPush (name, if isSecurity then "security" else "normal")
                (snd w))
    | _ => w
    end.

Definition onCheckFinished (finishedSignal : nat) : Callback CheckVars :=
  fun _ w =>
    resolve cv_promise cvSetPromise (remove finishedSignal (fst w), snd w).

Definition onCheckError (errorSignal : nat) : Callback CheckVars :=
  fun s w =>
    match s with
    | ErrorCode _ details =>
        reject cv_promise cvSetPromise (newError details)
               (remove errorSignal (fst w), snd w)
    | _ => w
    end.

Definition isSecurity (u : string * string) : bool :=
  String.eqb (snd u) "security".

Definition checkTry (host : string) (rem : Remote)
  : Async.t (World CheckVars) unit :=
  _ <- openTransaction (L := CheckVars) host rem ;;
  packageSignal <- onClient (subscribe "Package") ;;
  finishedSignal <- onClient (subscribe "Finished") ;;
  errorSignal <- onClient (subscribe "ErrorCode") ;;
  call (GetUpdates 0) ;;
  awaitPromise cv_promise cvSetPromise
    [ (packageSignal, "Package", onPackage);
      (finishedSignal, "Finished", onCheckFinished finishedSignal);
      (errorSignal, "ErrorCode", onCheckError errorSignal) ]
    (events rem) ;;
  Async.modify (fun w => (remove packageSignal (fst w), snd w)) ;;
  Async.modify (fun w =>
    let updates := cv_updates (snd w) in
    let r := cv_result (snd w) in
    (fst w,
     cvSetResult
       (mkUpdateInfo (Z.of_nat (List.length updates))
                     (Z.of_nat (List.length (filter isSecurity updates)))
                     (loading r) (error r) (lastChecked r))
       (snd w))).

Definition msgIncludes (e : JsError) (sub : string) : bool :=
  match message e with
  | Some m => Js.includes sub m
  | None => false
  end.

Definition checkCatch (err : JsError) : Async.t (World CheckVars) unit :=
  Async.modify (fun w =>
    let r := cv_result (snd w) in
    let text :=
      if msgIncludes err "not-found" || msgIncludes err "ServiceUnknown"
      then gettext "PackageKit not available"
      else if Js.truthy (message err)
           then Registry.override (message err) ""
           else gettext "Failed to check for updates" in
    (fst w,
     cvSetResult
       (mkUpdateInfo (total r) (security r) (loading r) (Some text)
                     (lastChecked r))
       (snd w))).

Definition getUpdatesForHost (now : Date) (host : string) (rem : Remote)
  : Async.t Client UpdateInfo :=
  fun c =>
    let result := mkUpdateInfo 0 0 false None (Some now) in
    let '(o, w) :=
      (Async.tryCatch (checkTry host rem) checkCatch ;;
       Async.gets (fun w => cv_result (snd w)))
        (c, mkCheckVars None [] result) in
    (o, fst w).

(* ---------------- installUpdatesOnHost ---------------- *)

Section Install.
Variable U : Type.

Definition ivSetPromise (p : Promise) (v : InstallVars U)
  : InstallVars U :=
  mkInstallVars p (iv_reboot v) (iv_caller v).

Definition ivSetReboot (b : bool) (v : InstallVars U) : InstallVars U :=
  mkInstallVars (iv_promise v) b (iv_caller v).

Definition ivCall (f : U -> U) (v : InstallVars U) : InstallVars U :=
  mkInstallVars (iv_promise v) (iv_reboot v) (f (iv_caller v)).

Definition onPercentage (onProgress : Z -> string -> U -> U)
  : Callback (InstallVars U) :=
  fun s w =>
    match s with
    | Percentage percent =>
        if percent <=? 100 then
          (fst w,
           ivCall (onProgress percent (gettext "Installing updates..."))
                  (snd w))
        else w
    | _ => w
    end.

Definition onItemProgress (onProgress : Z -> string -> U -> U)
  : Callback (InstallVars U) :=
  fun s w =>
    match s with
    | ItemProgress packageId percent =>
        let name := Js.splitHead ";" packageId in
        if percent <=? 100 then
          (fst w,
           ivCall (onProgress percent
                     (cockpit_format (gettext "Updating $0...")
                                     [Some name]))
                  (snd w))
        else w
    | _ => w
    end.

Definition onInstallFinished : Callback (InstallVars U) :=
  fun s w =>
    match s with
    | Finished exitCode =>
        resolve (@iv_promise U) ivSetPromise
                (fst w, ivSetReboot (exitCode =? 1) (snd w))
    | _ => w
    end.

Definition onInstallError : Callback (InstallVars U) :=
  fun s w =>
    match s with
    | ErrorCode _ details =>
        reject (@iv_promise U) ivSetPromise (newError details) w
    | _ => w
    end.

(** The [if (onProgress) { ... }] block: two subscriptions whose
    handles are dropped. *)
Definition subscribeProgress
    (onProgress : option (Z -> string -> U -> U))
  : Async.t (World (InstallVars U)) (Table (InstallVars U)) :=
  match onProgress with
  | Some cb =>
      percentage <- onClient (subscribe "Percentage") ;;
      itemProgress <- onClient (subscribe "ItemProgress") ;;
      Async.ret [ (percentage, "Percentage", onPercentage cb);
                  (itemProgress, "ItemProgress", onItemProgress cb) ]
  | None => Async.ret []
  end.

Definition installTry (host : string) (rem : Remote)
    (onProgress : option (Z -> string -> U -> U))
    (securityOnly : bool)
  : Async.t (World (InstallVars U)) InstallResult :=
  _ <- openTransaction (L := InstallVars U) host rem ;;
  progress <- subscribeProgress onProgress ;;
  finished <- onClient (subscribe "Finished") ;;
  failed <- onClient (subscribe "ErrorCode") ;;
  call (UpdatePackages (if securityOnly then 5 else 1)) ;;
  awaitPromise (@iv_promise U) ivSetPromise
    (progress ++ [ (finished, "Finished", onInstallFinished);
                   (failed, "ErrorCode", onInstallError) ])%list
    (events rem) ;;
  reboot <- Async.gets (fun w => iv_reboot (snd w)) ;;
  Async.ret (mkInstallResult true None (Some reboot)).

Definition installCatch (err : JsError)
  : Async.t (World (InstallVars U)) InstallResult :=
  Async.ret
    (mkInstallResult false
       (Some (if Js.truthy (message err)
              then Registry.override (message err) ""
              else gettext "Failed to install updates"))
       None).

Definition installUpdatesOnHost (host : string)
    (onProgress : option (Z -> string -> U -> U))
    (securityOnly : bool) (rem : Remote)
  : Async.t (Client * U) InstallResult :=
  fun cu =>
    let '(o, w) :=
      Async.tryCatch (installTry host rem onProgress securityOnly)
                     installCatch
                     (fst cu, mkInstallVars None false (snd cu)) in
    (o, (fst w, iv_caller (snd w))).
End Install.

(* ---------------- refreshPackageCache ---------------- *)

Definition onRefreshFinished : Callback Promise :=
  fun _ w => resolve (fun p => p) (fun p _ => p) w.

Definition onRefreshError : Callback Promise :=
  fun s w =>
    match s with
    | ErrorCode _ details =>
        reject (fun p => p) (fun p _ => p) (newError details) w
    | _ => w
    end.

Definition refreshPackageCache (host : string) (rem : Remote)
  : Async.t Client unit :=
  fun c =>
    let '(o, w) :=
      (_ <- openTransaction (L := Promise) host rem ;;
       finished <- onClient (subscribe "Finished") ;;
       failed <- onClient (subscribe "ErrorCode") ;;
       call (RefreshCache true) ;;
       awaitPromise (fun p => p) (fun p _ => p)
         [ (finished, "Finished", onRefreshFinished);
           (failed, "ErrorCode", onRefreshError) ]
         (events rem))
        (c, None) in
    (o, fst w).

End Client.

End Transactions.

(* ================================================================== *)
(** ** Connection prober ([checkMachineConnection]) *)

Module Prober.

(** The remote side of one probe.  [closeEvent]: the channel's
    ["close"] event, with its arrival time in milliseconds after the
    channel was opened and its [options.problem].  [closeNotifies]:
    whether [channel.close()] itself hands a ["close"] event to the
    listeners before it returns, and with which [problem]; the
    channel implementation is the console's, not this package's. *)
Record Channel := mkChannel {
  openThrows : bool;
  closeEvent : option (Z * option string);
  closeNotifies : option (option string)
}.

Inductive Call :=
| OpenChannel (host : string)
| CloseChannel.

(** The promise returned by the probe, its timer, and the calls made
    on the channel. *)
Record Probe := mkProbe {
  resolved : option string;
  timerArmed : bool;
  channelCalls : list Call
}.

Definition TIMEOUT : Z := 10000.

Definition resolve (v : string) (p : Probe) : Probe :=
  match resolved p with
  | None => mkProbe (Some v) (timerArmed p) (channelCalls p)
  | Some _ => p
  end.

Definition clearTimeout (p : Probe) : Probe :=
  mkProbe (resolved p) false (channelCalls p).

(** The ["close"] listener. *)
Definition onClose (problem : option string) (p : Probe) : Probe :=
  let p := clearTimeout p in
  if Js.truthy problem then resolve "failed" p else resolve "connected" p.

Definition channelClose (ch : Channel) (p : Probe) : Probe :=
  let p := mkProbe (resolved p) (timerArmed p)
                   (channelCalls p ++ [CloseChannel]) in
  match closeNotifies ch with
  | Some problem => onClose problem p
  | None => p
  end.

(** The [setTimeout] callback. *)
Definition onTimeout (ch : Channel) (p : Probe) : Probe :=
  resolve "failed" (channelClose ch p).

(** Events in the order of their time: a ["close"] event that
    arrives before the deadline, the timer if it is still armed, a
    ["close"] event that arrives later. *)
Definition run (ch : Channel) (p : Probe) : Probe :=
  let early :=
    match closeEvent ch with
    | Some (t, problem) => if t <? TIMEOUT then onClose problem p else p
    | None => p
    end in
  let timed := if timerArmed early then onTimeout ch early else early in
  match closeEvent ch with
  | Some (t, problem) =>
      if t <? TIMEOUT then timed else onClose problem timed
  | None => timed
  end.

Definition checkMachineConnection (host : string) (ch : Channel)
  : Outcome string * list Call :=
  if String.eqb host "localhost" then (Returned "connected", [])
  else if openThrows ch then (Returned "failed", [OpenChannel host])
  else
    let p := run ch (mkProbe None true [OpenChannel host]) in
    match resolved p with
    | Some v => (Returned v, channelCalls p)
    | None => (Pending, channelCalls p)
    end.

(** *** Reading properties off the returned string *)

Inductive JsVal :=
| JUndefined
| JNumber (n : Z)
| JString (s : string)
| JFunction (name : string).

(** Names found on [String.prototype] and [Object.prototype]. *)
Definition stringPrototype : list string :=
  [ "constructor"; "at"; "charAt"; "charCodeAt"; "codePointAt"; "concat";
    "endsWith"; "includes"; "indexOf"; "isWellFormed"; "lastIndexOf";
    "localeCompare"; "match"; "matchAll"; "normalize"; "padEnd";
    "padStart"; "repeat"; "replace"; "replaceAll"; "search"; "slice";
    "split"; "startsWith"; "substr"; "substring"; "toLocaleLowerCase";
    "toLocaleUpperCase"; "toLowerCase"; "toString"; "toUpperCase";
    "toWellFormed"; "trim"; "trimEnd"; "trimLeft"; "trimRight";
    "trimStart"; "valueOf"; "anchor"; "big"; "blink"; "bold"; "fixed";
    "fontcolor"; "fontsize"; "italics"; "link"; "small"; "strike"; "sub";
    "sup"; "hasOwnProperty"; "isPrototypeOf"; "propertyIsEnumerable";
    "toLocaleString"; "__proto__"; "__defineGetter__";
    "__defineSetter__"; "__lookupGetter__"; "__lookupSetter__" ].

Definition digit (c : ascii) : option nat :=
  let n := nat_of_ascii c in
  if ((48 <=? n) && (n <=? 57))%nat then Some (n - 48)%nat else None.

Fixpoint digits (acc : nat) (s : string) : option nat :=
  match s with
  | EmptyString => Some acc
  | String c rest =>
      match digit c with
      | Some d => digits (10 * acc + d)%nat rest
      | None => None
      end
  end.

(** A canonical array index: decimal, no leading zero. *)
Definition arrayIndex (name : string) : option nat :=
  match name with
  | EmptyString => None
  | String "0" EmptyString => Some 0%nat
  | String "0" _ => None
  | _ => digits 0 name
  end.

(** [s[name]] for a string primitive [s]. *)
Definition stringProperty (s : string) (name : string) : JsVal :=
  if String.eqb name "length" then JNumber (Z.of_nat (String.length s))
  else
    match arrayIndex name with
    | Some i =>
        match String.get i s with
        | Some c => JString (String c EmptyString)
        | None => JUndefined
        end
    | None =>
        if Js.mem name stringPrototype then JFunction name else JUndefined
    end.

(** [const { state, hostname } = await checkMachineConnection(...)]. *)
Definition destructure (result : string) : JsVal * JsVal :=
  (stringProperty result "state", stringProperty result "hostname").

(** [v === s] for a string literal [s]. *)
Definition strictEq (v : JsVal) (s : string) : bool :=
  match v with
  | JString s' => String.eqb s' s
  | _ => false
  end.

(** [v || d] where a string is expected. *)
Definition orString (v : JsVal) (d : string) : string :=
  match v with
  | JString s => Js.orElse s d
  | _ => d
  end.

(** A property value stored in a field typed [string | undefined]. *)
Definition asString (v : JsVal) : option string :=
  match v with
  | JString s => Some s
  | _ => None
  end.

End Prober.

(* ================================================================== *)
(** ** Dashboard state and orchestration ([dashboard.tsx]) *)

Record MachineWithUpdates := mkEntry {
  machine : Machine;
  updates : UpdateInfo;
  updateProgress : option (Z * string);
  updating : option bool;
  selected : option bool
}.

Inductive Variant := Success | Danger | Warning | Info.

Record AlertInfo := mkAlert {
  alertKey : nat;
  variant : Variant;
  title : string
}.

Module Dashboard.
Local Open Scope async_scope.

(** The React state of [MachinesDashboard]. *)
Record Dash := mkDash {
  machines : list MachineWithUpdates;
  alerts : list AlertInfo;
  selectedMachines : list string;
  bulkUpdating : bool
}.

Inductive Api :=
| InstallUpdates (securityOnly : bool)
| RefreshPackageCache
| GetUpdates
| CheckConnection.

(** Calls into [machines-api] and their settling, as they happen. *)
Inductive TraceEvent :=
| Called (a : Api) (host : string)
| Settled (a : Api) (host : string).

(** The page: its state, the clock, and the trace of API calls. *)
Record Page := mkPage {
  dash : Dash;
  now : nat;
  trace : list TraceEvent
}.

(** The remote side of every API call, by host and time of call. *)
Record Env := mkEnv {
  installRemote : string -> nat -> DBus.Remote;
  refreshRemote : string -> nat -> DBus.Remote;
  checkRemote : string -> nat -> DBus.Remote;
  probeChannel : string -> nat -> Prober.Channel
}.

Definition keyIs (host : string) (m : MachineWithUpdates) : bool :=
  String.eqb (key (machine m)) host.

Definition stateIs (s : string) (m : MachineWithUpdates) : bool :=
  match state (machine m) with
  | Some s' => String.eqb s' s
  | None => false
  end.

(** [!m.updating]. *)
Definition notUpdating (m : MachineWithUpdates) : bool :=
  match updating m with
  | Some true => false
  | _ => true
  end.

(** [setMachines(prev => prev.map(m => m.key === host ? f(m) : m))]. *)
Definition setMachine (host : string)
    (f : MachineWithUpdates -> MachineWithUpdates) (p : Page) : Page :=
  mkPage
    (mkDash (map (fun m => if keyIs host m then f m else m)
                 (machines (dash p)))
            (alerts (dash p)) (selectedMachines (dash p))
            (bulkUpdating (dash p)))
    (now p) (trace p).

Definition setBulkUpdating (b : bool) (p : Page) : Page :=
  mkPage (mkDash (machines (dash p)) (alerts (dash p))
                 (selectedMachines (dash p)) b)
         (now p) (trace p).

Definition withState (s : option string) (m : MachineWithUpdates)
  : MachineWithUpdates :=
  let b := machine m in
  mkEntry (mkMachine (key b) (address b) (label b) (user b) (color b) s
                     (visible b) (avatar b))
          (updates m) (updateProgress m) (updating m) (selected m).

Definition withLabel (l : string) (m : MachineWithUpdates)
  : MachineWithUpdates :=
  mkEntry (Registry.setLabel (machine m) l)
          (updates m) (updateProgress m) (updating m) (selected m).

Definition withUpdates (u : UpdateInfo) (m : MachineWithUpdates)
  : MachineWithUpdates :=
  mkEntry (machine m) u (updateProgress m) (updating m) (selected m).

Definition withInstall (flag : option bool) (progress : option (Z * string))
    (m : MachineWithUpdates) : MachineWithUpdates :=
  mkEntry (machine m) (updates m) progress flag (selected m).

Definition withProgress (progress : option (Z * string))
    (m : MachineWithUpdates) : MachineWithUpdates :=
  mkEntry (machine m) (updates m) progress (updating m) (selected m).

Definition log (e : TraceEvent) (p : Page) : Page :=
  mkPage (dash p) (S (now p)) (trace p ++ [e]).

Section Orchestrator.
Variable gettext : string -> string.
Variable cockpit_format : string -> list (option string) -> string.
Variable env : Env.

(** [addAlert]: the key is taken from the clock. *)
Definition addAlert (v : Variant) (text : string) : Async.t Page unit :=
  Async.modify (fun p =>
    mkPage (mkDash (machines (dash p))
                   (alerts (dash p) ++ [mkAlert (now p) v text])
                   (selectedMachines (dash p)) (bulkUpdating (dash p)))
           (now p) (trace p)).

(** An awaited call into [machines-api] on a client of its own. *)
Definition api {A} (a : Api) (host : string)
    (run : Page -> Outcome A * Page) : Async.t Page A :=
  fun p =>
    match run (log (Called a host) p) with
    | (Pending, p1) => (Pending, p1)
    | (r, p1) => (r, log (Settled a host) p1)
    end.

Definition callCheckConnection (host : string) : Async.t Page string :=
  api CheckConnection host (fun p =>
    (fst (Prober.checkMachineConnection host
            (probeChannel env host (now p))), p)).

Definition callRefreshPackageCache (host : string) : Async.t Page unit :=
  api RefreshPackageCache host (fun p =>
    (fst (Transactions.refreshPackageCache gettext host
            (refreshRemote env host (now p)) DBus.newClient), p)).

Definition callGetUpdates (host : string) : Async.t Page UpdateInfo :=
  api GetUpdates host (fun p =>
    (fst (Transactions.getUpdatesForHost gettext (now p) host
            (checkRemote env host (now p)) DBus.newClient), p)).

Definition callInstall (host : string)
    (onProgress : Z -> string -> Page -> Page) (securityOnly : bool)
  : Async.t Page InstallResult :=
  api (InstallUpdates securityOnly) host (fun p =>
    let '(o, (_, p1)) :=
      Transactions.installUpdatesOnHost gettext cockpit_format host
        (Some onProgress) securityOnly
        (installRemote env host (now p)) (DBus.newClient, p) in
    (o, p1)).

Definition notConnected (p : Page) : UpdateInfo :=
  mkUpdateInfo 0 0 false (Some (gettext "Machine not connected"))
               (Some (now p)).

(** [refreshMachine], first [setMachines]: the entry is shown as
    loading, and as connecting unless it is connected. *)
Definition markRefreshing (m : MachineWithUpdates) : MachineWithUpdates :=
  withUpdates
    (mkUpdateInfo (total (updates m)) (security (updates m)) true
                  (error (updates m)) (lastChecked (updates m)))
    (withState (if stateIs "connected" m then Some "connected"
                else Some "connecting") m).

(** [refreshMachine], end of the [try] block: refresh the cache, read
    the updates, store them. *)
Definition refreshUpdates (host : string) : Async.t Page unit :=
  callRefreshPackageCache host ;;
  updates <- callGetUpdates host ;;
  Async.modify (setMachine host (fun m =>
    withUpdates updates (withState (Some "connected") m))).

(** [refreshMachine], the connection check made when the closed-over
    entry is not connected. *)
Definition reconnect (host : string) : Async.t Page unit :=
  result <- callCheckConnection host ;;
  let '(connectionState, hostname) := Prober.destructure result in
  Async.modify (setMachine host (fun m =>
    withLabel (Prober.orString hostname (label (machine m)))
              (withState (Prober.asString connectionState) m))) ;;
  if negb (Prober.strictEq connectionState "connected")
  then Async.modify (fun p => setMachine host (withUpdates (notConnected p)) p)
  else refreshUpdates host.

(** [refreshMachine], the [catch] block. *)
Definition refreshFailed (host : string) (err : JsError)
  : Async.t Page unit :=
  Async.modify (setMachine host (fun m =>
    withUpdates
      (mkUpdateInfo (total (updates m)) (security (updates m))
                    false (message err) (lastChecked (updates m)))
      m)) ;;
  addAlert Danger
    (cockpit_format (gettext "Failed to check updates on $0: $1")
                    [Some host; message err]).

(** [refreshMachine]; [snapshot] is the [machines] value the
    callback closed over. *)
Definition refreshMachine (snapshot : list MachineWithUpdates)
    (host : string) : Async.t Page unit :=
  Async.modify (setMachine host markRefreshing) ;;
  Async.tryCatch
    (match find (keyIs host) snapshot with
     | Some found =>
         if negb (stateIs "connected" found) then reconnect host
         else refreshUpdates host
     | None => refreshUpdates host
     end)
    (refreshFailed host).

Definition onProgress (host : string) (percent : Z) (status : string)
  : Page -> Page :=
  setMachine host (withProgress (Some (percent, status))).

(** [updateMachine], first [setMachines]. *)
Definition startInstall (host : string) : Page -> Page :=
  setMachine host
    (withInstall (Some true) (Some (0, gettext "Starting update..."))).

(** [updateMachine], the [try] block after the awaited install. *)
Definition afterInstall (snapshot : list MachineWithUpdates)
    (host : string) (result : InstallResult) : Async.t Page unit :=
  if success result then
    addAlert Success
      (cockpit_format (gettext "Updates installed successfully on $0")
                      [Some host]) ;;
    (match rebootRequired result with
     | Some true =>
         addAlert Warning
           (cockpit_format
              (gettext "$0 requires a reboot to complete the update")
              [Some host])
     | _ => Async.ret tt
     end) ;;
    refreshMachine snapshot host
  else Async.throw (newError (Registry.override (installError result) "")).

(** [updateMachine], the [catch] block. *)
Definition installFailed (host : string) (err : JsError)
  : Async.t Page unit :=
  addAlert Danger
    (cockpit_format (gettext "Failed to update $0: $1")
                    [Some host; message err]).

(** [updateMachine], the [finally] block. *)
Definition clearInstall (host : string) : Page -> Page :=
  setMachine host (withInstall (Some false) None).

(** [updateMachine]. *)
Definition updateMachine (snapshot : list MachineWithUpdates)
    (host : string) (securityOnly : bool) : Async.t Page unit :=
  Async.modify (startInstall host) ;;
  Async.tryFinally
    (Async.tryCatch
       (result <- callInstall host (onProgress host) securityOnly ;;
        afterInstall snapshot host result)
       (installFailed host))
    (Async.modify (clearInstall host)).

(** The filter of the auto-refresh effect: the machines for which
    a change of [machines] starts an update check. *)
Definition machinesNeedingRefresh (ms : list MachineWithUpdates)
  : list MachineWithUpdates :=
  filter (fun m => stateIs "connected" m && loading (updates m)
                   && notUpdating m) ms.

(** The filter of [updateAll]. *)
Definition needsUpdate (m : MachineWithUpdates) : bool :=
  stateIs "connected" m && (0 <? total (updates m)) && notUpdating m.

(** [updateAll]. *)
Definition updateAll (snapshot : list MachineWithUpdates)
    (securityOnly : bool) : Async.t Page unit :=
  Async.modify (setBulkUpdating true) ;;
  Async.forEach (filter needsUpdate snapshot)
    (fun m => updateMachine snapshot (key (machine m)) securityOnly) ;;
  Async.modify (setBulkUpdating false).

End Orchestrator.

End Dashboard.

(* ================================================================== *)
(** ** Vocabulary of the statements *)

Module Spec.

(** An asynchronous computation keeps [I], however it ends. *)
Definition preserves {S : Type} (I : S -> Prop) {A : Type}
    (m : Async.t S A) : Prop :=
  forall s, I s -> I (snd (m s)).

(** The visible records of the registry after merging, in set order;
    empty when the item is absent, empty or unreadable. *)
Definition visibleRecords (SESSION_KEY : string)
    (JSON_parse : string -> option MachinesData) (b : Browser)
  : list Machine :=
  match Js.prop (sessionStorage b) SESSION_KEY with
  | None => []
  | Some data =>
      if String.eqb data "" then []
      else
        match JSON_parse data with
        | None => []
        | Some parsed =>
            let content := Registry.override (content parsed) [] in
            let overlay := Registry.override (overlay parsed) [] in
            Registry.collect b content overlay
              (Js.newSet (Js.keys content ++ Js.keys overlay))
        end
  end.

(** Ascending order of labels under a comparator. *)
Definition labelLe (cmp : string -> string -> Z) (a c : Machine) : Prop :=
  cmp (label a) (label c) <= 0.

(** A comparator by code units, one possible [localeCompare]. *)
Definition codeUnitCompare (a c : string) : Z :=
  match String.compare a c with
  | Lt => -1
  | Eq => 0
  | Gt => 1
  end.

(** How the remote side of a transaction ends for the page. *)
Inductive Verdict := Completes | Fails | Hangs.

Fixpoint streamVerdict (evs : list DBus.Event) : Verdict :=
  match evs with
  | [] => Hangs
  | DBus.Emit (DBus.Finished _) :: _ => Completes
  | DBus.Emit (DBus.ErrorCode _ _) :: _ => Fails
  | DBus.CallFails _ :: _ => Fails
  | _ :: rest => streamVerdict rest
  end.

(** How the awaited promise of a transaction settles on a stream. *)
Fixpoint streamOutcome (evs : list DBus.Event) : Outcome unit :=
  match evs with
  | [] => Pending
  | DBus.Emit (DBus.Finished _) :: _ => Returned tt
  | DBus.Emit (DBus.ErrorCode _ details) :: _ => Threw (newError details)
  | DBus.CallFails e :: _ => Threw e
  | _ :: rest => streamOutcome rest
  end.

(** The callbacks of [getUpdatesForHost], by subscription. *)
Definition checkTable (pkg fin err : nat)
  : DBus.Table Transactions.CheckVars :=
  [ (pkg, "Package", Transactions.onPackage);
    (fin, "Finished", Transactions.onCheckFinished fin);
    (err, "ErrorCode", Transactions.onCheckError err) ].

Definition verdict (rem : DBus.Remote) : Verdict :=
  match DBus.createTransaction rem with
  | Rejects _ => Fails
  | Never => Hangs
  | Resolves path =>
      if Js.truthy path then
        match DBus.proxyWait rem with
        | Rejects _ => Fails
        | Never => Hangs
        | Resolves _ => streamVerdict (DBus.events rem)
        end
      else Fails
  end.

(** The percentage carried by a progress signal. *)
Definition percentOf (ev : DBus.Event) : option Z :=
  match ev with
  | DBus.Emit (DBus.Percentage p) => Some p
  | DBus.Emit (DBus.ItemProgress _ p) => Some p
  | _ => None
  end.

(** A progress callback that records its invocations. *)
Definition recordProgress (percent : Z) (status : string)
    (seen : list (Z * string)) : list (Z * string) :=
  seen ++ [(percent, status)].

Definition isInstall (e : Dashboard.TraceEvent) : bool :=
  match e with
  | Dashboard.Called (Dashboard.InstallUpdates _) _ => true
  | Dashboard.Settled (Dashboard.InstallUpdates _) _ => true
  | _ => false
  end.

(** Calls that start an update check for [host]. *)
Definition isCheckOf (host : string) (e : Dashboard.TraceEvent) : bool :=
  match e with
  | Dashboard.Called Dashboard.GetUpdates h => String.eqb h host
  | Dashboard.Called Dashboard.RefreshPackageCache h => String.eqb h host
  | _ => false
  end.

(** One awaited install per visited host. *)
Definition installRun (securityOnly : bool) (hosts : list string)
  : list Dashboard.TraceEvent :=
  flat_map (fun h =>
    [ Dashboard.Called (Dashboard.InstallUpdates securityOnly) h;
      Dashboard.Settled (Dashboard.InstallUpdates securityOnly) h ]) hosts.

(** A probe is resolved, if at all, with one of the two verdicts. *)
Definition verdictOnly (p : Prober.Probe) : Prop :=
  match Prober.resolved p with
  | Some r => r = "connected" \/ r = "failed"
  | None => True
  end.

(** No ["close"] event reaches the page before the deadline. *)
Definition silentUntilTimeout (ch : Prober.Channel) : Prop :=
  match Prober.closeEvent ch with
  | Some (t, _) => Prober.TIMEOUT <= t
  | None => True
  end.

Definition installs (t : list Dashboard.TraceEvent)
  : list Dashboard.TraceEvent :=
  filter isInstall t.

Definition keyOf (m : MachineWithUpdates) : string := key (machine m).

(** An entry keeps its key, and its install bookkeeping unless its
    key is one of [hosts]. *)
Definition untouched (hosts : list string) (m m' : MachineWithUpdates)
  : Prop :=
  keyOf m' = keyOf m /\
  (Js.mem (keyOf m) hosts = false ->
   updating m' = updating m /\ updateProgress m' = updateProgress m).

Definition framed (hosts : list string) (p p' : Dashboard.Page) : Prop :=
  Forall2 (untouched hosts) (Dashboard.machines (Dashboard.dash p))
          (Dashboard.machines (Dashboard.dash p')).

(** An update of an entry that leaves key and install bookkeeping. *)
Definition quiet (f : MachineWithUpdates -> MachineWithUpdates) : Prop :=
  forall m, keyOf (f m) = keyOf m /\ updating (f m) = updating m /\
            updateProgress (f m) = updateProgress m.

(** Properties of the page kept by checks and alerts on [host]. *)
Record stable (host : string) (I : Dashboard.Page -> Prop) : Prop := {
  stable_log : forall e q, isInstall e = false -> I q ->
                           I (Dashboard.log e q);
  stable_set : forall f q, quiet f -> I q ->
                           I (Dashboard.setMachine host f q);
  stable_alert : forall v text q, I q ->
    I (Dashboard.mkPage
         (Dashboard.mkDash
            (Dashboard.machines (Dashboard.dash q))
            (Dashboard.alerts (Dashboard.dash q)
               ++ [mkAlert (Dashboard.now q) v text])
            (Dashboard.selectedMachines (Dashboard.dash q))
            (Dashboard.bulkUpdating (Dashboard.dash q)))
         (Dashboard.now q) (Dashboard.trace q))
}.

(** The trace of the page starts with [t]. *)
Definition extends (t : list Dashboard.TraceEvent) (p : Dashboard.Page)
  : Prop :=
  exists rest, Dashboard.trace p = (t ++ rest)%list.

(** Every entry of [host] is marked as updating. *)
Definition allUpdating (host : string) (p : Dashboard.Page) : Prop :=
  forall m, In m (Dashboard.machines (Dashboard.dash p)) ->
            keyOf m = host -> updating m = Some true.

(** Every entry of [host] has its install bookkeeping cleared. *)
Definition allCleared (host : string) (p : Dashboard.Page) : Prop :=
  forall m, In m (Dashboard.machines (Dashboard.dash p)) ->
            keyOf m = host ->
            updating m = Some false /\ updateProgress m = None.

(** The entry of [host] the callbacks closed over is connected, or
    there is none. *)
Definition connectedIn (snapshot : list MachineWithUpdates) (host : string)
  : Prop :=
  match find (Dashboard.keyIs host) snapshot with
  | Some m => Dashboard.stateIs "connected" m = true
  | None => True
  end.

(** The install bookkeeping of an entry is cleared. *)
Definition cleared (m : MachineWithUpdates) : Prop :=
  updating m = Some false /\ updateProgress m = None.

End Spec.

(* ================================================================== *)
(** ** Concrete registries, remotes and pages *)

Module Examples.

Definition SESSION_KEY : string := "v2-machines.json".

Definition q : string := String (ascii_of_nat 34) EmptyString.

(** The registry document
    [{ content: { 10.0.0.5: { label: db1 } }, overlay: {} }]. *)
Definition db1Text : string :=
  "{" ++ q ++ "content" ++ q ++ ":{" ++ q ++ "10.0.0.5" ++ q ++ ":{"
      ++ q ++ "label" ++ q ++ ":" ++ q ++ "db1" ++ q ++ "}},"
      ++ q ++ "overlay" ++ q ++ ":{}}".

Definition labelled (l : string) : PartialMachine :=
  mkPartial None None (Some l) None None None None None.

Definition db1Data : MachinesData :=
  mkMachinesData (Some [("10.0.0.5", labelled "db1")]) (Some []).

(** A reader that knows one document and rejects every other text. *)
Definition parseOnly (text : string) (data : MachinesData)
  : string -> option MachinesData :=
  fun s => if String.eqb s text then Some data else None.

Definition db1Browser : Browser :=
  mkBrowser [(SESSION_KEY, db1Text)] "console.example" [].

Definition noRegistry : Browser := mkBrowser [] "console.example" [].

(** Three hosts, one of them the local machine, one hidden by the
    overlay. *)
Definition fleetText : string := "fleet".

Definition fleetData : MachinesData :=
  mkMachinesData
    (Some [ ("web2", labelled "zeta"); ("localhost", noFields);
            ("10.0.0.5", labelled "db1"); ("old", labelled "attic") ])
    (Some [ ("old", mkPartial None None None None None None (Some false)
                              None) ]).

Definition fleetBrowser : Browser :=
  mkBrowser [(SESSION_KEY, fleetText)] "console.example" [].

(** A host that never answers the probe. *)
Definition silentChannel : Prober.Channel :=
  Prober.mkChannel false None None.

(** A host whose channel closes with a problem after 120 ms. *)
Definition refusedChannel : Prober.Channel :=
  Prober.mkChannel false (Some (120, Some "no-host")) None.

Definition gettext (s : string) : string := s.

(** A [cockpit.format] that appends its arguments to the template. *)
Definition format (template : string) (args : list (option string))
  : string :=
  fold_left (fun acc a => acc ++ " " ++ Registry.override a "undefined")
            args template.

Definition txPath : string := "/org/freedesktop/PackageKit/tx1".

(** Two updates, one of them a security update, then completion with
    the exit code of a required reboot. *)
Definition finishingRemote : DBus.Remote :=
  DBus.mkRemote (Resolves (Some txPath)) (Resolves tt)
    [ DBus.Emit (DBus.Package 8 "openssl;3.0.2;x86_64;updates");
      DBus.Emit (DBus.Package 1 "vim;9.0;x86_64;updates");
      DBus.Emit (DBus.Finished 1) ].

(** A transaction that ends with an error event. *)
Definition failingRemote : DBus.Remote :=
  DBus.mkRemote (Resolves (Some txPath)) (Resolves tt)
    [ DBus.Emit (DBus.Package 1 "vim;9.0;x86_64;updates");
      DBus.Emit (DBus.ErrorCode 7 "no network") ].

(** An install whose progress events include a negative percentage
    and one above 100. *)
Definition progressRemote : DBus.Remote :=
  DBus.mkRemote (Resolves (Some txPath)) (Resolves tt)
    [ DBus.Emit (DBus.Percentage 10);
      DBus.Emit (DBus.Percentage (-1));
      DBus.Emit (DBus.ItemProgress "vim;9.0;x86_64;updates" 50);
      DBus.Emit (DBus.Percentage 101);
      DBus.Emit (DBus.Finished 0) ].

(** A package service that is not installed on the host. *)
Definition missingService : DBus.Remote :=
  DBus.mkRemote
    (Rejects (mkError (Some "org.freedesktop.DBus.Error.ServiceUnknown")))
    Never [].

Definition entry (k l : string) (st : string) (pending : Z)
    (busy : option bool) : MachineWithUpdates :=
  mkEntry (mkMachine k k l None None (Some st) None None)
          (mkUpdateInfo pending 0 false None (Some 1%nat))
          None busy None.

(** A roster of five: two connected machines with pending updates, one
    connected and up to date, one unreachable, one already updating. *)
Definition fleet : list MachineWithUpdates :=
  [ entry "10.0.0.5" "db1" "connected" 0 None;
    entry "db9" "db9" "failed" 5 None;
    entry "localhost" "localhost" "connected" 3 None;
    entry "web2" "web2" "connected" 2 (Some false);
    entry "web3" "web3" "connected" 1 (Some true) ].

Definition fleetPage : Dashboard.Page :=
  Dashboard.mkPage (Dashboard.mkDash fleet [] [] false) 10 [].

(** Installs fail on web2 and succeed elsewhere; cache refreshes and
    update checks succeed; probes get no answer. *)
Definition env : Dashboard.Env :=
  Dashboard.mkEnv
    (fun host _ => if String.eqb host "web2" then failingRemote
                   else progressRemote)
    (fun _ _ => finishingRemote)
    (fun _ _ => finishingRemote)
    (fun _ _ => silentChannel).

(** A package service that accepts the install and then stays silent. *)
Definition silentRemote : DBus.Remote :=
  DBus.mkRemote (Resolves (Some txPath)) (Resolves tt) [].

Definition silentEnv : Dashboard.Env :=
  Dashboard.mkEnv (fun _ _ => silentRemote) (fun _ _ => finishingRemote)
                  (fun _ _ => finishingRemote) (fun _ _ => silentChannel).

End Examples.

From Stdlib Require Import Permutation.
(* ================================================================== *)
(** ** Watching the registry ([subscribeMachines]) *)

Module Watcher.

(** The fields of a [StorageEvent] the handler reads;
    [ev_sessionArea]: [ev.storageArea === window.sessionStorage]. *)
Record StorageEvent := mkStorageEvent {
  ev_key : option string;
  ev_sessionArea : bool;
  ev_newValue : option string
}.

(** The closure of one subscription: [lastData], [isActive], and
    whether the storage listener and the interval are still set. *)
Record Handle := mkHandle {
  lastData : option string;
  isActive : bool;
  listening : bool;
  polling : bool
}.

(** What happens to a subscription: a storage event is dispatched, the
    interval fires, the console rewrites the registry item in this tab
    ([None]: removes it), the caller unsubscribes. *)
Inductive Event :=
| Storage (ev : StorageEvent)
| Tick
| Write (value : option string)
| Unsubscribe.

(** [a === b] on [string | null]. *)
Definition sameData (a c : option string) : bool :=
  match a, c with
  | Some x, Some y => String.eqb x y
  | None, None => true
  | _, _ => false
  end.

Fixpoint setItem (k v : string) (items : list (string * string))
  : list (string * string) :=
  match items with
  | [] => [(k, v)]
  | (k', v') :: rest =>
      if String.eqb k' k then (k, v) :: rest
      else (k', v') :: setItem k v rest
  end.

Definition removeItem (k : string) (items : list (string * string))
  : list (string * string) :=
  filter (fun kv => negb (String.eqb (fst kv) k)) items.

Section Watch.
Variable SESSION_KEY : string.
Variable JSON_parse : string -> option MachinesData.
Variable localeCompare : string -> string -> Z.
(** The state the subscriber's callback acts on. *)
Variable U : Type.
Variable callback : list Machine -> U -> U.

Record World := mkWorld {
  browser : Browser;
  handle : Handle;
  caller : U
}.

Definition getItem (b : Browser) : option string :=
  Js.prop (sessionStorage b) SESSION_KEY.

(** [callback(getMachinesList())]. *)
Definition notify (w : World) : World :=
  let '(roster, b) :=
    Registry.getMachinesList SESSION_KEY JSON_parse localeCompare
                             (browser w) in
  mkWorld b (handle w) (callback roster (caller w)).

Definition setLastData (d : option string) (w : World) : World :=
  mkWorld (browser w)
          (mkHandle d (isActive (handle w)) (listening (handle w))
                    (polling (handle w)))
          (caller w).

(** [subscribeMachines(callback)] up to its [return]. *)
Definition subscribeMachines (b : Browser) (u : U) : World :=
  notify (mkWorld b (mkHandle (getItem b) true true true) u).

(** [storageHandler]. *)
Definition storageHandler (ev : StorageEvent) (w : World) : World :=
  if sameData (ev_key ev) (Some SESSION_KEY) && ev_sessionArea ev
  then notify (setLastData (ev_newValue ev) w)
  else w.

(** The [setInterval] callback. *)
Definition poll (w : World) : World :=
  if negb (isActive (handle w)) then w
  else
    let currentData := getItem (browser w) in
    if negb (sameData currentData (lastData (handle w)))
    then notify (setLastData currentData w)
    else w.

(** The function returned by [subscribeMachines]. *)
Definition unsubscribe (w : World) : World :=
  mkWorld (browser w) (mkHandle (lastData (handle w)) false false false)
          (caller w).

Definition write (value : option string) (w : World) : World :=
  let b := browser w in
  mkWorld
    (mkBrowser
       (match value with
        | Some v => setItem SESSION_KEY v (sessionStorage b)
        | None => removeItem SESSION_KEY (sessionStorage b)
        end)
       (hostname b) (console b))
    (handle w) (caller w).

Definition step (w : World) (e : Event) : World :=
  match e with
  | Storage ev => if listening (handle w) then storageHandler ev w else w
  | Tick => if polling (handle w) then poll w else w
  | Write value => write value w
  | Unsubscribe => unsubscribe w
  end.

Definition run (events : list Event) (w : World) : World :=
  fold_left step events w.

End Watch.

End Watcher.

(* ================================================================== *)
(** ** Dashboard: alerts, selection, roster changes, bulk actions,
    summary ([dashboard.tsx]) *)

(** The React state of [MachinesDashboard] with its [loading] flag. *)
Record App := mkApp {
  page : Dashboard.Page;
  pageLoading : bool
}.

Module Controls.
Import Dashboard.
Local Open Scope async_scope.

Definition withAlerts (l : list AlertInfo) (p : Page) : Page :=
  mkPage (mkDash (machines (dash p)) l (selectedMachines (dash p))
                 (bulkUpdating (dash p)))
         (now p) (trace p).

(** [removeAlert]. *)
Definition removeAlert (k : nat) (p : Page) : Page :=
  withAlerts (filter (fun a => negb (Nat.eqb (alertKey a) k))
                     (alerts (dash p))) p.

Definition setSelectedMachines (sel : list string) (p : Page) : Page :=
  mkPage (mkDash (machines (dash p)) (alerts (dash p)) sel
                 (bulkUpdating (dash p)))
         (now p) (trace p).

Definition setMachines (ms : list MachineWithUpdates) (p : Page) : Page :=
  mkPage (mkDash ms (alerts (dash p)) (selectedMachines (dash p))
                 (bulkUpdating (dash p)))
         (now p) (trace p).

(** [handleSelect]: [next.add(host)] or [next.delete(host)] on a copy
    of the set. *)
Definition handleSelect (host : string) (selected : bool) (p : Page) : Page :=
  let prev := selectedMachines (dash p) in
  setSelectedMachines
    (if selected then
       if Js.mem host prev then prev else prev ++ [host]
     else filter (fun k => negb (String.eqb k host)) prev)
    p.

(** [selectAll]; [snapshot] is the closed-over [machines]. *)
Definition selectAll (snapshot : list MachineWithUpdates) (selected : bool)
    (p : Page) : Page :=
  if selected then
    setSelectedMachines
      (Js.newSet
         (map (fun m => key (machine m))
              (filter (fun m => stateIs "connected" m && notUpdating m)
                      snapshot)))
      p
  else setSelectedMachines [] p.

(** *** Roster changes (the callback given to [subscribeMachines]) *)

(** [{ ...existing, ...newM }] on the fields of [Machine]. *)
Definition spreadMachine (existing newM : Machine) : Machine :=
  mkMachine (key newM) (address newM) (label newM)
            (Registry.overrideOpt (user newM) (user existing))
            (Registry.overrideOpt (color newM) (color existing))
            (Registry.overrideOpt (state newM) (state existing))
            (Registry.overrideOpt (visible newM) (visible existing))
            (Registry.overrideOpt (avatar newM) (avatar existing)).

Definition keysOf (ms : list MachineWithUpdates) : list string :=
  map (fun m => key (machine m)) ms.

Definition sameState (a c : option string) : bool := Watcher.sameData a c.

Definition withLoading (u : UpdateInfo) : UpdateInfo :=
  mkUpdateInfo (total u) (security u) true (error u) (lastChecked u).

Definition mergeOne (prev : list MachineWithUpdates) (newM : Machine)
  : MachineWithUpdates :=
  match find (keyIs (key newM)) prev with
  | Some existing =>
      let needsRefresh :=
        negb (sameState (state (machine existing)) (state newM))
        && sameState (state newM) (Some "connected") in
      mkEntry (spreadMachine (machine existing) newM)
              (if needsRefresh then withLoading (updates existing)
               else updates existing)
              (updateProgress existing) (updating existing)
              (selected existing)
  | None =>
      mkEntry newM
              (mkUpdateInfo 0 0 (sameState (state newM) (Some "connected"))
                            None None)
              None None None
  end.

Definition keysChanged (prev : list MachineWithUpdates)
    (newMachineList : list Machine) : bool :=
  let prevKeys := Js.newSet (keysOf prev) in
  let newKeys := Js.newSet (map key newMachineList) in
  negb (Nat.eqb (List.length prevKeys) (List.length newKeys))
  || existsb (fun k => negb (Js.mem k newKeys)) prevKeys
  || existsb (fun k => negb (Js.mem k prevKeys)) newKeys.

Definition stateChanged (prev : list MachineWithUpdates)
    (newMachineList : list Machine) : bool :=
  existsb (fun newM =>
             match find (keyIs (key newM)) prev with
             | Some oldM => negb (sameState (state (machine oldM))
                                            (state newM))
             | None => false
             end)
          newMachineList.

(** The updater passed to [setMachines] on a roster change. *)
Definition mergeRoster (newMachineList : list Machine)
    (prev : list MachineWithUpdates) : list MachineWithUpdates :=
  if keysChanged prev newMachineList || stateChanged prev newMachineList
  then map (mergeOne prev) newMachineList
  else prev.

(** *** Summary figures ([SummaryCard] and the toolbar) *)

Definition connectedCount (ms : list MachineWithUpdates) : nat :=
  List.length (filter (stateIs "connected") ms).

Definition failedCount (ms : list MachineWithUpdates) : nat :=
  List.length (filter (stateIs "failed") ms).

Definition totalUpdates (ms : list MachineWithUpdates) : Z :=
  fold_left (fun sum m => sum + total (updates m)) ms 0.

Definition securityUpdates (ms : list MachineWithUpdates) : Z :=
  fold_left (fun sum m => sum + security (updates m)) ms 0.

Definition upToDate (ms : list MachineWithUpdates) : nat :=
  List.length
    (filter (fun m => stateIs "connected" m && (total (updates m) =? 0)
                      && negb (Js.truthy (error (updates m))))
            ms).

Definition selectedUpdates (sel : list string) (ms : list MachineWithUpdates)
  : Z :=
  totalUpdates (filter (fun m => Js.mem (key (machine m)) sel) ms).

Section Actions.
Variable gettext : string -> string.
Variable cockpit_format : string -> list (option string) -> string.
Variable env : Env.

(** [refreshAll]. *)
Definition refreshAll (snapshot : list MachineWithUpdates)
  : Async.t Page unit :=
  Async.forEach (filter (stateIs "connected") snapshot)
    (fun m => refreshMachine gettext cockpit_format env snapshot
                             (key (machine m))).

(** [updateSelected]; [selection] is the closed-over
    [selectedMachines]. *)
Definition updateSelected (snapshot : list MachineWithUpdates)
    (selection : list string) (securityOnly : bool) : Async.t Page unit :=
  Async.modify (setBulkUpdating true) ;;
  Async.forEach
    (filter (fun m => Js.mem (key (machine m)) selection
                      && stateIs "connected" m) snapshot)
    (fun m =>
       if 0 <? total (updates m)
       then updateMachine gettext cockpit_format env snapshot
                          (key (machine m)) securityOnly
       else Async.ret tt) ;;
  Async.modify (setBulkUpdating false) ;;
  Async.modify (setSelectedMachines []).

(** One round of the auto-refresh effect for one machine:
    [getUpdatesForHost(machine.address).then(...).catch(...)]. *)
Definition autoRefreshOne (m : MachineWithUpdates) : Async.t Page unit :=
  Async.tryCatch
    (updates <- callGetUpdates gettext env (address (machine m)) ;;
     Async.modify (setMachine (key (machine m)) (withUpdates updates)))
    (fun err =>
       Async.modify (fun p =>
         setMachine (key (machine m))
           (withUpdates (mkUpdateInfo 0 0 false (message err)
                                      (Some (now p))))
           p)).

(** *** [loadMachines] *)

(** The entries [loadMachines] starts from. *)
Definition seedEntry (m : Machine) : MachineWithUpdates :=
  mkEntry
    (mkMachine (key m) (address m) (label m) (user m) (color m)
               (Some (Js.orElse (Registry.override (state m) "") "unknown"))
               (visible m) (avatar m))
    (mkUpdateInfo 0 0 true None None) None None None.

(** [!effectiveState || effectiveState === "unknown"]. *)
Definition needsProbe (m : Machine) : bool :=
  negb (Js.truthy (state m)) || sameState (state m) (Some "unknown").

(** The body of the [for (const machine of machineList)] loop. *)
Definition loadOne (m : Machine) : Async.t Page unit :=
  effectiveState <-
    (if needsProbe m then
       Async.modify (setMachine (key m) (withState (Some "connecting"))) ;;
       result <- callCheckConnection env (address m) ;;
       let '(state, hostname) := Prober.destructure result in
       let machineLabel := Prober.orString hostname (label m) in
       Async.modify (setMachine (key m) (fun e =>
         withLabel machineLabel (withState (Prober.asString state) e))) ;;
       Async.ret (Prober.asString state)
     else Async.ret (state m)) ;;
  if sameState effectiveState (Some "connected") then
    Async.tryCatch
      (updates <- callGetUpdates gettext env (address m) ;;
       Async.modify (setMachine (key m) (withUpdates updates)))
      (fun err =>
         Async.modify (fun p =>
           setMachine (key m)
             (withUpdates (mkUpdateInfo 0 0 false (message err)
                                        (Some (now p))))
             p))
  else
    Async.modify (setMachine (key m)
      (withUpdates
         (mkUpdateInfo 0 0 false
            (if sameState effectiveState (Some "failed")
             then Some (gettext "Machine not connected") else None)
            None))).

Definition onPage {A} (m : Async.t Page A) : Async.t App A :=
  fun a => let '(o, p) := m (page a) in (o, mkApp p (pageLoading a)).

(** [loadMachines] after its call of [getMachinesList]. *)
Definition loadMachinesFrom (machineList : list Machine) : Async.t App unit :=
  Async.modify (fun a =>
    mkApp (setMachines (map seedEntry machineList) (page a)) false) ;;
  onPage (Async.forEach machineList loadOne).

End Actions.

(** [loadMachines]. *)
Definition loadMachines (gettext : string -> string) (env : Env)
    (SESSION_KEY : string) (JSON_parse : string -> option MachinesData)
    (localeCompare : string -> string -> Z) (b : Browser)
  : Async.t App unit * Browser :=
  let '(machineList, b') :=
    Registry.getMachinesList SESSION_KEY JSON_parse localeCompare b in
  (loadMachinesFrom gettext env machineList, b').

End Controls.

(* ================================================================== *)
(** ** Further vocabulary of the statements *)

Module Terms.

(** The registry document the reader works on, if there is one. *)
Definition parsedRegistry (SESSION_KEY : string)
    (JSON_parse : string -> option MachinesData) (b : Browser)
  : option MachinesData :=
  match Js.prop (sessionStorage b) SESSION_KEY with
  | None => None
  | Some data => if String.eqb data "" then None else JSON_parse data
  end.

Definition records (parsed : MachinesData)
  : list (string * PartialMachine) :=
  Registry.override (content parsed) []
  ++ Registry.override (overlay parsed) [].

(** No record of the registry carries a [key] field of its own. *)
Definition keysNotOverridden (parsed : MachinesData) : bool :=
  forallb (fun r => match p_key (snd r) with None => true | Some _ => false end)
          (records parsed).

(** No host of the registry is the empty string. *)
Definition hostsNamed (parsed : MachinesData) : bool :=
  forallb (fun r => negb (String.eqb (fst r) "")) (records parsed).

(** How the awaited steps of a transaction settle for the page:
    creating it, waiting for it, then the first finished event, error
    event or rejected call of its stream. *)
Definition settles (gettext : string -> string) (rem : DBus.Remote)
  : Outcome unit :=
  match DBus.createTransaction rem with
  | Rejects e => Threw e
  | Never => Pending
  | Resolves path =>
      if Js.truthy path then
        match DBus.proxyWait rem with
        | Rejects e => Threw e
        | Never => Pending
        | Resolves _ => Spec.streamOutcome (DBus.events rem)
        end
      else Threw (newError
                    (gettext "Failed to create PackageKit transaction"))
  end.

(** The transaction is created and ready: the call gets as far as
    subscribing to its signals. *)
Definition opens (rem : DBus.Remote) : bool :=
  match DBus.createTransaction rem with
  | Resolves path =>
      Js.truthy path
      && match DBus.proxyWait rem with Resolves _ => true | _ => false end
  | _ => false
  end.

(** The [Package] signals that arrive before the stream settles. *)
Fixpoint packagesBefore (evs : list DBus.Event) : list (Z * string) :=
  match evs with
  | [] => []
  | DBus.Emit (DBus.Package info packageId) :: rest =>
      (info, packageId) :: packagesBefore rest
  | DBus.Emit (DBus.Finished _) :: _ => []
  | DBus.Emit (DBus.ErrorCode _ _) :: _ => []
  | DBus.CallFails _ :: _ => []
  | _ :: rest => packagesBefore rest
  end.

(** The progress reports due before the stream settles: percentage and
    status text, in order of arrival. *)
Fixpoint forwarded (gettext : string -> string)
    (cockpit_format : string -> list (option string) -> string)
    (evs : list DBus.Event) : list (Z * string) :=
  match evs with
  | [] => []
  | DBus.Emit (DBus.Percentage percent) :: rest =>
      (if percent <=? 100
       then [(percent, gettext "Installing updates...")] else [])
      ++ forwarded gettext cockpit_format rest
  | DBus.Emit (DBus.ItemProgress packageId percent) :: rest =>
      (if percent <=? 100
       then [(percent,
              cockpit_format (gettext "Updating $0...")
                             [Some (Js.splitHead ";" packageId)])]
       else [])
      ++ forwarded gettext cockpit_format rest
  | DBus.Emit (DBus.Package _ _) :: rest =>
      forwarded gettext cockpit_format rest
  | _ => []
  end.

(** The stream settles with a finished event whose exit code is 1. *)
Fixpoint endsWithReboot (evs : list DBus.Event) : bool :=
  match evs with
  | [] => false
  | DBus.Emit (DBus.Finished exitCode) :: _ => exitCode =? 1
  | DBus.Emit (DBus.ErrorCode _ _) :: _ => false
  | DBus.CallFails _ :: _ => false
  | _ :: rest => endsWithReboot rest
  end.

(** The progress callback applied to a list of reports. *)
Definition report (U : Type) (cb : Z -> string -> U -> U)
    (reports : list (Z * string)) (u : U) : U :=
  fold_left (fun acc r => cb (fst r) (snd r) acc) reports u.

(** What a check returns for the way its transaction settles. *)
Definition checkOutcome (gettext : string -> string) (now : Date)
    (rem : DBus.Remote) : Outcome UpdateInfo :=
  match settles gettext rem with
  | Returned _ =>
      Returned
        (mkUpdateInfo
           (Z.of_nat (List.length (packagesBefore (DBus.events rem))))
           (Z.of_nat
              (List.length
                 (filter (fun r => fst r =? 8)
                         (packagesBefore (DBus.events rem)))))
           false None (Some now))
  | Threw err =>
      Returned
        (mkUpdateInfo 0 0 false
           (Some (if Transactions.msgIncludes err "not-found"
                     || Transactions.msgIncludes err "ServiceUnknown"
                  then gettext "PackageKit not available"
                  else if Js.truthy (message err)
                       then Registry.override (message err) ""
                       else gettext "Failed to check for updates"))
           (Some now))
  | Pending => Pending
  end.

(** The callbacks of [installUpdatesOnHost] with a progress callback,
    by subscription. *)
Definition installTable (gettext : string -> string)
    (cockpit_format : string -> list (option string) -> string)
    (U : Type) (cb : Z -> string -> U -> U) (pid iid fid eid : nat)
  : DBus.Table (Transactions.InstallVars U) :=
  [ (pid, "Percentage", Transactions.onPercentage gettext cb);
    (iid, "ItemProgress",
     Transactions.onItemProgress gettext cockpit_format cb);
    (fid, "Finished", @Transactions.onInstallFinished U);
    (eid, "ErrorCode", @Transactions.onInstallError U) ].

(** The text reported for a failed install. *)
Definition installErrorText (gettext : string -> string) (err : JsError)
  : string :=
  if Js.truthy (message err) then Registry.override (message err) ""
  else gettext "Failed to install updates".

(** The calls [loadMachines] makes for one machine of the roster when
    they all settle: a probe if the registry does not know the state, an
    update check if the registry holds the machine as connected. *)
Definition loadCalls (m : Machine) : list Dashboard.TraceEvent :=
  if Controls.needsProbe m then
    [ Dashboard.Called Dashboard.CheckConnection (address m);
      Dashboard.Settled Dashboard.CheckConnection (address m) ]
  else if Controls.sameState (state m) (Some "connected") then
    [ Dashboard.Called Dashboard.GetUpdates (address m);
      Dashboard.Settled Dashboard.GetUpdates (address m) ]
  else [].

(** What [loadMachines] leaves of an entry of a machine. *)
Definition loaded (roster : list Machine) (e e' : MachineWithUpdates)
  : Prop :=
  key (machine e') = key (machine e) /\
  if Js.mem (key (machine e)) (map key roster) then
    loading (updates e') = false /\
    ((forall m, In m roster -> key m = key (machine e) ->
                Controls.needsProbe m = true) ->
     state (machine e') = None)
  else e' = e.

End Terms.
(* ================================================================== *)
(** ** Further concrete registries, channels and rosters *)

Module Samples.

(** A reader that knows the two registry documents of [Examples]. *)
Definition parseBoth (s : string) : option MachinesData :=
  if String.eqb s Examples.fleetText then Some Examples.fleetData
  else if String.eqb s Examples.db1Text then Some Examples.db1Data
  else None.

(** A subscriber that counts its notifications. *)
Definition countCalls (roster : list Machine) (n : nat) : nat := S n.

(** A host whose channel closes without a problem after 80 ms. *)
Definition cleanChannel : Prober.Channel :=
  Prober.mkChannel false (Some (80, None)) None.

(** A host that never answers, over a channel whose [close()] hands a
    close without a problem to its listeners before it returns. *)
Definition echoingChannel : Prober.Channel :=
  Prober.mkChannel false None (Some None).

(** Cache refreshes fail with an error event; everything else as in
    [Examples.env]. *)
Definition staleEnv : Dashboard.Env :=
  Dashboard.mkEnv (fun _ _ => Examples.progressRemote)
                  (fun _ _ => Examples.failingRemote)
                  (fun _ _ => Examples.finishingRemote)
                  (fun _ _ => Examples.silentChannel).

(** A later roster: db7 is new, web2 has a new label and user, web3
    has failed, the other machines are gone. *)
Definition laterRoster : list Machine :=
  [ mkMachine "db7" "db7" "db7" None None (Some "connected") None None;
    mkMachine "web2" "web2" "frontend" (Some "admin") None
              (Some "connected") None None;
    mkMachine "web3" "web3" "web3" None None (Some "failed") None None ].

(** The machines of [Examples.fleet] under new labels. *)
Definition relabelled : list Machine :=
  map (fun e => Registry.setLabel (machine e) "renamed") Examples.fleet.

(** A registry with a connected machine, a machine of unknown state and
    a failed one. *)
Definition mixedText : string := "mixed".

Definition mixedData : MachinesData :=
  mkMachinesData
    (Some [ ("web2", mkPartial None None (Some "web2") None None
                               (Some "connected") None None);
            ("db1", Examples.labelled "db1");
            ("old", mkPartial None None (Some "old") None None
                              (Some "failed") None None) ])
    (Some []).

Definition mixedBrowser : Browser :=
  mkBrowser [(Examples.SESSION_KEY, mixedText)] "console.example" [].

Definition emptyApp : App :=
  mkApp (Dashboard.mkPage (Dashboard.mkDash [] [] [] false) 0 []) true.

End Samples.


(* ================================================================== *)
(** * Properties *)

(** ** Sorting *)

Section SortFacts.
Variable A : Type.
Variable cmp : A -> A -> Z.

Lemma insert_In (x y : A) (l : list A) :
  In y (Js.insert cmp x l) <-> y = x \/ In y l.
Proof.
  induction l as [| z l IH]; simpl.
  - intuition congruence.
  - destruct (cmp x z <=? 0); simpl.
    + intuition congruence.
    + rewrite IH. intuition congruence.
Qed.

Lemma sort_In (y : A) (l : list A) : In y (Js.sort cmp l) <-> In y l.
Proof.
  induction l as [| x l IH]; simpl.
  - tauto.
  - rewrite insert_In, IH. intuition congruence.
Qed.

Lemma sort_length (l : list A) :
  List.length (Js.sort cmp l) = List.length l.
Proof.
  assert (Hins : forall x l', List.length (Js.insert cmp x l')
                              = S (List.length l')).
  { intros x l'. induction l' as [| z l' IH]; simpl; auto.
    destruct (cmp x z <=? 0); simpl; auto. }
  induction l as [| x l IH]; simpl; auto.
  rewrite Hins. now rewrite IH.
Qed.

Hypothesis cmp_total : forall a c, cmp a c <= 0 \/ cmp c a <= 0.
Hypothesis cmp_trans : forall a c d, cmp a c <= 0 -> cmp c d <= 0 ->
                                     cmp a d <= 0.

Local Abbreviation le := (fun a c : A => cmp a c <= 0).

Lemma insert_sorted (x : A) (l : list A) :
  StronglySorted le l -> StronglySorted le (Js.insert cmp x l).
Proof.
  induction 1 as [| z l Hs IH Hall]; simpl.
  - repeat constructor.
  - destruct (Z.leb_spec (cmp x z) 0) as [Hle | Hgt].
    + constructor.
      * now constructor.
      * constructor; [exact Hle |].
        rewrite Forall_forall in *. intros y Hy.
        apply cmp_trans with z; [exact Hle | now apply Hall].
    + constructor; [exact IH |].
      rewrite Forall_forall in *. intros y Hy.
      apply insert_In in Hy. destruct Hy as [-> | Hy].
      * destruct (cmp_total z x) as [H | H]; [exact H | lia].
      * now apply Hall.
Qed.

Lemma sort_sorted (l : list A) : StronglySorted le (Js.sort cmp l).
Proof.
  induction l as [| x l IH]; simpl.
  - constructor.
  - now apply insert_sorted.
Qed.
End SortFacts.

Lemma codeUnitCompare_le (a c : string) :
  Spec.codeUnitCompare a c <= 0 <-> a = c \/ String_as_OT.lt a c.
Proof.
  unfold Spec.codeUnitCompare.
  destruct (String.compare a c) eqn:E.
  - apply String_as_OT.cmp_eq in E. intuition lia.
  - apply String_as_OT.cmp_lt in E. intuition lia.
  - split; [lia |].
    intros [-> | H].
    + assert (String.compare c c = Eq) by now apply String_as_OT.cmp_eq.
      congruence.
    + apply String_as_OT.cmp_lt in H. unfold String_as_OT.cmp in H.
      congruence.
Qed.

Lemma codeUnitCompare_total (a c : string) :
  Spec.codeUnitCompare a c <= 0 \/ Spec.codeUnitCompare c a <= 0.
Proof.
  unfold Spec.codeUnitCompare.
  pose proof (String_as_OT.cmp_antisym c a) as H.
  unfold String_as_OT.cmp in H. rewrite H.
  destruct (String.compare a c); simpl; lia.
Qed.

Lemma codeUnitCompare_trans (a c d : string) :
  Spec.codeUnitCompare a c <= 0 -> Spec.codeUnitCompare c d <= 0 ->
  Spec.codeUnitCompare a d <= 0.
Proof.
  rewrite !codeUnitCompare_le.
  intros [-> | H1] [-> | H2]; auto.
  right. eapply String_as_OT.lt_trans; eauto.
Qed.

(** ** Registry reader *)

Section RegistryFacts.
Variable SESSION_KEY : string.
Variable JSON_parse : string -> option MachinesData.
Variable localeCompare : string -> string -> Z.

Local Abbreviation getMachinesList :=
  (Registry.getMachinesList SESSION_KEY JSON_parse localeCompare).
Local Abbreviation visibleRecords :=
  (Spec.visibleRecords SESSION_KEY JSON_parse).

(** The roster in terms of the visible records. *)
Lemma getMachinesList_roster (b : Browser) :
  fst (getMachinesList b) =
  match visibleRecords b with
  | [] => Registry.localhostOnly b
  | ms => Js.sort (Registry.byLabel localeCompare) ms
  end.
Proof.
  unfold Registry.getMachinesList, Spec.visibleRecords.
  destruct (Js.prop (sessionStorage b) SESSION_KEY) as [data |];
    [| reflexivity].
  destruct (String.eqb data ""); [reflexivity |].
  destruct (JSON_parse data) as [parsed |]; [| reflexivity].
  cbv zeta.
  destruct (Registry.collect _ _ _ _); reflexivity.
Qed.

(** Reading leaves the stored registry and the host name alone. *)
Lemma getMachinesList_browser (b : Browser) :
  sessionStorage (snd (getMachinesList b)) = sessionStorage b /\
  hostname (snd (getMachinesList b)) = hostname b.
Proof.
  unfold Registry.getMachinesList.
  destruct (Js.prop (sessionStorage b) SESSION_KEY) as [data |];
    [| now split].
  destruct (String.eqb data ""); [now split |].
  destruct (JSON_parse data) as [parsed |]; [| now split].
  cbv zeta.
  destruct (Registry.collect _ _ _ _); now split.
Qed.

Lemma collect_hostname (b b' : Browser) content overlay hosts :
  hostname b = hostname b' ->
  Registry.collect b content overlay hosts =
  Registry.collect b' content overlay hosts.
Proof.
  intros Hh. induction hosts as [| h hosts IH]; simpl; [reflexivity |].
  unfold Registry.mergeHost. rewrite Hh, IH. reflexivity.
Qed.

Lemma visibleRecords_ext (b b' : Browser) :
  sessionStorage b = sessionStorage b' -> hostname b = hostname b' ->
  visibleRecords b = visibleRecords b'.
Proof.
  intros Hs Hh. unfold Spec.visibleRecords.
  rewrite Hs.
  destruct (Js.prop (sessionStorage b') SESSION_KEY) as [data |];
    [| reflexivity].
  destruct (String.eqb data ""); [reflexivity |].
  destruct (JSON_parse data) as [parsed |]; [| reflexivity].
  cbv zeta. now apply collect_hostname.
Qed.

Lemma getMachinesList_ext (b b' : Browser) :
  sessionStorage b = sessionStorage b' -> hostname b = hostname b' ->
  fst (getMachinesList b) = fst (getMachinesList b').
Proof.
  intros Hs Hh. rewrite !getMachinesList_roster.
  rewrite (visibleRecords_ext b b' Hs Hh).
  unfold Registry.localhostOnly. now rewrite Hh.
Qed.

Lemma getMachinesList_nonempty (b : Browser) :
  fst (getMachinesList b) <> [].
Proof.
  rewrite getMachinesList_roster.
  destruct (visibleRecords b) as [| m ms] eqn:E.
  - discriminate.
  - intros H. apply (f_equal (@List.length Machine)) in H.
    rewrite sort_length in H. discriminate.
Qed.

(** C1 (amended): the roster is never empty; when the registry is
    absent, empty, unreadable or holds no visible record, the roster is
    the single local-machine entry labelled with the host name (or
    ["localhost"]); otherwise the roster holds exactly the visible
    records, so the local machine is on it exactly when one of the
    visible records is the local machine. *)
Theorem C1_roster_local_fallback (b : Browser) :
  fst (getMachinesList b) <> [] /\
  (visibleRecords b = [] ->
     fst (getMachinesList b) = Registry.localhostOnly b /\
     existsb Registry.isLocal (fst (getMachinesList b)) = true) /\
  (visibleRecords b <> [] ->
     (forall m, In m (fst (getMachinesList b)) <-> In m (visibleRecords b)) /\
     existsb Registry.isLocal (fst (getMachinesList b)) =
     existsb Registry.isLocal (visibleRecords b)).
Proof.
  split; [apply getMachinesList_nonempty |].
  rewrite getMachinesList_roster.
  split.
  - intros ->. split; reflexivity.
  - intros Hne. destruct (visibleRecords b) as [| m0 ms]; [congruence |].
    assert (Hin : forall m,
               In m (Js.sort (Registry.byLabel localeCompare) (m0 :: ms))
               <-> In m (m0 :: ms)) by (intros; apply sort_In).
    split; [exact Hin |].
    apply eq_true_iff_eq. rewrite !existsb_exists.
    split; intros (m & Hm & Hl); exists m; split; auto; now apply Hin.
Qed.

Hypothesis localeCompare_total :
  forall a c, localeCompare a c <= 0 \/ localeCompare c a <= 0.
Hypothesis localeCompare_trans :
  forall a c d, localeCompare a c <= 0 -> localeCompare c d <= 0 ->
                localeCompare a d <= 0.

Lemma getMachinesList_sorted (b : Browser) :
  StronglySorted (Spec.labelLe localeCompare) (fst (getMachinesList b)).
Proof.
  rewrite getMachinesList_roster.
  destruct (visibleRecords b) as [| m ms].
  - repeat constructor.
  - apply (@sort_sorted Machine (Registry.byLabel localeCompare)).
    + intros a c. apply localeCompare_total.
    + intros a c d. apply localeCompare_trans.
Qed.

(** C8: two readings of the same stored registry (the second one on
    the browser the first one left behind) give equal rosters, the
    stored registry is untouched, and the roster is in ascending order
    of labels under the locale comparison. *)
Theorem C8_getMachinesList_repeatable (b : Browser) :
  let first := getMachinesList b in
  let second := getMachinesList (snd first) in
  fst second = fst first /\
  sessionStorage (snd second) = sessionStorage b /\
  StronglySorted (Spec.labelLe localeCompare) (fst first) /\
  StronglySorted (Spec.labelLe localeCompare) (fst second).
Proof.
  cbv zeta.
  destruct (getMachinesList_browser b) as [Hs Hh].
  destruct (getMachinesList_browser (snd (getMachinesList b))) as [Hs' _].
  repeat split.
  - now apply getMachinesList_ext.
  - congruence.
  - apply getMachinesList_sorted.
  - apply getMachinesList_sorted.
Qed.

End RegistryFacts.

(** C1, as stated, fails: a registry whose only record is the remote
    host 10.0.0.5 gives a roster without the local machine. *)
Lemma C1_roster_without_local_machine :
  fst (Registry.getMachinesList Examples.SESSION_KEY
         (Examples.parseOnly Examples.db1Text Examples.db1Data)
         Spec.codeUnitCompare Examples.db1Browser)
  = [ mkMachine "10.0.0.5" "10.0.0.5" "db1" None None None None None ] /\
  ~ (exists m,
        In m (fst (Registry.getMachinesList Examples.SESSION_KEY
                     (Examples.parseOnly Examples.db1Text Examples.db1Data)
                     Spec.codeUnitCompare Examples.db1Browser)) /\
        Registry.isLocal m = true).
Proof.
  split; [reflexivity |].
  intros (m & Hin & Hlocal).
  change (In m [mkMachine "10.0.0.5" "10.0.0.5" "db1" None None None None
                          None]) in Hin.
  destruct Hin as [<- | []]. discriminate Hlocal.
Qed.

(** C1 (amended) on a browser without a registry and on a registry
    that lists the local machine. *)
Lemma C1_roster_local_fallback_witness :
  (fst (Registry.getMachinesList Examples.SESSION_KEY
          (Examples.parseOnly Examples.db1Text Examples.db1Data)
          Spec.codeUnitCompare Examples.noRegistry)
   = Registry.localhostOnly Examples.noRegistry /\
   existsb Registry.isLocal
     (fst (Registry.getMachinesList Examples.SESSION_KEY
             (Examples.parseOnly Examples.db1Text Examples.db1Data)
             Spec.codeUnitCompare Examples.noRegistry)) = true) /\
  existsb Registry.isLocal
    (fst (Registry.getMachinesList Examples.SESSION_KEY
            (Examples.parseOnly Examples.fleetText Examples.fleetData)
            Spec.codeUnitCompare Examples.fleetBrowser)) = true.
Proof.
  split.
  - apply (C1_roster_local_fallback Examples.SESSION_KEY
             (Examples.parseOnly Examples.db1Text Examples.db1Data)
             Spec.codeUnitCompare Examples.noRegistry).
    reflexivity.
  - destruct (C1_roster_local_fallback Examples.SESSION_KEY
                (Examples.parseOnly Examples.fleetText Examples.fleetData)
                Spec.codeUnitCompare Examples.fleetBrowser)
      as (_ & _ & H).
    destruct H as [_ H]; [discriminate |].
    rewrite H. reflexivity.
Defined.

(** C8 on a registry of three visible hosts, compared by code units. *)
Lemma C8_getMachinesList_repeatable_witness :
  let first :=
    Registry.getMachinesList Examples.SESSION_KEY
      (Examples.parseOnly Examples.fleetText Examples.fleetData)
      Spec.codeUnitCompare Examples.fleetBrowser in
  let second :=
    Registry.getMachinesList Examples.SESSION_KEY
      (Examples.parseOnly Examples.fleetText Examples.fleetData)
      Spec.codeUnitCompare (snd first) in
  map label (fst first) = ["db1"; "localhost"; "zeta"] /\
  fst second = fst first /\
  sessionStorage (snd second) = sessionStorage Examples.fleetBrowser /\
  StronglySorted (Spec.labelLe Spec.codeUnitCompare) (fst first) /\
  StronglySorted (Spec.labelLe Spec.codeUnitCompare) (fst second).
Proof.
  split; [reflexivity |].
  apply (@C8_getMachinesList_repeatable Examples.SESSION_KEY
           (Examples.parseOnly Examples.fleetText Examples.fleetData)
           Spec.codeUnitCompare
           codeUnitCompare_total codeUnitCompare_trans
           Examples.fleetBrowser).
Defined.

(** ** Connection prober *)

Section ProberFacts.
Import Prober.

Lemma resolve_settles (v : string) (p : Probe) :
  exists r, resolved (resolve v p) = Some r /\
            (resolved p = None -> r = v) /\
            (forall r0, resolved p = Some r0 -> r = r0).
Proof.
  unfold resolve. destruct (resolved p) as [r0 |] eqn:E.
  - exists r0. rewrite E. repeat split; congruence.
  - exists v. simpl. repeat split; congruence.
Qed.

Lemma resolve_verdictOnly (v : string) (p : Probe) :
  v = "connected" \/ v = "failed" ->
  Spec.verdictOnly p -> Spec.verdictOnly (resolve v p).
Proof.
  unfold Spec.verdictOnly, resolve. intros Hv Hp.
  destruct (resolved p) eqn:E; simpl; [now rewrite E | exact Hv].
Qed.

Lemma onClose_verdictOnly (problem : option string) (p : Probe) :
  Spec.verdictOnly p -> Spec.verdictOnly (onClose problem p).
Proof.
  intros Hp. unfold onClose.
  destruct (Js.truthy problem); apply resolve_verdictOnly; auto.
Qed.

Lemma onTimeout_resolved (ch : Channel) (p : Probe) :
  Spec.verdictOnly p ->
  Spec.verdictOnly (onTimeout ch p) /\ resolved (onTimeout ch p) <> None.
Proof.
  intros Hp. unfold onTimeout.
  assert (Hc : Spec.verdictOnly (channelClose ch p)).
  { unfold channelClose. destruct (closeNotifies ch);
      [apply onClose_verdictOnly |]; exact Hp. }
  split; [apply resolve_verdictOnly; auto |].
  destruct (resolve_settles "failed" (channelClose ch p)) as (r & Hr & _).
  congruence.
Qed.

Lemma onClose_resolved (problem : option string) (p : Probe) :
  resolved (onClose problem p) <> None /\
  timerArmed (onClose problem p) = false.
Proof.
  unfold onClose.
  destruct (Js.truthy problem);
    [destruct (resolve_settles "failed" (clearTimeout p)) as (r & Hr & _)
    |destruct (resolve_settles "connected" (clearTimeout p))
       as (r & Hr & _)];
    (split; [congruence |]);
    unfold resolve; simpl; destruct (resolved p); reflexivity.
Qed.

Lemma run_resolved (ch : Channel) (calls : list Call) :
  exists r, resolved (run ch (mkProbe None true calls)) = Some r /\
            (r = "connected" \/ r = "failed").
Proof.
  set (p0 := mkProbe None true calls).
  assert (H0 : Spec.verdictOnly p0) by exact I.
  assert (H : Spec.verdictOnly (run ch p0) /\ resolved (run ch p0) <> None).
  { unfold run. destruct (closeEvent ch) as [[t problem] |].
    - destruct (t <? TIMEOUT).
      + destruct (onClose_resolved problem p0) as [Hr Ht].
        rewrite Ht. split; [now apply onClose_verdictOnly | exact Hr].
      + change (timerArmed p0) with true. cbv iota.
        destruct (onTimeout_resolved ch p0 H0) as [Hv _].
        split; [now apply onClose_verdictOnly | apply onClose_resolved].
    - change (timerArmed p0) with true. cbv iota.
      now apply onTimeout_resolved. }
  destruct H as [Hv Hr]. unfold Spec.verdictOnly in Hv.
  destruct (resolved (run ch p0)) as [r |]; [| congruence].
  now exists r.
Qed.

(** The probe always resolves, with one of the two classifications. *)
Lemma checkMachineConnection_resolves (host : string) (ch : Channel) :
  exists v, fst (checkMachineConnection host ch) = Returned v /\
            (v = "connected" \/ v = "failed").
Proof.
  unfold checkMachineConnection.
  destruct (String.eqb host "localhost"); [exists "connected"; auto |].
  destruct (openThrows ch); [exists "failed"; auto |].
  destruct (run_resolved ch [OpenChannel host]) as (r & Hr & Hv).
  rewrite Hr. now exists r.
Qed.

(** C5: the probe resolves for every host and channel and never
    rejects; the local machine is connected without any call on a
    channel; for a remote host, a channel that cannot be opened and a
    close with a problem resolve to failed.  On silence up to the
    10-second deadline the probe closes the channel and then answers
    failed, unless [channel.close()] itself hands a close without a
    problem to the listener before [resolve("failed")] runs: then the
    listener has already answered connected, and connected is the
    result. *)
Theorem C5_timeout_answers_by_own_close (host : string) (ch : Channel) :
  (exists v, fst (checkMachineConnection host ch) = Returned v /\
             (v = "connected" \/ v = "failed")) /\
  (host = "localhost" ->
     checkMachineConnection host ch = (Returned "connected", [])) /\
  (host <> "localhost" -> openThrows ch = true ->
     fst (checkMachineConnection host ch) = Returned "failed") /\
  (host <> "localhost" -> openThrows ch = false ->
     forall t problem,
       closeEvent ch = Some (t, problem) -> t < TIMEOUT ->
       Js.truthy problem = true ->
       fst (checkMachineConnection host ch) = Returned "failed") /\
  (host <> "localhost" -> openThrows ch = false ->
     Spec.silentUntilTimeout ch ->
     checkMachineConnection host ch =
     (Returned (match closeNotifies ch with
                | Some problem =>
                    if Js.truthy problem then "failed" else "connected"
                | None => "failed"
                end),
      [OpenChannel host; CloseChannel])).
Proof.
  split; [apply checkMachineConnection_resolves |].
  unfold checkMachineConnection.
  split; [intros ->; reflexivity |].
  split.
  { intros Hh Ho. apply String.eqb_neq in Hh. now rewrite Hh, Ho. }
  split.
  { intros Hh Ho t problem Hc Ht Hp. apply String.eqb_neq in Hh.
    rewrite Hh, Ho. unfold run. rewrite Hc.
    apply Z.ltb_lt in Ht. rewrite Ht.
    unfold onClose. rewrite Hp. reflexivity. }
  intros Hh Ho Hs. apply String.eqb_neq in Hh. rewrite Hh, Ho.
  unfold Spec.silentUntilTimeout in Hs.
  unfold run.
  destruct (closeEvent ch) as [[t problem] |].
  - apply Z.ltb_ge in Hs. rewrite Hs.
    cbn [timerArmed]. unfold onTimeout, channelClose, onClose.
    destruct (closeNotifies ch) as [pr |];
      [destruct (Js.truthy pr) |]; destruct (Js.truthy problem);
      reflexivity.
  - cbn [timerArmed]. unfold onTimeout, channelClose, onClose.
    destruct (closeNotifies ch) as [pr |];
      [destruct (Js.truthy pr) |]; reflexivity.
Qed.

(** C9: whatever the host and the channel do, the probe resolves to
    the plain string ["connected"] or ["failed"]; reading [state] and
    [hostname] off that string, as [loadMachines] and [refreshMachine]
    do, gives [undefined] twice. *)
Theorem C9_probe_result_is_a_plain_string (host : string) (ch : Channel) :
  exists v, fst (checkMachineConnection host ch) = Returned v /\
            (v = "connected" \/ v = "failed") /\
            destructure v = (JUndefined, JUndefined).
Proof.
  destruct (checkMachineConnection_resolves host ch) as (v & Hv & Hc).
  exists v. split; [exact Hv |]. split; [exact Hc |]. reflexivity.
Qed.

End ProberFacts.

(** C5 on the local machine, on a channel that cannot be opened, on a
    refused connection, on a host that never answers over a channel
    whose [close()] reports nothing, and on the same host over a
    channel whose [close()] reports a clean close: the last probe times
    out and answers connected. *)
Lemma C5_timeout_answers_by_own_close_witness :
  Prober.checkMachineConnection "localhost" Examples.silentChannel
    = (Returned "connected", []) /\
  fst (Prober.checkMachineConnection "10.0.0.5"
         (Prober.mkChannel true None None)) = Returned "failed" /\
  fst (Prober.checkMachineConnection "10.0.0.5" Examples.refusedChannel)
    = Returned "failed" /\
  Prober.checkMachineConnection "10.0.0.5" Examples.silentChannel
    = (Returned "failed",
       [Prober.OpenChannel "10.0.0.5"; Prober.CloseChannel]) /\
  Prober.checkMachineConnection "10.0.0.5" Samples.echoingChannel
    = (Returned "connected",
       [Prober.OpenChannel "10.0.0.5"; Prober.CloseChannel]).
Proof.
  split; [| split; [| split; [| split]]].
  - apply (C5_timeout_answers_by_own_close "localhost"
             Examples.silentChannel). reflexivity.
  - apply (C5_timeout_answers_by_own_close "10.0.0.5"
             (Prober.mkChannel true None None));
      [discriminate | reflexivity].
  - apply (proj1 (proj2 (proj2 (proj2
             (C5_timeout_answers_by_own_close "10.0.0.5"
                Examples.refusedChannel))))) with (t := 120)
                                                  (problem := Some "no-host");
      [discriminate | reflexivity | reflexivity | reflexivity | reflexivity].
  - apply (C5_timeout_answers_by_own_close "10.0.0.5"
             Examples.silentChannel);
      [discriminate | reflexivity | exact I].
  - apply (C5_timeout_answers_by_own_close "10.0.0.5"
             Samples.echoingChannel);
      [discriminate | reflexivity | exact I].
Defined.

(** ** Invariants of asynchronous code *)

Section AsyncFacts.
Variable S : Type.
Variable I : S -> Prop.

Local Abbreviation preserves := (Spec.preserves I).

Lemma preserves_ret {A} (a : A) : preserves (Async.ret a).
Proof. intros s H. exact H. Qed.

Lemma preserves_throw {A} (e : JsError) : preserves (@Async.throw S A e).
Proof. intros s H. exact H. Qed.

Lemma preserves_await {A} (p : Settles A) : preserves (Async.await p).
Proof. intros s H. destruct p; exact H. Qed.

Lemma preserves_gets {A} (f : S -> A) : preserves (Async.gets f).
Proof. intros s H. exact H. Qed.

Lemma preserves_modify (f : S -> S) :
  (forall s, I s -> I (f s)) -> preserves (Async.modify f).
Proof. intros Hf s H. now apply Hf. Qed.

Lemma preserves_bind {A B} (m : Async.t S A) (f : A -> Async.t S B) :
  preserves m -> (forall a, preserves (f a)) -> preserves (Async.bind m f).
Proof.
  intros Hm Hf s H. unfold Async.bind.
  specialize (Hm s H). destruct (m s) as [[a | e |] s1]; simpl in *; auto.
  now apply Hf.
Qed.

Lemma preserves_bind_value {A B} (Q : A -> Prop) (m : Async.t S A)
      (f : A -> Async.t S B) :
  preserves m ->
  (forall s a, fst (m s) = Returned a -> Q a) ->
  (forall a, Q a -> preserves (f a)) -> preserves (Async.bind m f).
Proof.
  intros Hm HQ Hf s H. unfold Async.bind.
  specialize (Hm s H). specialize (HQ s).
  destruct (m s) as [[a | e |] s1]; simpl in *; auto.
  apply Hf; auto.
Qed.

Lemma leads_bind {A B} (I1 : S -> Prop) (m : Async.t S A)
      (f : A -> Async.t S B) :
  (forall s, I s -> I1 (snd (m s))) ->
  (forall a, Spec.preserves I1 (f a)) ->
  forall s, I s -> I1 (snd (Async.bind m f s)).
Proof.
  intros Hm Hf s H. unfold Async.bind.
  specialize (Hm s H). destruct (m s) as [[a | e |] s1]; simpl in *; auto.
  now apply Hf.
Qed.

Lemma leads_tryCatch {A} (I1 : S -> Prop) (m : Async.t S A)
      (h : JsError -> Async.t S A) :
  (forall s, I s -> I1 (snd (m s))) ->
  (forall e, Spec.preserves I1 (h e)) ->
  forall s, I s -> I1 (snd (Async.tryCatch m h s)).
Proof.
  intros Hm Hh s H. unfold Async.tryCatch.
  specialize (Hm s H). destruct (m s) as [[a | e |] s1]; simpl in *; auto.
  now apply Hh.
Qed.

Lemma preserves_tryCatch {A} (m : Async.t S A) (h : JsError -> Async.t S A) :
  preserves m -> (forall e, preserves (h e)) ->
  preserves (Async.tryCatch m h).
Proof.
  intros Hm Hh s H. unfold Async.tryCatch.
  specialize (Hm s H). destruct (m s) as [[a | e |] s1]; simpl in *; auto.
  now apply Hh.
Qed.

Lemma preserves_tryFinally {A} (m : Async.t S A) (fin : Async.t S unit) :
  preserves m -> preserves fin -> preserves (Async.tryFinally m fin).
Proof.
  intros Hm Hf s H. unfold Async.tryFinally.
  specialize (Hm s H). destruct (m s) as [[a | e |] s1]; simpl in *; auto.
  - specialize (Hf s1 Hm). destruct (fin s1) as [[[] | e |] s2]; auto.
  - specialize (Hf s1 Hm). destruct (fin s1) as [[[] | e' |] s2]; auto.
Qed.

Lemma preserves_forEach {A} (l : list A) (body : A -> Async.t S unit) :
  (forall x, In x l -> preserves (body x)) ->
  preserves (Async.forEach l body).
Proof.
  induction l as [| x l IH]; intros Hb; simpl.
  - apply preserves_ret.
  - apply preserves_bind.
    + apply Hb. now left.
    + intros _. apply IH. intros y Hy. apply Hb. now right.
Qed.
End AsyncFacts.

(** ** The D-Bus client *)

Section DBusFacts.
Import DBus.
Variable L : Type.
Variable getPromise : L -> Promise.
Variable setPromise : Promise -> L -> L.

Lemma awaitPromise_settled (tbl : Table L) (evs : list Event)
      (w : World L) (r : option JsError) :
  getPromise (snd w) = Some r ->
  awaitPromise getPromise setPromise tbl evs w =
  (match r with None => Returned tt | Some e => Threw e end, w).
Proof.
  intros H. destruct evs; simpl; rewrite H; destruct r; reflexivity.
Qed.

Lemma deliver_preserves (I : World L -> Prop) (s : Signal) (tbl : Table L) :
  (forall id m cb, In (id, m, cb) tbl -> member s = m ->
                   forall w, I w -> I (cb s w)) ->
  forall w, I w -> I (deliver tbl s w).
Proof.
  induction tbl as [| [[id m] cb] tbl IH]; intros Hcb w Hw; simpl.
  - exact Hw.
  - assert (Hrest : forall id' m' cb', In (id', m', cb') tbl ->
                      member s = m' -> forall w', I w' -> I (cb' s w'))
      by (intros id' m' cb' Hin Hm' w' Hw';
          apply (Hcb id' m' cb'); auto; now right).
    destruct (String.eqb_spec m (member s)) as [Hm | Hm]; simpl.
    + destruct (isActive id (fst w)).
      * apply IH; auto. apply (Hcb id m cb); auto. now left.
      * now apply IH.
    + now apply IH.
Qed.

Lemma awaitPromise_preserves (I : World L -> Prop) (tbl : Table L)
      (evs : list Event) :
  (forall ev, In ev evs ->
              forall w, I w -> I (step getPromise setPromise tbl ev w)) ->
  Spec.preserves I (awaitPromise getPromise setPromise tbl evs).
Proof.
  induction evs as [| ev evs IH]; intros Hstep w Hw; simpl.
  - destruct (getPromise (snd w)) as [[e |] |]; exact Hw.
  - destruct (getPromise (snd w)) as [[e |] |]; try exact Hw.
    apply IH.
    + intros ev' Hin. apply Hstep. now right.
    + apply Hstep; [now left | exact Hw].
Qed.

Lemma isActive_subscribe (m : string) (c : Client) :
  isActive (fst (subscribe m c)) (snd (subscribe m c)) = true.
Proof.
  unfold isActive, subscribe. simpl.
  rewrite existsb_app. simpl. rewrite Nat.eqb_refl.
  now rewrite orb_true_r.
Qed.

Lemma isActive_subscribe_other (id : nat) (m : string) (c : Client) :
  isActive id c = true -> isActive id (snd (subscribe m c)) = true.
Proof.
  unfold isActive, subscribe. simpl. intros H.
  rewrite existsb_app, H. reflexivity.
Qed.

Lemma isActive_record (id : nat) (k : Call) (c : Client) :
  isActive id (record k c) = isActive id c.
Proof. reflexivity. Qed.
End DBusFacts.

(** ** Update-transaction client *)

Section TransactionFacts.
Import DBus Transactions.
Variable gettext : string -> string.
Variable cockpit_format : string -> list (option string) -> string.

Lemma streamOutcome_verdict (evs : list Event) :
  match Spec.streamVerdict evs with
  | Spec.Completes => Spec.streamOutcome evs = Returned tt
  | Spec.Fails => exists e, Spec.streamOutcome evs = Threw e
  | Spec.Hangs => Spec.streamOutcome evs = Pending
  end.
Proof.
  induction evs as [| [[] | e] evs IH]; simpl; eauto.
Qed.

Lemma openTransaction_cases (L : Type) (host : string) (rem : Remote)
      (w : World L) :
  exists c',
    openTransaction gettext host rem w =
    (match createTransaction rem with
     | Resolves path =>
         if Js.truthy path then
           match proxyWait rem with
           | Resolves _ => Returned (Registry.override path "")
           | Rejects e => Threw e
           | Never => Pending
           end
         else Threw (newError
                       (gettext "Failed to create PackageKit transaction"))
     | Rejects e => Threw e
     | Never => Pending
     end, (c', snd w)) /\
    nextId c' = nextId (fst w) /\ active c' = active (fst w).
Proof.
  destruct w as [c l].
  unfold openTransaction, Async.bind, call, Async.modify, Async.await,
    Async.ret, Async.throw.
  cbn [fst snd].
  destruct (createTransaction rem) as [path | e |];
    [destruct (Js.truthy path); [destruct (proxyWait rem) |] | |];
    eexists; (split; [reflexivity | split; reflexivity]).
Qed.

Lemma await_check (evs : list Event) :
  forall (c : Client) (v : CheckVars) (pkg fin err : nat),
    cv_promise v = None ->
    isActive pkg c = true -> isActive fin c = true ->
    isActive err c = true ->
    exists c' p' updates,
      awaitPromise cv_promise cvSetPromise (Spec.checkTable pkg fin err) evs
                   (c, v) =
      (Spec.streamOutcome evs,
       (c', mkCheckVars p' (cv_updates v ++ updates) (cv_result v))).
Proof.
  induction evs as [| ev evs IH]; intros c v pkg fin err Hp Hpkg Hfin Herr.
  - exists c, None, []. simpl. rewrite Hp, app_nil_r.
    destruct v; simpl in *; subst. reflexivity.
  - cbn [awaitPromise snd]. rewrite Hp.
    destruct ev as [[info pid | code | code details | pc | pid pc] | e];
      cbn [step deliver Spec.checkTable member String.eqb Ascii.eqb
           Bool.eqb andb fst snd Spec.streamOutcome].
    + rewrite Hpkg. cbn [onPackage fst snd].
      destruct (IH c (cvPush (Js.splitHead ";" pid,
                              if info =? 8 then "security" else "normal") v)
                   pkg fin err Hp Hpkg Hfin Herr)
        as (c' & p' & ups & Heq).
      exists c', p', ((Js.splitHead ";" pid,
                       if info =? 8 then "security" else "normal") :: ups).
      rewrite Heq. cbn [cvPush cv_updates cv_result].
      now rewrite <- app_assoc.
    + rewrite Hfin. unfold onCheckFinished, resolve, settle.
      cbn [fst snd]. rewrite Hp.
      rewrite awaitPromise_settled with (r := None) by reflexivity.
      exists (remove fin c), (Some None), [].
      now rewrite app_nil_r.
    + rewrite Herr. unfold onCheckError, reject, settle.
      cbn [fst snd]. rewrite Hp.
      rewrite awaitPromise_settled with (r := Some (newError details))
        by reflexivity.
      exists (remove err c), (Some (Some (newError details))), [].
      now rewrite app_nil_r.
    + apply IH; assumption.
    + apply IH; assumption.
    + unfold reject, settle. cbn [fst snd]. rewrite Hp.
      rewrite awaitPromise_settled with (r := Some e) by reflexivity.
      exists c, (Some (Some e)), [].
      now rewrite app_nil_r.
Qed.

Ltac active_now :=
  unfold DBus.isActive, DBus.record; cbn [DBus.active fst];
  rewrite ?existsb_app; cbn [existsb fst];
  now rewrite ?Nat.eqb_refl, ?orb_true_r.

Lemma getUpdatesForHost_run (now : Date) (host : string) (rem : Remote)
      (c : Client) :
  exists c' updates text,
    getUpdatesForHost gettext now host rem c =
    (match Spec.verdict rem with
     | Spec.Completes =>
         Returned
           (mkUpdateInfo
              (Z.of_nat (List.length updates))
              (Z.of_nat (List.length (filter isSecurity updates)))
              false None (Some now))
     | Spec.Fails =>
         Returned (mkUpdateInfo 0 0 false (Some text) (Some now))
     | Spec.Hangs => Pending
     end, c').
Proof.
  unfold getUpdatesForHost.
  set (v0 := mkCheckVars None [] (mkUpdateInfo 0 0 false None (Some now))).
  unfold Async.bind at 1. unfold Async.tryCatch, checkTry.
  unfold Async.bind at 1.
  destruct (openTransaction_cases host rem (c, v0))
    as (c1 & Heq & Hn & Ha).
  rewrite Heq. clear Heq. unfold Spec.verdict.
  destruct (createTransaction rem) as [path | e |].
  - destruct (Js.truthy path).
    + destruct (proxyWait rem) as [[] | e |].
      * unfold Async.bind, onClient, call, Async.modify.
        cbn [fst snd subscribe record nextId active calls].
        match goal with
        | |- context [awaitPromise _ _ [(?a, _, _); (?b, _, _); (?d, _, _)]
                                   ?evs (?c3, ?v)] =>
            assert (Ha1 : isActive a c3 = true) by active_now;
            assert (Ha2 : isActive b c3 = true) by active_now;
            assert (Ha3 : isActive d c3 = true) by active_now;
            destruct (await_check evs c3 v a b d eq_refl Ha1 Ha2 Ha3)
              as (c' & p' & ups & Heq);
            unfold Spec.checkTable in Heq; rewrite Heq; clear Heq
        end.
        pose proof (streamOutcome_verdict (events rem)) as Hv.
        destruct (Spec.streamVerdict (events rem)).
        -- rewrite Hv. eexists. exists ups, "". reflexivity.
        -- destruct Hv as [e Hv]. rewrite Hv.
           eexists. exists []. eexists. reflexivity.
        -- rewrite Hv. eexists. exists [], "". reflexivity.
      * eexists. exists []. eexists. reflexivity.
      * eexists. exists [], "". reflexivity.
    + eexists. exists []. eexists. reflexivity.
  - eexists. exists []. eexists. reflexivity.
  - eexists. exists [], "". reflexivity.
Qed.

Lemma getUpdatesForHost_cases (now : Date) (host : string) (rem : Remote)
      (c : Client) :
  match Spec.verdict rem with
  | Spec.Completes =>
      exists c' updates,
        getUpdatesForHost gettext now host rem c =
        (Returned
           (mkUpdateInfo
              (Z.of_nat (List.length updates))
              (Z.of_nat (List.length (filter isSecurity updates)))
              false None (Some now)), c')
  | Spec.Fails =>
      exists c' text,
        getUpdatesForHost gettext now host rem c =
        (Returned (mkUpdateInfo 0 0 false (Some text) (Some now)), c')
  | Spec.Hangs =>
      exists c', getUpdatesForHost gettext now host rem c = (Pending, c')
  end.
Proof.
  destruct (getUpdatesForHost_run now host rem c)
    as (c' & ups & text & Heq).
  rewrite Heq. destruct (Spec.verdict rem); eauto.
Qed.

(** C7: in every [UpdateInfo] that [getUpdatesForHost] returns, the
    security count is at most the total count and both are
    non-negative. *)
Theorem C7_security_at_most_total (now : Date) (host : string)
        (rem : Remote) (c : Client) (r : UpdateInfo) :
  fst (getUpdatesForHost gettext now host rem c) = Returned r ->
  0 <= security r <= total r.
Proof.
  intros Hr. pose proof (getUpdatesForHost_cases now host rem c) as H.
  destruct (Spec.verdict rem).
  - destruct H as (c' & ups & Heq). rewrite Heq in Hr.
    injection Hr as <-. cbn [security total].
    pose proof (filter_length_le isSecurity ups). lia.
  - destruct H as (c' & text & Heq). rewrite Heq in Hr.
    injection Hr as <-. cbn [security total]. lia.
  - destruct H as (c' & Heq). rewrite Heq in Hr. discriminate.
Qed.

(** C10: [getUpdatesForHost] never rejects.  Whenever the remote side
    lets the call settle (the transaction cannot be created, waiting
    for it fails, an error event arrives, the [GetUpdates] call is
    rejected, or the finished event arrives) it resolves, to a record
    with [loading = false] and [lastChecked] set to the time of the
    call, and with an error message on every failure. *)
Theorem C10_getUpdatesForHost_always_resolves (now : Date) (host : string)
        (rem : Remote) (c : Client) :
  (forall e, fst (getUpdatesForHost gettext now host rem c) <> Threw e) /\
  (Spec.verdict rem <> Spec.Hangs ->
   exists r,
     fst (getUpdatesForHost gettext now host rem c) = Returned r /\
     loading r = false /\
     lastChecked r = Some now /\
     (Spec.verdict rem = Spec.Fails -> error r <> None)).
Proof.
  pose proof (getUpdatesForHost_cases now host rem c) as H.
  destruct (Spec.verdict rem).
  - destruct H as (c' & ups & Heq). rewrite Heq. split.
    + discriminate.
    + intros _. eexists. repeat split. discriminate.
  - destruct H as (c' & text & Heq). rewrite Heq. split.
    + discriminate.
    + intros _. eexists. repeat split. discriminate.
  - destruct H as (c' & Heq). rewrite Heq. split.
    + discriminate.
    + congruence.
Qed.

(** The caller's state changes only through the progress callback, and
    only for progress events of at most 100 percent. *)
Lemma installUpdatesOnHost_caller (U : Type) (J : U -> Prop)
      (host : string) (onProgress : option (Z -> string -> U -> U))
      (securityOnly : bool) (rem : Remote) :
  (forall cb, onProgress = Some cb ->
     forall ev p s u, In ev (events rem) -> Spec.percentOf ev = Some p ->
                      p <= 100 -> J u -> J (cb p s u)) ->
  forall c u, J u ->
    J (snd (snd (installUpdatesOnHost gettext cockpit_format host onProgress
                   securityOnly rem (c, u)))).
Proof.
  intros Hcb c u Hu.
  unfold installUpdatesOnHost.
  set (I := fun w : World (InstallVars U) => J (iv_caller (snd w))).
  assert (Hpres : Spec.preserves I
            (Async.tryCatch
               (installTry gettext cockpit_format host rem onProgress
                           securityOnly)
               (@installCatch gettext U))).
  { apply preserves_tryCatch; [| intros e; apply preserves_ret].
    assert (Hsub : forall m,
               Spec.preserves I (onClient (L := InstallVars U) (subscribe m)))
      by (intros m w Hw; exact Hw).
    assert (Hcall : forall k, Spec.preserves I (call (L := InstallVars U) k))
      by (intros k w Hw; exact Hw).
    assert (Hfin : forall s w, I w -> I (onInstallFinished (U := U) s w)).
    { intros s [c0 v] Hw. destruct s; try exact Hw.
      unfold onInstallFinished, resolve, settle. cbn [fst snd].
      destruct (iv_promise _); exact Hw. }
    assert (Herr : forall s w, I w -> I (onInstallError (U := U) s w)).
    { intros s [c0 v] Hw. destruct s; try exact Hw.
      unfold onInstallError, reject, settle. cbn [fst snd].
      destruct (iv_promise v); exact Hw. }
    assert (Hrej : forall e w,
               I w -> I (reject (@iv_promise U) (@ivSetPromise U) e w)).
    { intros e [c0 v] Hw. unfold reject, settle. cbn [fst snd].
      destruct (iv_promise v); exact Hw. }
    assert (Hopen : Spec.preserves I
              (openTransaction (L := InstallVars U) gettext host rem)).
    { intros w Hw.
      destruct (openTransaction_cases host rem w) as (c' & Heq & _).
      rewrite Heq. exact Hw. }
    unfold installTry.
    apply preserves_bind; [exact Hopen | intros _].
    apply preserves_bind_value with
      (Q := fun tbl : Table (InstallVars U) =>
              forall id m f, In (id, m, f) tbl ->
                exists cb, onProgress = Some cb /\
                           (f = onPercentage gettext cb \/
                            f = onItemProgress gettext cockpit_format cb)).
    - destruct onProgress as [cb |]; intros w Hw; exact Hw.
    - intros w tbl Htbl id m f Hin.
      destruct onProgress as [cb |]; cbn in Htbl;
        injection Htbl as <-; cbn [In] in Hin.
      + exists cb. split; [reflexivity |].
        destruct Hin as [H | [H | []]]; injection H as <- <- <-; auto.
      + destruct Hin.
    - intros progress Hprogress.
      apply preserves_bind; [apply Hsub | intros fid].
      apply preserves_bind; [apply Hsub | intros eid].
      apply preserves_bind; [apply Hcall | intros _].
      apply preserves_bind;
        [| intros _; apply preserves_bind;
           [apply preserves_gets | intros; apply preserves_ret]].
      apply awaitPromise_preserves. intros ev Hev w' Hw'.
      destruct ev as [s | e]; [| now apply Hrej].
      cbn [step]. apply deliver_preserves; [| exact Hw'].
      intros id m f Hin Hm w'' Hw''.
      apply in_app_or in Hin. destruct Hin as [Hin | Hin].
      + destruct (Hprogress id m f Hin) as (cb & Heq & [-> | ->]).
        * destruct s; try exact Hw''. unfold onPercentage.
          destruct (Z.leb_spec percent 100); [| exact Hw''].
          unfold I. cbn [snd ivCall iv_caller].
          apply (Hcb cb Heq (Emit (Percentage percent))); auto.
        * destruct s; try exact Hw''. unfold onItemProgress.
          destruct (Z.leb_spec percent 100); [| exact Hw''].
          unfold I. cbn [snd ivCall iv_caller].
          apply (Hcb cb Heq (Emit (ItemProgress packageId percent))); auto.
      + cbn [In] in Hin. destruct Hin as [H | [H | []]];
          injection H as <- <- <-; auto. }
  specialize (Hpres (fst (c, u), mkInstallVars None false (snd (c, u))) Hu).
  destruct (Async.tryCatch _ _ _) as [o w]. exact Hpres.
Qed.

(** C6 (amended): whatever the progress events are, the progress
    callback is invoked only with percentages of at most 100, each one
    carried by a progress event of the transaction; an event carrying a
    percentage above 100 is never forwarded.  No lower bound is
    applied. *)
Theorem C6_progress_at_most_100 (host : string) (securityOnly : bool)
        (rem : Remote) (c : Client) :
  Forall (fun invocation =>
            fst invocation <= 100 /\
            exists ev, In ev (events rem) /\
                       Spec.percentOf ev = Some (fst invocation))
         (snd (snd (installUpdatesOnHost gettext cockpit_format host
                      (Some Spec.recordProgress) securityOnly rem (c, [])))).
Proof.
  apply installUpdatesOnHost_caller
    with (J := Forall (fun invocation : Z * string =>
                         fst invocation <= 100 /\
                         exists ev, In ev (events rem) /\
                                    Spec.percentOf ev = Some (fst invocation))).
  - intros cb [= <-] ev p s u Hin Hp Hle Hu.
    unfold Spec.recordProgress. apply Forall_app. split; [exact Hu |].
    constructor; [| constructor]. split; [exact Hle |]. now exists ev.
  - constructor.
Qed.

(** A cache refresh whose transaction opens leaves both of its
    subscriptions registered, however the transaction ends. *)
Lemma refreshPackageCache_keeps_subscriptions (host : string) (rem : Remote)
      (c : Client) (path : option string) :
  createTransaction rem = Resolves path -> Js.truthy path = true ->
  proxyWait rem = Resolves tt ->
  active (snd (refreshPackageCache gettext host rem c)) =
  (active c ++ [(nextId c, "Finished"); (S (nextId c), "ErrorCode")])%list.
Proof.
  intros Hc Hp Hw. unfold refreshPackageCache.
  unfold Async.bind at 1.
  destruct (@openTransaction_cases Promise host rem (c, None))
    as (c1 & Heq & Hn & Ha).
  rewrite Heq, Hc, Hp, Hw. clear Heq. cbn [fst snd] in *.
  unfold Async.bind, onClient, call, Async.modify.
  cbn [fst snd subscribe record nextId active calls].
  match goal with
  | |- context [awaitPromise ?g ?s ?tbl ?evs ?w] =>
      pose proof (@awaitPromise_preserves Promise g s
                    (fun w' => active (fst w') = active (fst w)) tbl evs)
        as Hinv;
      specialize (fun H => Hinv H w eq_refl);
      destruct (awaitPromise g s tbl evs w) as [o w']
  end.
  assert (Hw' : active (fst w') =
                ((active c1 ++ [(nextId c1, "Finished")])
                   ++ [(S (nextId c1), "ErrorCode")])%list).
  { apply Hinv. intros ev _ [c0 v] Hw0.
    destruct ev as [s | e]; cbn [step];
      [| unfold reject, settle; cbn [fst snd] in *; destruct v; exact Hw0].
    apply deliver_preserves; [| exact Hw0].
    intros id m cb Hin _ [c2 v2] Hw2. cbn [In] in Hin.
    destruct Hin as [H | [H | []]]; injection H as <- <- <-.
    - unfold onRefreshFinished, resolve, settle. cbn [fst snd] in *.
      destruct v2; exact Hw2.
    - destruct s; try exact Hw2.
      unfold onRefreshError, reject, settle. cbn [fst snd] in *.
      destruct v2; exact Hw2. }
  rewrite Hn, Ha, <- app_assoc in Hw'.
  destruct o; cbn [fst snd]; exact Hw'.
Qed.

End TransactionFacts.

(** C2: evaluation of the three operations on a fresh client.  After a
    successful check the [ErrorCode] subscription is still registered;
    after a check that ends with an error event the [Package] and
    [Finished] subscriptions are; an install and a cache refresh leave
    every subscription they made registered. *)
Theorem C2_subscriptions_left_registered :
  DBus.active
    (snd (Transactions.getUpdatesForHost Examples.gettext 5%nat "10.0.0.5"
            Examples.finishingRemote DBus.newClient))
  = [(2%nat, "ErrorCode")] /\
  DBus.active
    (snd (Transactions.getUpdatesForHost Examples.gettext 5%nat "10.0.0.5"
            Examples.failingRemote DBus.newClient))
  = [(0%nat, "Package"); (1%nat, "Finished")] /\
  DBus.active
    (fst (snd (Transactions.installUpdatesOnHost Examples.gettext
                 Examples.format "10.0.0.5" (Some Spec.recordProgress) false
                 Examples.finishingRemote (DBus.newClient, []))))
  = [(0%nat, "Percentage"); (1%nat, "ItemProgress"); (2%nat, "Finished");
     (3%nat, "ErrorCode")] /\
  Transactions.refreshPackageCache Examples.gettext "10.0.0.5"
    Examples.finishingRemote DBus.newClient
  = (Returned tt,
     DBus.mkClient 2 [(0%nat, "Finished"); (1%nat, "ErrorCode")]
       [DBus.Connect (Some "10.0.0.5"); DBus.CreateTransaction; DBus.Wait;
        DBus.RefreshCache true]).
Proof.
  repeat split; reflexivity.
Qed.

(** C6, as stated, fails: a progress event with percentage -1 reaches
    the callback. *)
Lemma C6_negative_percentage_forwarded :
  snd (snd (Transactions.installUpdatesOnHost Examples.gettext
              Examples.format "10.0.0.5" (Some Spec.recordProgress) false
              Examples.progressRemote (DBus.newClient, [])))
  = [ (10, "Installing updates..."); (-1, "Installing updates...");
      (50, "Updating $0... vim") ] /\
  ~ Forall (fun invocation : Z * string => 0 <= fst invocation <= 100)
      (snd (snd (Transactions.installUpdatesOnHost Examples.gettext
                   Examples.format "10.0.0.5" (Some Spec.recordProgress)
                   false Examples.progressRemote (DBus.newClient, [])))).
Proof.
  assert (Hlog :
    snd (snd (Transactions.installUpdatesOnHost Examples.gettext
                Examples.format "10.0.0.5" (Some Spec.recordProgress) false
                Examples.progressRemote (DBus.newClient, [])))
    = [ (10, "Installing updates..."); (-1, "Installing updates...");
        (50, "Updating $0... vim") ]) by reflexivity.
  split; [exact Hlog |].
  rewrite Hlog. intros H.
  inversion H as [| x l _ H1]; subst. inversion H1 as [| y l' Hneg _]; subst.
  simpl in Hneg. lia.
Qed.

(** C7 on the check that finds two updates, one of them a security
    update. *)
Lemma C7_security_at_most_total_witness :
  0 <= security (mkUpdateInfo 2 1 false None (Some 5%nat))
    <= total (mkUpdateInfo 2 1 false None (Some 5%nat)).
Proof.
  apply (@C7_security_at_most_total Examples.gettext 5%nat "10.0.0.5"
           Examples.finishingRemote DBus.newClient).
  reflexivity.
Defined.

(** C10 on a host without the package service. *)
Lemma C10_getUpdatesForHost_always_resolves_witness :
  exists r,
    fst (Transactions.getUpdatesForHost Examples.gettext 5%nat "10.0.0.5"
           Examples.missingService DBus.newClient) = Returned r /\
    loading r = false /\
    lastChecked r = Some 5%nat /\
    (Spec.verdict Examples.missingService = Spec.Fails -> error r <> None).
Proof.
  apply (@C10_getUpdatesForHost_always_resolves Examples.gettext 5%nat
           "10.0.0.5" Examples.missingService DBus.newClient).
  discriminate.
Defined.

(** ** Dashboard orchestration *)

Section DashboardFacts.
Import Dashboard.
Variable gettext : string -> string.
Variable cockpit_format : string -> list (option string) -> string.
Variable env : Env.

Lemma quiet_withUpdates (u : MachineWithUpdates -> UpdateInfo) :
  Spec.quiet (fun m => withUpdates (u m) m).
Proof. intros m. repeat split. Qed.

Lemma quiet_markRefreshing : Spec.quiet markRefreshing.
Proof. intros m. repeat split. Qed.

Lemma quiet_connected (u : UpdateInfo) :
  Spec.quiet (fun m => withUpdates u (withState (Some "connected") m)).
Proof. intros m. repeat split. Qed.

Lemma quiet_relabel (l : MachineWithUpdates -> string) (s : option string) :
  Spec.quiet (fun m => withLabel (l m) (withState s m)).
Proof. intros m. repeat split. Qed.

Section Stable.
Variable host : string.
Variable I : Page -> Prop.
Hypothesis I_stable : Spec.stable host I.

Lemma addAlert_stable (v : Variant) (text : string) :
  Spec.preserves I (addAlert v text).
Proof. intros q Hq. now apply (Spec.stable_alert I_stable). Qed.

Lemma api_stable {A} (a : Api) (h : string) (run : Page -> Outcome A * Page) :
  Spec.isInstall (Called a h) = false ->
  (forall q, snd (run q) = q) ->
  Spec.preserves I (api a h run).
Proof.
  intros Ha Hrun q Hq. unfold api.
  assert (Hlog : I (log (Called a h) q))
    by (now apply (Spec.stable_log I_stable)).
  specialize (Hrun (log (Called a h) q)).
  destruct (run (log (Called a h) q)) as [[x | e |] q1]; simpl in *; subst;
    auto; apply (Spec.stable_log I_stable); auto; destruct a; auto;
    discriminate.
Qed.

Lemma setMachine_stable (f : MachineWithUpdates -> MachineWithUpdates) :
  Spec.quiet f -> Spec.preserves I (Async.modify (setMachine host f)).
Proof.
  intros Hf. apply preserves_modify. intros q Hq.
  now apply (Spec.stable_set I_stable).
Qed.

Lemma refreshUpdates_stable :
  Spec.preserves I (refreshUpdates gettext env host).
Proof.
  unfold refreshUpdates.
  apply preserves_bind; [now apply api_stable | intros _].
  apply preserves_bind; [now apply api_stable | intros u].
  apply setMachine_stable, quiet_connected.
Qed.

Lemma reconnect_stable : Spec.preserves I (reconnect gettext env host).
Proof.
  unfold reconnect.
  apply preserves_bind; [now apply api_stable | intros result].
  destruct (Prober.destructure result) as [connectionState hostname].
  apply preserves_bind; [apply setMachine_stable, quiet_relabel | intros _].
  destruct (negb _).
  - apply preserves_modify. intros q Hq.
    apply (Spec.stable_set I_stable); [| exact Hq].
    apply (quiet_withUpdates (fun _ => notConnected gettext q)).
  - apply refreshUpdates_stable.
Qed.

Lemma refreshFailed_stable (err : JsError) :
  Spec.preserves I (refreshFailed gettext cockpit_format host err).
Proof.
  unfold refreshFailed.
  apply preserves_bind; [| intros _; apply addAlert_stable].
  apply setMachine_stable.
  apply (quiet_withUpdates
           (fun m => mkUpdateInfo (total (updates m)) (security (updates m))
                                  false (message err)
                                  (lastChecked (updates m)))).
Qed.

Lemma refreshMachine_stable (snapshot : list MachineWithUpdates) :
  Spec.preserves I (refreshMachine gettext cockpit_format env snapshot host).
Proof.
  unfold refreshMachine.
  apply preserves_bind;
    [apply setMachine_stable, quiet_markRefreshing | intros _].
  apply preserves_tryCatch; [| apply refreshFailed_stable].
  destruct (find (keyIs host) snapshot) as [found |];
    [destruct (negb _) |];
    auto using reconnect_stable, refreshUpdates_stable.
Qed.

Lemma afterInstall_stable (snapshot : list MachineWithUpdates)
      (result : InstallResult) :
  Spec.preserves I
    (afterInstall gettext cockpit_format env snapshot host result).
Proof.
  unfold afterInstall. destruct (success result).
  - apply preserves_bind; [apply addAlert_stable | intros _].
    apply preserves_bind; [| intros _; apply refreshMachine_stable].
    destruct (rebootRequired result) as [[] |];
      auto using addAlert_stable, preserves_ret.
  - apply preserves_throw.
Qed.

Lemma installFailed_stable (err : JsError) :
  Spec.preserves I (installFailed gettext cockpit_format host err).
Proof. apply addAlert_stable. Qed.
End Stable.

(** *** The four properties followed through a run *)

Lemma stable_extends (host : string) (t : list TraceEvent) :
  Spec.stable host (Spec.extends t).
Proof.
  split.
  - intros e q _ [rest Hq]. exists (rest ++ [e])%list.
    cbn [log trace]. rewrite Hq. now rewrite app_assoc.
  - intros f q _ Hq. exact Hq.
  - intros v text q Hq. exact Hq.
Qed.

Lemma stable_installs (host : string) (t : list TraceEvent) :
  Spec.stable host (fun q => Spec.installs (trace q) = t).
Proof.
  split.
  - intros e q He Hq. cbn [log trace]. unfold Spec.installs in *.
    rewrite filter_app. cbn [filter]. rewrite He, Hq. apply app_nil_r.
  - intros f q _ Hq. exact Hq.
  - intros v text q Hq. exact Hq.
Qed.

Lemma framed_refl (hosts : list string) (p : Page) : Spec.framed hosts p p.
Proof.
  unfold Spec.framed. induction (machines (dash p)); constructor; auto.
  split; auto.
Qed.

Lemma framed_setMachine (hosts : list string) (host : string)
      (f : MachineWithUpdates -> MachineWithUpdates) (p0 q : Page) :
  (forall m, Spec.keyOf (f m) = Spec.keyOf m) ->
  (Js.mem host hosts = true \/ Spec.quiet f) ->
  Spec.framed hosts p0 q -> Spec.framed hosts p0 (setMachine host f q).
Proof.
  intros Hkey Hf. unfold Spec.framed. cbn [setMachine dash machines].
  induction 1 as [| m0 m ms0 ms [Hk Hu] _ IH]; cbn [map]; constructor;
    [| exact IH].
  unfold keyIs. fold (Spec.keyOf m).
  destruct (String.eqb_spec (Spec.keyOf m) host) as [Heq | Hne].
  - split; [now rewrite Hkey |]. intros Hmem.
    destruct Hf as [Hin | Hq].
    + rewrite <- Hk, Heq in Hmem. congruence.
    + destruct (Hq m) as (_ & Hq1 & Hq2).
      destruct (Hu Hmem) as [Hu1 Hu2]. split; congruence.
  - now split.
Qed.

Lemma stable_framed (host : string) (hosts : list string) (p0 : Page) :
  Spec.stable host (Spec.framed hosts p0).
Proof.
  split.
  - intros e q _ Hq. exact Hq.
  - intros f q Hf Hq. apply framed_setMachine; auto.
    intros m. apply Hf.
  - intros v text q Hq. exact Hq.
Qed.

Lemma framed_weaken (hosts hosts' : list string) (p q : Page) :
  (forall h, Js.mem h hosts' = false -> Js.mem h hosts = false) ->
  Spec.framed hosts p q -> Spec.framed hosts' p q.
Proof.
  intros Hsub. unfold Spec.framed.
  induction 1 as [| m0 m ms0 ms [Hk Hu] _ IH]; constructor; auto.
  split; auto.
Qed.

Lemma untouched_chain (hosts : list string)
      (l1 l2 : list MachineWithUpdates) :
  Forall2 (Spec.untouched hosts) l1 l2 ->
  forall l3, Forall2 (Spec.untouched hosts) l2 l3 ->
             Forall2 (Spec.untouched hosts) l1 l3.
Proof.
  induction 1 as [| m1 m2 l1 l2 [Hk Hu] _ IH]; intros l3 H3;
    inversion H3 as [| m2' m3 l2' l3' [Hk' Hu'] Hrest]; subst;
    constructor.
  - split; [congruence |]. intros Hmem.
    destruct (Hu Hmem) as [Hu1 Hu2].
    rewrite Hk in Hu'. destruct (Hu' Hmem) as [Hu1' Hu2'].
    split; congruence.
  - now apply IH.
Qed.

Lemma framed_trans (hosts : list string) (p q r : Page) :
  Spec.framed hosts p q -> Spec.framed hosts q r -> Spec.framed hosts p r.
Proof. unfold Spec.framed. intros H1 H2. eapply untouched_chain; eauto. Qed.

Lemma framed_In (hosts : list string) (p q : Page) (m' : MachineWithUpdates) :
  Spec.framed hosts p q -> In m' (machines (dash q)) ->
  exists m, In m (machines (dash p)) /\ Spec.untouched hosts m m'.
Proof.
  unfold Spec.framed.
  induction 1 as [| m0 m1 l0 l1 Hu _ IH]; intros Hin; [destruct Hin |].
  destruct Hin as [<- | Hin].
  - exists m0. split; [now left | exact Hu].
  - destruct (IH Hin) as (m & Hm & Hum). exists m. split; [now right | auto].
Qed.

Lemma allUpdating_setMachine (host : string)
      (f : MachineWithUpdates -> MachineWithUpdates) (q : Page) :
  (forall m, Spec.keyOf (f m) = Spec.keyOf m /\ updating (f m) = updating m) ->
  Spec.allUpdating host q -> Spec.allUpdating host (setMachine host f q).
Proof.
  intros Hf Hq m' Hin Hk.
  cbn [setMachine dash machines] in Hin. apply in_map_iff in Hin.
  destruct Hin as (m & <- & Hin).
  destruct (keyIs host m) eqn:E.
  - destruct (Hf m) as [Hk1 Hu1]. rewrite Hu1. apply Hq; auto.
    now rewrite <- Hk1.
  - now apply Hq.
Qed.

Lemma stable_allUpdating (host : string) :
  Spec.stable host (Spec.allUpdating host).
Proof.
  split.
  - intros e q _ Hq. exact Hq.
  - intros f q Hf Hq. apply allUpdating_setMachine; auto.
    intros m. destruct (Hf m) as (H1 & H2 & _). now split.
  - intros v text q Hq. exact Hq.
Qed.


(** *** The awaited install *)

Lemma callInstall_preserves (J : Page -> Prop) (host : string)
      (securityOnly : bool) :
  (forall e q, J q -> J (log e q)) ->
  (forall percent status q, J q -> J (onProgress host percent status q)) ->
  Spec.preserves J
    (callInstall gettext cockpit_format env host (onProgress host)
                 securityOnly).
Proof.
  intros Hlog Hcb q Hq. unfold callInstall, api.
  pose proof (@installUpdatesOnHost_caller gettext cockpit_format Page J host
                (Some (onProgress host)) securityOnly
                (installRemote env host (now (log (Called (InstallUpdates
                   securityOnly) host) q)))) as Hinv.
  specialize (Hinv (fun cb Heq ev p s u _ _ _ Hu =>
                      match Heq in _ = o
                            return match o with
                                   | Some cb' => J (cb' p s u)
                                   | None => True
                                   end
                      with eq_refl => Hcb p s u Hu end)).
  specialize (Hinv DBus.newClient _ (Hlog (Called (InstallUpdates
                securityOnly) host) q Hq)).
  destruct (Transactions.installUpdatesOnHost _ _ _ _ _ _ _)
    as [o [c q1]].
  cbn [snd] in Hinv. destruct o; cbn [snd]; auto.
Qed.

Lemma callInstall_trace (host : string) (securityOnly : bool) (p : Page) :
  trace (snd (callInstall gettext cockpit_format env host (onProgress host)
                securityOnly p))
  = (trace p ++
     Called (InstallUpdates securityOnly) host ::
     match fst (callInstall gettext cockpit_format env host (onProgress host)
                  securityOnly p) with
     | Pending => []
     | _ => [Settled (InstallUpdates securityOnly) host]
     end)%list.
Proof.
  unfold callInstall, api.
  set (p1 := log (Called (InstallUpdates securityOnly) host) p).
  pose proof (@installUpdatesOnHost_caller gettext cockpit_format Page
                (fun q => trace q = trace p1) host
                (Some (onProgress host)) securityOnly
                (installRemote env host (now p1))) as Hinv.
  specialize (Hinv (fun cb Heq ev pc s u _ _ _ Hu =>
                      match Heq in _ = o
                            return match o with
                                   | Some cb' => trace (cb' pc s u) = trace p1
                                   | None => True
                                   end
                      with eq_refl => Hu end)).
  specialize (Hinv DBus.newClient p1 eq_refl).
  destruct (Transactions.installUpdatesOnHost _ _ _ _ _ _ _)
    as [o [c q1]].
  cbn [snd] in Hinv.
  destruct o; cbn [fst snd log trace]; rewrite ?Hinv; cbn [p1 log trace];
    rewrite <- ?app_assoc; reflexivity.
Qed.

(** *** One install invocation *)

Lemma updateMachine_shape (snapshot : list MachineWithUpdates)
      (host : string) (securityOnly : bool) (p : Page) :
  updateMachine gettext cockpit_format env snapshot host securityOnly p =
  match callInstall gettext cockpit_format env host (onProgress host)
                    securityOnly (startInstall gettext host p) with
  | (Pending, p2) => (Pending, p2)
  | (Returned result, p2) =>
      match afterInstall gettext cockpit_format env snapshot host result p2
      with
      | (Pending, p3) => (Pending, p3)
      | (Returned _, p3) => (Returned tt, clearInstall host p3)
      | (Threw e, p3) =>
          (Returned tt,
           clearInstall host
             (snd (installFailed gettext cockpit_format host e p3)))
      end
  | (Threw e, p2) =>
      (Returned tt,
       clearInstall host
         (snd (installFailed gettext cockpit_format host e p2)))
  end.
Proof.
  unfold updateMachine, Async.bind, Async.modify, Async.tryFinally,
    Async.tryCatch.
  destruct (callInstall _ _ _ _ _ _ _) as [[result | e |] p2];
    [destruct (afterInstall _ _ _ _ _ _ _) as [[[] | e |] p3] | |];
    reflexivity.
Qed.

Lemma allCleared_clearInstall (host : string) (q : Page) :
  Spec.allCleared host (clearInstall host q).
Proof.
  intros m' Hin Hk. cbn [clearInstall setMachine dash machines] in Hin.
  apply in_map_iff in Hin. destruct Hin as (m & <- & Hin).
  destruct (keyIs host m) eqn:E.
  - split; reflexivity.
  - unfold keyIs in E. fold (Spec.keyOf m) in E.
    rewrite Hk, String.eqb_refl in E. discriminate.
Qed.

Lemma updateMachine_cleared (snapshot : list MachineWithUpdates)
      (host : string) (securityOnly : bool) (p p' : Page) :
  updateMachine gettext cockpit_format env snapshot host securityOnly p
    = (Returned tt, p') ->
  Spec.allCleared host p'.
Proof.
  rewrite updateMachine_shape.
  destruct (callInstall _ _ _ _ _ _ _) as [[result | e |] p2];
    [destruct (afterInstall _ _ _ _ _ _ _) as [[[] | e |] p3] | |];
    intros [= <-]; apply allCleared_clearInstall.
Qed.

Lemma updateMachine_never_throws (snapshot : list MachineWithUpdates)
      (host : string) (securityOnly : bool) (p : Page) (e : JsError) :
  fst (updateMachine gettext cockpit_format env snapshot host securityOnly p)
    <> Threw e.
Proof.
  rewrite updateMachine_shape.
  destruct (callInstall _ _ _ _ _ _ _) as [[result | e' |] p2];
    [destruct (afterInstall _ _ _ _ _ _ _) as [[[] | e' |] p3] | |];
    discriminate.
Qed.

Lemma updateMachine_framed (snapshot : list MachineWithUpdates)
      (host : string) (securityOnly : bool) (p : Page) :
  Spec.framed [host] p
    (snd (updateMachine gettext cockpit_format env snapshot host
            securityOnly p)).
Proof.
  assert (Hmem : Js.mem host [host] = true)
    by (cbn; now rewrite String.eqb_refl).
  assert (Hset : forall f q, (forall m, Spec.keyOf (f m) = Spec.keyOf m) ->
                   Spec.framed [host] p q ->
                   Spec.framed [host] p (setMachine host f q))
    by (intros; apply framed_setMachine; auto).
  assert (H1 : Spec.framed [host] p (startInstall gettext host p))
    by (apply Hset; [reflexivity | apply framed_refl]).
  pose proof (@callInstall_preserves (Spec.framed [host] p) host securityOnly
                (fun e q Hq => Hq)
                (fun pc st q Hq =>
                   Hset (withProgress (Some (pc, st))) q
                        (fun m => eq_refl) Hq)
                _ H1) as H2.
  rewrite updateMachine_shape.
  destruct (callInstall _ _ _ _ _ _ _) as [[result | e |] p2];
    cbn [snd] in H2 |- *; auto.
  - pose proof (@afterInstall_stable host _ (stable_framed host [host] p)
                  snapshot result p2 H2) as H3.
    destruct (afterInstall _ _ _ _ _ _ _) as [[[] | e |] p3];
      cbn [snd] in H3 |- *; auto.
    + apply Hset; [reflexivity | exact H3].
    + apply Hset; [reflexivity |].
      now apply (installFailed_stable (stable_framed host [host] p)).
  - apply Hset; [reflexivity |].
    now apply (installFailed_stable (stable_framed host [host] p)).
Qed.

Lemma updateMachine_installs (snapshot : list MachineWithUpdates)
      (host : string) (securityOnly : bool) (p p' : Page) :
  updateMachine gettext cockpit_format env snapshot host securityOnly p
    = (Returned tt, p') ->
  Spec.installs (trace p') =
  (Spec.installs (trace p) ++ Spec.installRun securityOnly [host])%list.
Proof.
  rewrite updateMachine_shape.
  pose proof (callInstall_trace host securityOnly
                (startInstall gettext host p)) as Ht.
  set (t1 := (Spec.installs (trace p)
              ++ Spec.installRun securityOnly [host])%list).
  assert (Hst := stable_installs host t1).
  destruct (callInstall _ _ _ _ _ _ _) as [[result | e |] p2];
    cbn [fst snd] in Ht; [| | discriminate].
  - assert (H2 : Spec.installs (trace p2) = t1).
    { rewrite Ht. unfold Spec.installs, t1. rewrite filter_app.
      reflexivity. }
    pose proof (afterInstall_stable Hst snapshot result p2 H2) as H3.
    destruct (afterInstall _ _ _ _ _ _ _) as [[[] | e |] p3];
      cbn [snd] in H3; intros [= <-]; auto.
  - intros [= <-].
    assert (H2 : Spec.installs (trace p2) = t1).
    { rewrite Ht. unfold Spec.installs, t1. rewrite filter_app.
      reflexivity. }
    now apply (installFailed_stable Hst).
Qed.

(** *** The bulk update *)

Lemma mem_In (k : string) (l : list string) : Js.mem k l = true <-> In k l.
Proof.
  unfold Js.mem. rewrite existsb_exists. split.
  - intros (x & Hx & He). apply String.eqb_eq in He. now subst.
  - intros H. exists k. split; [exact H | apply String.eqb_refl].
Qed.

Lemma forEach_updateMachine (snapshot : list MachineWithUpdates)
      (securityOnly : bool) (l : list MachineWithUpdates) :
  forall p p',
    Async.forEach l
      (fun m => updateMachine gettext cockpit_format env snapshot
                              (key (machine m)) securityOnly) p
      = (Returned tt, p') ->
    Spec.installs (trace p') =
    (Spec.installs (trace p)
     ++ Spec.installRun securityOnly (map Spec.keyOf l))%list /\
    Spec.framed (map Spec.keyOf l) p p' /\
    (forall h, In h (map Spec.keyOf l) -> Spec.allCleared h p').
Proof.
  induction l as [| x l IH]; intros p p' Hrun.
  - injection Hrun as <-. cbn. rewrite app_nil_r.
    split; [reflexivity |]. split; [apply framed_refl | tauto].
  - cbn [Async.forEach] in Hrun. unfold Async.bind in Hrun.
    destruct (updateMachine _ _ _ _ _ _ p) as [o p1] eqn:E1.
    destruct o as [[] | e |]; try discriminate.
    pose proof E1 as Ht1. apply updateMachine_installs in Ht1.
    pose proof (updateMachine_framed snapshot (key (machine x))
                  securityOnly p) as Hf1.
    rewrite E1 in Hf1. cbn [snd] in Hf1.
    pose proof E1 as Hc1. apply updateMachine_cleared in Hc1.
    destruct (IH p1 p' Hrun) as (Ht & Hf & Hc).
    fold (Spec.keyOf x) in *. cbn [map].
    split; [| split].
    + rewrite Ht, Ht1. rewrite <- app_assoc. reflexivity.
    + apply framed_trans with p1.
      * apply framed_weaken with [Spec.keyOf x]; [| exact Hf1].
        intros h Hh. cbn in Hh |- *.
        apply orb_false_elim in Hh. destruct Hh as [-> _]. reflexivity.
      * apply framed_weaken with (map Spec.keyOf l); [| exact Hf].
        intros h Hh. cbn in Hh. apply orb_false_elim in Hh.
        exact (proj2 Hh).
    + intros h Hh.
      destruct (Js.mem h (map Spec.keyOf l)) eqn:Em.
      * apply Hc. now apply mem_In.
      * destruct Hh as [<- | Hh]; [| apply mem_In in Hh; congruence].
        intros m' Hin Hk.
        destruct (@framed_In _ _ _ m' Hf Hin) as (m1 & Hin1 & Hk1 & Hu1).
        rewrite Hk in Hk1.
        destruct (Hc1 m1 Hin1 (eq_sym Hk1)) as [Hc11 Hc12].
        rewrite <- Hk1 in Hu1. destruct (Hu1 Em) as [-> ->].
        now split.
Qed.


Lemma updateAll_never_throws (snapshot : list MachineWithUpdates)
      (securityOnly : bool) (p : Page) (e : JsError) :
  fst (updateAll gettext cockpit_format env snapshot securityOnly p)
    <> Threw e.
Proof.
  unfold updateAll, Async.bind at 1, Async.modify at 1.
  assert (Hloop : forall l q,
            fst (Async.forEach l
                   (fun m => updateMachine gettext cockpit_format env snapshot
                                           (key (machine m)) securityOnly) q)
            <> Threw e).
  { induction l as [| x l IH]; intros q; [discriminate |].
    cbn [Async.forEach]. unfold Async.bind.
    pose proof (@updateMachine_never_throws snapshot (key (machine x))
                  securityOnly q e) as Hx.
    destruct (updateMachine _ _ _ _ _ _ q) as [[[] | e' |] q1];
      cbn [fst] in *; [apply IH | congruence | discriminate]. }
  unfold Async.bind. specialize (Hloop (filter needsUpdate snapshot)
                                       (setBulkUpdating true p)).
  destruct (Async.forEach _ _ _) as [[[] | e' |] q1]; cbn [fst] in *;
    [discriminate | congruence | discriminate].
Qed.

(** *** The connection check inside a refresh *)

(** Whatever the probe answers, the destructured state is [undefined]:
    the entry loses its state, is reported as not connected, and no
    update check follows. *)
Lemma reconnect_run (host : string) (p : Page) :
  reconnect gettext env host p =
  (Returned tt,
   let p1 := log (Settled CheckConnection host)
                 (log (Called CheckConnection host) p) in
   let p2 := setMachine host
               (fun m => withLabel (label (machine m)) (withState None m))
               p1 in
   setMachine host (withUpdates (notConnected gettext p2)) p2).
Proof.
  unfold reconnect, Async.bind at 1, callCheckConnection, api.
  destruct (checkMachineConnection_resolves host
              (probeChannel env host (now (log (Called CheckConnection host)
                                               p))))
    as (v & Hv & _).
  rewrite Hv.
  change (Prober.destructure v) with (Prober.JUndefined, Prober.JUndefined).
  reflexivity.
Qed.

Lemma reconnect_never_refreshes (host : string) (p : Page) :
  fst (reconnect gettext env host p) = Returned tt /\
  trace (snd (reconnect gettext env host p)) =
  (trace p ++ [Called CheckConnection host; Settled CheckConnection host])%list
  /\
  (forall m, In m (machines (dash (snd (reconnect gettext env host p)))) ->
             Spec.keyOf m = host ->
             state (machine m) = None /\
             error (updates m) = Some (gettext "Machine not connected")).
Proof.
  rewrite reconnect_run. cbv zeta. cbn [fst snd].
  split; [reflexivity |]. split.
  - cbn [setMachine log trace]. now rewrite <- app_assoc.
  - intros m Hin Hk. cbn [setMachine dash machines] in Hin.
    apply in_map_iff in Hin. destruct Hin as (m1 & <- & Hin).
    apply in_map_iff in Hin. destruct Hin as (m0 & <- & Hin).
    assert (Hkeep : keyIs host (withLabel (label (machine m0))
                                          (withState None m0))
                    = keyIs host m0) by reflexivity.
    destruct (keyIs host m0) eqn:E.
    + rewrite Hkeep. split; reflexivity.
    + rewrite E in Hk. unfold keyIs in E. fold (Spec.keyOf m0) in E.
      rewrite Hk, String.eqb_refl in E. discriminate.
Qed.

(** *** Completion of one install *)

Lemma allUpdating_startInstall (host : string) (p : Page) :
  Spec.allUpdating host (startInstall gettext host p).
Proof.
  intros m' Hin Hk. cbn [startInstall setMachine dash machines] in Hin.
  apply in_map_iff in Hin. destruct Hin as (m & <- & Hin).
  destruct (keyIs host m) eqn:E; [reflexivity |].
  unfold keyIs in E. fold (Spec.keyOf m) in E.
  rewrite Hk, String.eqb_refl in E. discriminate.
Qed.

Lemma updateMachine_pending (snapshot : list MachineWithUpdates)
      (host : string) (securityOnly : bool) (p p' : Page) :
  updateMachine gettext cockpit_format env snapshot host securityOnly p
    = (Pending, p') ->
  Spec.allUpdating host p'.
Proof.
  rewrite updateMachine_shape.
  pose proof (@callInstall_preserves (Spec.allUpdating host) host
                securityOnly (fun e q Hq => Hq)
                (fun pc st q Hq =>
                   @allUpdating_setMachine host
                     (withProgress (Some (pc, st))) q
                     (fun m => conj eq_refl eq_refl) Hq)
                _ (@allUpdating_startInstall host p)) as H2.
  destruct (callInstall _ _ _ _ _ _ _) as [[result | e |] p2];
    cbn [snd] in H2; [| discriminate | now intros [= <-]].
  pose proof (afterInstall_stable (stable_allUpdating host) snapshot result
                p2 H2) as H3.
  destruct (afterInstall _ _ _ _ _ _ _) as [[[] | e |] p3];
    cbn [snd] in H3; try discriminate.
  now intros [= <-].
Qed.

Lemma updateMachine_failed (snapshot : list MachineWithUpdates)
      (host : string) (securityOnly : bool) (p : Page) (r : InstallResult) :
  fst (callInstall gettext cockpit_format env host (onProgress host)
         securityOnly (startInstall gettext host p)) = Returned r ->
  success r = false ->
  fst (updateMachine gettext cockpit_format env snapshot host securityOnly p)
    = Returned tt /\
  trace (snd (updateMachine gettext cockpit_format env snapshot host
                securityOnly p))
    = (trace p ++ Spec.installRun securityOnly [host])%list.
Proof.
  intros Hr Hs. rewrite updateMachine_shape.
  pose proof (callInstall_trace host securityOnly
                (startInstall gettext host p)) as Ht.
  destruct (callInstall _ _ _ _ _ _ _) as [o p2]. cbn [fst snd] in *.
  subst o. unfold afterInstall. rewrite Hs.
  cbn. split; [reflexivity | exact Ht].
Qed.

Lemma refreshUpdates_starts (host : string) (t : list TraceEvent) :
  forall q, trace q = t ->
    Spec.extends (t ++ [Called RefreshPackageCache host])
                 (snd (refreshUpdates gettext env host q)).
Proof.
  set (T := (t ++ [Called RefreshPackageCache host])%list).
  assert (Hst := stable_extends host T).
  unfold refreshUpdates.
  apply leads_bind with (I := fun q => trace q = t) (I1 := Spec.extends T).
  - intros q Hq. unfold callRefreshPackageCache, api.
    destruct (Transactions.refreshPackageCache _ _ _ _) as [o c].
    cbn [fst]. unfold Spec.extends.
    destruct o; cbn [snd log trace]; rewrite Hq; unfold T.
    + now exists [Settled RefreshPackageCache host].
    + now exists [Settled RefreshPackageCache host].
    + exists []. now rewrite app_nil_r.
  - intros _.
    apply preserves_bind; [now apply (api_stable Hst) | intros u].
    apply (setMachine_stable Hst), quiet_connected.
Qed.

Lemma updateMachine_checks (snapshot : list MachineWithUpdates)
      (host : string) (securityOnly : bool) (p : Page) (r : InstallResult) :
  fst (callInstall gettext cockpit_format env host (onProgress host)
         securityOnly (startInstall gettext host p)) = Returned r ->
  success r = true ->
  Spec.connectedIn snapshot host ->
  Spec.extends
    (trace p ++ Spec.installRun securityOnly [host]
             ++ [Called RefreshPackageCache host])
    (snd (updateMachine gettext cockpit_format env snapshot host
            securityOnly p)).
Proof.
  intros Hr Hs Hc. rewrite updateMachine_shape.
  pose proof (callInstall_trace host securityOnly
                (startInstall gettext host p)) as Ht.
  destruct (callInstall _ _ _ _ _ _ _) as [o p2]. cbn [fst snd] in *.
  subst o.
  set (T := (trace p ++ Spec.installRun securityOnly [host]
                     ++ [Called RefreshPackageCache host])%list).
  assert (Hst := stable_extends host T).
  assert (Hrefresh : forall q, trace q = trace p2 ->
            Spec.extends T
              (snd (refreshMachine gettext cockpit_format env snapshot host
                      q))).
  { intros q Hq. unfold refreshMachine.
    unfold Async.bind at 1. cbn [Async.modify].
    apply leads_tryCatch with (I := fun q' => trace q' = trace p2)
                              (I1 := Spec.extends T);
      [| intros e; now apply refreshFailed_stable | exact Hq].
    intros q' Hq'.
    assert (Hu : Spec.extends T (snd (refreshUpdates gettext env host q'))).
    { unfold T. rewrite app_assoc. apply refreshUpdates_starts.
      rewrite Hq', Ht. reflexivity. }
    unfold Spec.connectedIn in Hc.
    destruct (find (keyIs host) snapshot) as [found |]; [| exact Hu].
    rewrite Hc. exact Hu. }
  assert (H3 : Spec.extends T
            (snd (afterInstall gettext cockpit_format env snapshot host r
                    p2))).
  { unfold afterInstall. rewrite Hs.
    unfold Async.bind at 1. cbn [addAlert Async.modify].
    unfold Async.bind at 1.
    destruct (rebootRequired r) as [[] |]; cbn [addAlert Async.modify
      Async.ret]; apply Hrefresh; reflexivity. }
  destruct (afterInstall _ _ _ _ _ _ _) as [[[] | e |] p3];
    cbn [snd] in H3 |- *; exact H3.
Qed.


End DashboardFacts.




(** ** Sets, sorting and lookup *)

Lemma insert_perm (A : Type) (cmp : A -> A -> Z) (x : A) (l : list A) :
  Permutation (x :: l) (Js.insert cmp x l).
Proof.
  induction l as [| y l IH]; simpl; [reflexivity |].
  destruct (cmp x y <=? 0); [reflexivity |].
  rewrite perm_swap. now apply perm_skip.
Qed.

Lemma sort_perm (A : Type) (cmp : A -> A -> Z) (l : list A) :
  Permutation l (Js.sort cmp l).
Proof.
  induction l as [| x l IH]; simpl; [reflexivity |].
  rewrite <- insert_perm. now apply perm_skip.
Qed.

Lemma setAdd_spec (l : list string) :
  forall seen,
    NoDup (Js.setAdd seen l) /\
    (forall x, In x (Js.setAdd seen l) <-> In x l /\ ~ In x seen).
Proof.
  induction l as [| k l IH]; intros seen; simpl.
  - split; [constructor | tauto].
  - destruct (Js.mem k seen) eqn:E.
    + destruct (IH seen) as [Hnd Hin]. split; [exact Hnd |].
      intros x. rewrite Hin. apply mem_In in E.
      split; [tauto |]. intros [[<- | Hx] Hn]; tauto.
    + destruct (IH (k :: seen)) as [Hnd Hin].
      assert (Hk : ~ In k seen)
        by (intros H; apply mem_In in H; congruence).
      split.
      * constructor; [| exact Hnd]. rewrite Hin. simpl. tauto.
      * intros x. simpl. rewrite Hin. simpl.
        destruct (String.eqb_spec k x) as [-> | Hne]; [tauto |].
        tauto.
Qed.

Lemma newSet_NoDup (l : list string) : NoDup (Js.newSet l).
Proof. apply setAdd_spec. Qed.

Lemma newSet_In (l : list string) (x : string) :
  In x (Js.newSet l) <-> In x l.
Proof.
  unfold Js.newSet. destruct (setAdd_spec l []) as [_ H].
  rewrite H. simpl. tauto.
Qed.

Lemma prop_In (A : Type) (obj : list (string * A)) (k : string) (v : A) :
  Js.prop obj k = Some v -> In (k, v) obj.
Proof.
  induction obj as [| [k' v'] obj IH]; simpl; [discriminate |].
  destruct (String.eqb_spec k' k) as [-> | Hne].
  - intros [= ->]. now left.
  - intros H. right. now apply IH.
Qed.

(** ** More on the registry reader *)

Section RegistryMore.
Variable SESSION_KEY : string.
Variable JSON_parse : string -> option MachinesData.
Variable localeCompare : string -> string -> Z.

Local Abbreviation getMachinesList :=
  (Registry.getMachinesList SESSION_KEY JSON_parse localeCompare).
Local Abbreviation visibleRecords :=
  (Spec.visibleRecords SESSION_KEY JSON_parse).
Local Abbreviation parsedRegistry :=
  (Terms.parsedRegistry SESSION_KEY JSON_parse).

Lemma visibleRecords_parsed (b : Browser) :
  visibleRecords b =
  match parsedRegistry b with
  | Some parsed =>
      let content := Registry.override (content parsed) [] in
      let overlay := Registry.override (overlay parsed) [] in
      Registry.collect b content overlay
        (Js.newSet (Js.keys content ++ Js.keys overlay))
  | None => []
  end.
Proof.
  unfold Spec.visibleRecords, Terms.parsedRegistry.
  destruct (Js.prop (sessionStorage b) SESSION_KEY) as [data |];
    [| reflexivity].
  destruct (String.eqb data ""); [reflexivity |].
  destruct (JSON_parse data); reflexivity.
Qed.

Lemma collect_In (b : Browser) content overlay hosts (m : Machine) :
  In m (Registry.collect b content overlay hosts) <->
  exists host, In host hosts /\
               Registry.mergeHost b content overlay host = Some m.
Proof.
  induction hosts as [| h hosts IH]; simpl.
  - split; [tauto | intros (host & [] & _)].
  - destruct (Registry.mergeHost b content overlay h) as [m' |] eqn:E.
    + simpl. rewrite IH. split.
      * intros [<- | (host & Hin & Hm)]; [exists h | exists host]; auto.
      * intros (host & [<- | Hin] & Hm); [left; congruence |].
        right. now exists host.
    + rewrite IH. split.
      * intros (host & Hin & Hm). exists host. auto.
      * intros (host & [<- | Hin] & Hm); [congruence |]. now exists host.
Qed.

Lemma mergeHost_visible (b : Browser) content overlay host (m : Machine) :
  Registry.mergeHost b content overlay host = Some m ->
  Registry.isVisible m = true.
Proof.
  unfold Registry.mergeHost.
  destruct (Registry.isVisible _) eqn:E; [| discriminate].
  destruct (String.eqb _ ""); [destruct (_ || _) |];
    intros [= <-]; exact E.
Qed.

(** X1: no entry of the roster is a hidden machine. *)
Theorem roster_never_lists_hidden (b : Browser) (m : Machine) :
  In m (fst (getMachinesList b)) -> visible m <> Some false.
Proof.
  rewrite getMachinesList_roster.
  destruct (visibleRecords b) as [| m0 ms] eqn:E.
  - intros [<- | []]. discriminate.
  - intros Hin. apply sort_In in Hin. rewrite <- E in Hin.
    rewrite visibleRecords_parsed in Hin.
    destruct (parsedRegistry b) as [parsed |]; [| destruct Hin].
    cbv zeta in Hin. apply collect_In in Hin.
    destruct Hin as (host & _ & Hm). apply mergeHost_visible in Hm.
    unfold Registry.isVisible in Hm. intros Hv. rewrite Hv in Hm.
    discriminate.
Qed.

(** X2: sorting neither drops nor repeats a machine: when the registry
    has visible records, the roster is a rearrangement of them. *)
Theorem roster_rearranges_visible_records (b : Browser) :
  visibleRecords b <> [] ->
  Permutation (visibleRecords b) (fst (getMachinesList b)).
Proof.
  intros Hne. rewrite getMachinesList_roster.
  destruct (visibleRecords b) as [| m ms]; [congruence |].
  apply sort_perm.
Qed.

Lemma mergeHost_key (b : Browser) content overlay host (m : Machine) :
  (forall h p, In (h, p) (content ++ overlay) -> p_key p = None) ->
  Registry.mergeHost b content overlay host = Some m ->
  key m = host.
Proof.
  intros Hkeys. unfold Registry.mergeHost.
  assert (Hkey : key (Registry.spread
                        (Registry.spread
                           (mkMachine host host host None None None None
                                      None)
                           (Js.prop content host))
                        (Js.prop overlay host)) = host).
  { destruct (Js.prop content host) as [pc |] eqn:Ec;
      destruct (Js.prop overlay host) as [po |] eqn:Eo; cbn;
      try apply prop_In in Ec; try apply prop_In in Eo;
      try rewrite (Hkeys host pc) by (apply in_or_app; now left);
      try rewrite (Hkeys host po) by (apply in_or_app; now right);
      reflexivity. }
  destruct (Registry.isVisible _); [| discriminate].
  destruct (String.eqb _ ""); [destruct (_ || _) |];
    intros [= <-]; exact Hkey.
Qed.

Lemma collect_keys (b : Browser) content overlay (hosts : list string) :
  (forall h p, In (h, p) (content ++ overlay) -> p_key p = None) ->
  NoDup hosts ->
  NoDup (map key (Registry.collect b content overlay hosts)) /\
  (forall k, In k (map key (Registry.collect b content overlay hosts)) ->
             In k hosts).
Proof.
  intros Hkeys. induction 1 as [| h hosts Hh Hnd IH]; simpl.
  - split; [constructor | tauto].
  - destruct IH as [IH1 IH2].
    destruct (Registry.mergeHost b content overlay h) as [m |] eqn:E.
    + apply mergeHost_key in E; [| exact Hkeys]. simpl. rewrite E. split.
      * constructor; [| exact IH1]. intros Hin. apply Hh. now apply IH2.
      * intros k [<- | Hk]; [now left | right; now apply IH2].
    + split; [exact IH1 |]. intros k Hk. right. now apply IH2.
Qed.

Lemma keysNotOverridden_spec (parsed : MachinesData) :
  Terms.keysNotOverridden parsed = true ->
  forall h p,
    In (h, p) (Registry.override (content parsed) []
               ++ Registry.override (overlay parsed) []) ->
    p_key p = None.
Proof.
  unfold Terms.keysNotOverridden, Terms.records. intros H h p Hin.
  rewrite forallb_forall in H. specialize (H (h, p) Hin). simpl in H.
  destruct (p_key p); [discriminate | reflexivity].
Qed.

(** X3: when no record of the registry carries a [key] field of its
    own, the keys of the roster are pairwise distinct. *)
Theorem roster_keys_distinct (b : Browser) :
  (forall parsed, parsedRegistry b = Some parsed ->
                  Terms.keysNotOverridden parsed = true) ->
  NoDup (map key (fst (getMachinesList b))).
Proof.
  intros Hkeys. rewrite getMachinesList_roster.
  destruct (visibleRecords b) as [| m0 ms] eqn:E.
  - repeat constructor. intros [].
  - rewrite <- E. clear E.
    eapply Permutation_NoDup;
      [apply Permutation_map, sort_perm |].
    rewrite visibleRecords_parsed.
    destruct (parsedRegistry b) as [parsed |]; [| constructor].
    cbv zeta. apply collect_keys; [| apply newSet_NoDup].
    now apply keysNotOverridden_spec, Hkeys.
Qed.

(** X4: a host that the overlay marks as not visible is not on the
    roster under its own name, whatever its base record says (no record
    carrying a [key] field; the local machine can still be listed by the
    fallback). *)
Theorem hidden_host_not_listed (b : Browser) (parsed : MachinesData)
        (host : string) (o : PartialMachine) :
  parsedRegistry b = Some parsed ->
  Terms.keysNotOverridden parsed = true ->
  Js.prop (Registry.override (overlay parsed) []) host = Some o ->
  p_visible o = Some false ->
  host <> "localhost" ->
  forall m, In m (fst (getMachinesList b)) -> key m <> host.
Proof.
  intros Hp Hkeys Ho Hv Hl m Hin Hk.
  rewrite getMachinesList_roster in Hin.
  destruct (visibleRecords b) as [| m0 ms] eqn:E.
  - destruct Hin as [<- | []]. apply Hl. now rewrite <- Hk.
  - apply sort_In in Hin. rewrite <- E in Hin. clear E.
    rewrite visibleRecords_parsed, Hp in Hin. cbv zeta in Hin.
    apply collect_In in Hin. destruct Hin as (h & _ & Hm).
    pose proof (mergeHost_key _ _ _ _ (keysNotOverridden_spec _ Hkeys) Hm)
      as Hkey.
    rewrite Hk in Hkey. subst h.
    unfold Registry.mergeHost in Hm. rewrite Ho in Hm.
    destruct (Js.prop (Registry.override (content parsed) []) host);
      cbn in Hm; rewrite Hv in Hm; discriminate.
Qed.

Lemma hostsNamed_spec (parsed : MachinesData) (host : string) :
  Terms.hostsNamed parsed = true ->
  In host (Js.keys (Registry.override (content parsed) [])
           ++ Js.keys (Registry.override (overlay parsed) [])) ->
  host <> "".
Proof.
  unfold Terms.hostsNamed, Terms.records, Js.keys.
  rewrite <- map_app. intros H Hin.
  apply in_map_iff in Hin. destruct Hin as ([h p] & <- & Hin).
  rewrite forallb_forall in H. specialize (H (h, p) Hin). simpl in *.
  intros ->. discriminate.
Qed.

(** X5: when the browser reports a host name and no host of the
    registry is the empty string, every roster entry has a non-empty
    label. *)
Theorem roster_labels_not_empty (b : Browser) :
  hostname b <> "" ->
  (forall parsed, parsedRegistry b = Some parsed ->
                  Terms.hostsNamed parsed = true) ->
  forall m, In m (fst (getMachinesList b)) -> label m <> "".
Proof.
  intros Hh Hn m Hin. rewrite getMachinesList_roster in Hin.
  destruct (visibleRecords b) as [| m0 ms] eqn:E.
  - destruct Hin as [<- | []]. cbn. unfold Js.orElse.
    destruct (String.eqb_spec (hostname b) ""); [discriminate | exact Hh].
  - apply sort_In in Hin. rewrite <- E in Hin. clear E.
    rewrite visibleRecords_parsed in Hin.
    destruct (parsedRegistry b) as [parsed |] eqn:Ep; [| destruct Hin].
    cbv zeta in Hin. apply collect_In in Hin.
    destruct Hin as (host & Hhost & Hm).
    rewrite newSet_In in Hhost.
    pose proof (@hostsNamed_spec parsed host (Hn parsed eq_refl) Hhost)
      as Hne.
    unfold Registry.mergeHost in Hm.
    destruct (Registry.isVisible _); [| discriminate].
    destruct (String.eqb_spec (label (Registry.spread
                 (Registry.spread
                    (mkMachine host host host None None None None None)
                    (Js.prop (Registry.override (content parsed) []) host))
                 (Js.prop (Registry.override (overlay parsed) []) host))) "")
      as [El | El].
    + destruct (_ || _); injection Hm as <-; cbn; assumption.
    + injection Hm as <-. exact El.
Qed.

End RegistryMore.

(** ** More on the update-transaction client *)

Section TransactionsMore.
Import DBus Transactions.
Variable gettext : string -> string.
Variable cockpit_format : string -> list (option string) -> string.

Lemma await_check_exact (evs : list Event) :
  forall (c : Client) (v : CheckVars) (pkg fin err : nat),
    cv_promise v = None ->
    isActive pkg c = true -> isActive fin c = true ->
    isActive err c = true ->
    exists c' p',
      awaitPromise cv_promise cvSetPromise (Spec.checkTable pkg fin err) evs
                   (c, v) =
      (Spec.streamOutcome evs,
       (c', mkCheckVars p'
              (cv_updates v
               ++ map (fun r => (Js.splitHead ";" (snd r),
                                 if fst r =? 8 then "security" else "normal"))
                      (Terms.packagesBefore evs))
              (cv_result v))).
Proof.
  induction evs as [| ev evs IH]; intros c v pkg fin err Hp Hpkg Hfin Herr.
  - exists c, None. simpl. rewrite Hp, app_nil_r.
    destruct v; simpl in *; subst. reflexivity.
  - cbn [awaitPromise snd]. rewrite Hp.
    destruct ev as [[info pid | code | code details | pc | pid pc] | e];
      cbn [step deliver Spec.checkTable member String.eqb Ascii.eqb
           Bool.eqb andb fst snd Spec.streamOutcome Terms.packagesBefore
           map].
    + rewrite Hpkg. cbn [onPackage fst snd].
      destruct (IH c (cvPush (Js.splitHead ";" pid,
                              if info =? 8 then "security" else "normal") v)
                   pkg fin err Hp Hpkg Hfin Herr)
        as (c' & p' & Heq).
      exists c', p'. rewrite Heq. cbn [cvPush cv_updates cv_result].
      now rewrite <- app_assoc.
    + rewrite Hfin. unfold onCheckFinished, resolve, settle.
      cbn [fst snd]. rewrite Hp.
      rewrite awaitPromise_settled with (r := None) by reflexivity.
      exists (remove fin c), (Some None). now rewrite app_nil_r.
    + rewrite Herr. unfold onCheckError, reject, settle.
      cbn [fst snd]. rewrite Hp.
      rewrite awaitPromise_settled with (r := Some (newError details))
        by reflexivity.
      exists (remove err c), (Some (Some (newError details))).
      now rewrite app_nil_r.
    + apply IH; assumption.
    + apply IH; assumption.
    + unfold reject, settle. cbn [fst snd]. rewrite Hp.
      rewrite awaitPromise_settled with (r := Some e) by reflexivity.
      exists c, (Some (Some e)). now rewrite app_nil_r.
Qed.

Lemma filter_security_map (l : list (Z * string)) :
  filter isSecurity
         (map (fun r : Z * string =>
                 (Js.splitHead ";" (snd r),
                  if fst r =? 8 then "security" else "normal")) l)
  = map (fun r : Z * string =>
           (Js.splitHead ";" (snd r),
            if fst r =? 8 then "security" else "normal"))
        (filter (fun r => fst r =? 8) l).
Proof.
  induction l as [| r l IH]; [reflexivity |].
  cbn [filter map]. unfold isSecurity at 1. cbn [snd].
  destruct (fst r =? 8) eqn:E; cbn; rewrite ?E, IH; reflexivity.
Qed.

Ltac active_here :=
  unfold DBus.isActive, DBus.record; cbn [DBus.active fst];
  rewrite ?existsb_app; cbn [existsb fst];
  now rewrite ?Nat.eqb_refl, ?orb_true_r.

(** The result of a check, path by path. *)
Lemma getUpdatesForHost_exact (now : Date) (host : string) (rem : Remote)
      (c : Client) :
  exists c',
    getUpdatesForHost gettext now host rem c =
    (match Terms.settles gettext rem with
     | Returned _ =>
         Returned
           (mkUpdateInfo
              (Z.of_nat (List.length (Terms.packagesBefore (events rem))))
              (Z.of_nat
                 (List.length
                    (filter (fun r => fst r =? 8)
                            (Terms.packagesBefore (events rem)))))
              false None (Some now))
     | Threw err =>
         Returned
           (mkUpdateInfo 0 0 false
              (Some (if msgIncludes err "not-found"
                        || msgIncludes err "ServiceUnknown"
                     then gettext "PackageKit not available"
                     else if Js.truthy (message err)
                          then Registry.override (message err) ""
                          else gettext "Failed to check for updates"))
              (Some now))
     | Pending => Pending
     end, c').
Proof.
  unfold getUpdatesForHost.
  set (v0 := mkCheckVars None [] (mkUpdateInfo 0 0 false None (Some now))).
  unfold Async.bind at 1. unfold Async.tryCatch, checkTry.
  unfold Async.bind at 1.
  destruct (openTransaction_cases gettext host rem (c, v0))
    as (c1 & Heq & Hn & Ha).
  rewrite Heq. clear Heq. unfold Terms.settles.
  destruct (createTransaction rem) as [path | e |].
  - destruct (Js.truthy path).
    + destruct (proxyWait rem) as [[] | e |].
      * unfold Async.bind, onClient, call, Async.modify.
        cbn [fst snd subscribe record nextId active calls].
        match goal with
        | |- context [awaitPromise _ _ [(?a, _, _); (?b, _, _); (?d, _, _)]
                                   ?evs (?c3, ?v)] =>
            assert (Ha1 : isActive a c3 = true) by active_here;
            assert (Ha2 : isActive b c3 = true) by active_here;
            assert (Ha3 : isActive d c3 = true) by active_here;
            destruct (await_check_exact evs c3 v a b d eq_refl Ha1 Ha2 Ha3)
              as (c' & p' & Heq);
            unfold Spec.checkTable in Heq; rewrite Heq; clear Heq
        end.
        destruct (Spec.streamOutcome (events rem)) as [[] | e |].
        -- eexists. cbn [fst snd cv_updates cv_result cvSetResult v0
                         Async.gets app loading error lastChecked].
           rewrite !length_map.
           replace (filter isSecurity
                      (map (fun r : Z * string =>
                              (Js.splitHead ";" (snd r),
                               if fst r =? 8 then "security" else "normal"))
                           (Terms.packagesBefore (events rem))))
             with (map (fun r : Z * string =>
                          (Js.splitHead ";" (snd r),
                           if fst r =? 8 then "security" else "normal"))
                       (filter (fun r => fst r =? 8)
                               (Terms.packagesBefore (events rem)))).
           ++ rewrite length_map. reflexivity.
           ++ symmetry. apply filter_security_map.
        -- eexists. reflexivity.
        -- eexists. reflexivity.
      * eexists. reflexivity.
      * eexists. reflexivity.
    + eexists. reflexivity.
  - eexists. reflexivity.
  - eexists. reflexivity.
Qed.

(** X6: a check whose transaction finishes returns the number of
    [Package] signals received before the finished event as [total] and
    the number of those with info code 8 as [security], with no error. *)
Theorem getUpdatesForHost_counts_packages (now : Date) (host : string)
        (rem : Remote) (c : Client) :
  Terms.settles gettext rem = Returned tt ->
  fst (getUpdatesForHost gettext now host rem c) =
  Returned
    (mkUpdateInfo
       (Z.of_nat (List.length (Terms.packagesBefore (events rem))))
       (Z.of_nat (List.length (filter (fun r => fst r =? 8)
                                      (Terms.packagesBefore (events rem)))))
       false None (Some now)).
Proof.
  intros Hs. destruct (getUpdatesForHost_exact now host rem c) as (c' & ->).
  now rewrite Hs.
Qed.

(** X7: a check that fails on any path (the transaction cannot be
    created or awaited, an error event, a rejected call) still resolves,
    with both counts 0 whatever packages had been received.  Its error
    is the "not available" text when the failure message mentions
    [not-found] or [ServiceUnknown], else the failure message itself if
    it has one, else the generic text. *)
Theorem getUpdatesForHost_reports_failure (now : Date) (host : string)
        (rem : Remote) (c : Client) (err : JsError) :
  Terms.settles gettext rem = Threw err ->
  exists text,
    fst (getUpdatesForHost gettext now host rem c) =
    Returned (mkUpdateInfo 0 0 false (Some text) (Some now)) /\
    (msgIncludes err "not-found" || msgIncludes err "ServiceUnknown" = true ->
     text = gettext "PackageKit not available") /\
    (msgIncludes err "not-found" || msgIncludes err "ServiceUnknown" = false ->
     (Js.truthy (message err) = true -> message err = Some text) /\
     (Js.truthy (message err) = false ->
      text = gettext "Failed to check for updates")).
Proof.
  intros Hs. destruct (getUpdatesForHost_exact now host rem c) as (c' & ->).
  rewrite Hs. eexists. split; [reflexivity |].
  destruct (_ || _); split; try discriminate; try reflexivity.
  intros _. destruct (message err) as [m |]; cbn.
  - destruct (String.eqb m ""); cbn; split; congruence.
  - split; [discriminate | reflexivity].
Qed.

(** *** Installs *)

Section InstallMore.
Variable U : Type.

Lemma report_cons (cb : Z -> string -> U -> U) (r : Z * string)
      (l : list (Z * string)) (u : U) :
  Terms.report cb (r :: l) u = Terms.report cb l (cb (fst r) (snd r) u).
Proof. reflexivity. Qed.

Lemma await_install_some (cb : Z -> string -> U -> U)
      (pid iid fid eid : nat) (evs : list Event) :
  forall (c : Client) (v : InstallVars U),
    iv_promise v = None ->
    isActive pid c = true -> isActive iid c = true ->
    isActive fid c = true -> isActive eid c = true ->
    exists p',
      awaitPromise (@iv_promise U) (@ivSetPromise U)
        (Terms.installTable gettext cockpit_format cb pid iid fid eid) evs
        (c, v) =
      (Spec.streamOutcome evs,
       (c, mkInstallVars p'
             (match Spec.streamOutcome evs with
              | Returned _ => Terms.endsWithReboot evs
              | _ => iv_reboot v
              end)
             (Terms.report cb (Terms.forwarded gettext cockpit_format evs)
                           (iv_caller v)))).
Proof.
  induction evs as [| ev evs IH]; intros c v Hp Hpid Hiid Hfid Heid.
  - exists None. simpl. rewrite Hp. destruct v; simpl in *; subst.
    reflexivity.
  - cbn [awaitPromise snd]. rewrite Hp.
    destruct ev as [[info pk | code | code details | pc | pk pc] | e];
      cbn [step deliver Terms.installTable member String.eqb Ascii.eqb
           Bool.eqb andb fst snd Spec.streamOutcome Terms.forwarded
           Terms.endsWithReboot].
    + apply IH; assumption.
    + rewrite Hfid. unfold onInstallFinished, resolve, settle.
      cbn [fst snd ivSetReboot iv_promise]. rewrite Hp.
      rewrite awaitPromise_settled with (r := None) by reflexivity.
      exists (Some None). reflexivity.
    + rewrite Heid. unfold onInstallError, reject, settle.
      cbn [fst snd]. rewrite Hp.
      rewrite awaitPromise_settled with (r := Some (newError details))
        by reflexivity.
      exists (Some (Some (newError details))).
      destruct v; reflexivity.
    + rewrite Hpid. unfold onPercentage.
      destruct (pc <=? 100); cbn [fst snd app].
      * destruct (IH c (ivCall (cb pc (gettext "Installing updates...")) v)
                     Hp Hpid Hiid Hfid Heid) as (p' & Heq).
        exists p'. rewrite Heq. reflexivity.
      * apply IH; assumption.
    + rewrite Hiid. unfold onItemProgress.
      destruct (pc <=? 100); cbn [fst snd app].
      * destruct (IH c (ivCall (cb pc (cockpit_format
                                         (gettext "Updating $0...")
                                         [Some (Js.splitHead ";" pk)])) v)
                     Hp Hpid Hiid Hfid Heid) as (p' & Heq).
        exists p'. rewrite Heq. reflexivity.
      * apply IH; assumption.
    + unfold reject, settle. cbn [fst snd]. rewrite Hp.
      rewrite awaitPromise_settled with (r := Some e) by reflexivity.
      exists (Some (Some e)). destruct v; reflexivity.
Qed.

Lemma await_install_none (fid eid : nat) (evs : list Event) :
  forall (c : Client) (v : InstallVars U),
    iv_promise v = None ->
    isActive fid c = true -> isActive eid c = true ->
    exists p',
      awaitPromise (@iv_promise U) (@ivSetPromise U)
        [ (fid, "Finished", @onInstallFinished U);
          (eid, "ErrorCode", @onInstallError U) ] evs (c, v) =
      (Spec.streamOutcome evs,
       (c, mkInstallVars p'
             (match Spec.streamOutcome evs with
              | Returned _ => Terms.endsWithReboot evs
              | _ => iv_reboot v
              end)
             (iv_caller v))).
Proof.
  induction evs as [| ev evs IH]; intros c v Hp Hfid Heid.
  - exists None. simpl. rewrite Hp. destruct v; simpl in *; subst.
    reflexivity.
  - cbn [awaitPromise snd]. rewrite Hp.
    destruct ev as [[info pk | code | code details | pc | pk pc] | e];
      cbn [step deliver member String.eqb Ascii.eqb
           Bool.eqb andb fst snd Spec.streamOutcome Terms.endsWithReboot];
      try (apply IH; assumption).
    + rewrite Hfid. unfold onInstallFinished, resolve, settle.
      cbn [fst snd ivSetReboot iv_promise]. rewrite Hp.
      rewrite awaitPromise_settled with (r := None) by reflexivity.
      exists (Some None). reflexivity.
    + rewrite Heid. unfold onInstallError, reject, settle.
      cbn [fst snd]. rewrite Hp.
      rewrite awaitPromise_settled with (r := Some (newError details))
        by reflexivity.
      exists (Some (Some (newError details))).
      destruct v; reflexivity.
    + unfold reject, settle. cbn [fst snd]. rewrite Hp.
      rewrite awaitPromise_settled with (r := Some e) by reflexivity.
      exists (Some (Some e)). destruct v; reflexivity.
Qed.

(** The result of an install and the state of its caller, path by
    path. *)
Lemma installUpdatesOnHost_exact (host : string)
      (onProgress : option (Z -> string -> U -> U)) (securityOnly : bool)
      (rem : Remote) (c : Client) (u : U) :
  exists c',
    installUpdatesOnHost gettext cockpit_format host onProgress securityOnly
                         rem (c, u) =
    (match Terms.settles gettext rem with
     | Returned _ =>
         Returned (mkInstallResult true None
                     (Some (Terms.endsWithReboot (events rem))))
     | Threw err =>
         Returned (mkInstallResult false
                     (Some (Terms.installErrorText gettext err)) None)
     | Pending => Pending
     end,
     (c',
      match onProgress with
      | Some cb =>
          if Terms.opens rem
          then Terms.report cb
                 (Terms.forwarded gettext cockpit_format (events rem)) u
          else u
      | None => u
      end)).
Proof.
  unfold installUpdatesOnHost, Async.tryCatch, installTry.
  unfold Async.bind at 1.
  destruct (@openTransaction_cases gettext (InstallVars U) host rem
              (fst (c, u), mkInstallVars None false (snd (c, u))))
    as (c1 & Heq & Hn & Ha).
  rewrite Heq. clear Heq. unfold Terms.settles, Terms.opens.
  destruct (createTransaction rem) as [path | e |].
  - destruct (Js.truthy path).
    + destruct (proxyWait rem) as [[] | e |].
      * destruct onProgress as [cb |];
          unfold subscribeProgress, Async.bind, onClient, call,
            Async.modify, Async.ret, Async.gets;
          cbn [fst snd subscribe record nextId active calls app andb].
        -- match goal with
           | |- context [awaitPromise _ _
                           [(?a, _, _); (?b, _, _); (?d, _, _); (?f, _, _)]
                           ?evs (?c3, ?v)] =>
               assert (Ha1 : isActive a c3 = true) by active_here;
               assert (Ha2 : isActive b c3 = true) by active_here;
               assert (Ha3 : isActive d c3 = true) by active_here;
               assert (Ha4 : isActive f c3 = true) by active_here;
               destruct (@await_install_some cb a b d f evs c3 v eq_refl
                           Ha1 Ha2 Ha3 Ha4) as (p' & Heq);
               unfold Terms.installTable in Heq; rewrite Heq; clear Heq
           end.
           destruct (Spec.streamOutcome (events rem)) as [[] | e |];
             eexists; reflexivity.
        -- match goal with
           | |- context [awaitPromise _ _ [(?d, _, _); (?f, _, _)]
                           ?evs (?c3, ?v)] =>
               assert (Ha3 : isActive d c3 = true) by active_here;
               assert (Ha4 : isActive f c3 = true) by active_here;
               destruct (@await_install_none d f evs c3 v eq_refl Ha3 Ha4)
                 as (p' & Heq);
               rewrite Heq; clear Heq
           end.
           destruct (Spec.streamOutcome (events rem)) as [[] | e |];
             eexists; reflexivity.
      * destruct onProgress; eexists; reflexivity.
      * destruct onProgress; eexists; reflexivity.
    + destruct onProgress; eexists; reflexivity.
  - destruct onProgress; eexists; reflexivity.
  - destruct onProgress; eexists; reflexivity.
Qed.

(** X8: an install never rejects.  It resolves with success, no error
    and [rebootRequired] equal to whether the exit code of the finished
    event is 1 when the transaction finishes; it resolves with failure,
    the message of the failing step (the generic text if it has none)
    and no [rebootRequired] when any step fails; it stays pending only
    when the transaction never settles. *)
Theorem installUpdatesOnHost_result (host : string)
        (onProgress : option (Z -> string -> U -> U)) (securityOnly : bool)
        (rem : Remote) (c : Client) (u : U) :
  fst (installUpdatesOnHost gettext cockpit_format host onProgress
                            securityOnly rem (c, u)) =
  match Terms.settles gettext rem with
  | Returned _ =>
      Returned (mkInstallResult true None
                  (Some (Terms.endsWithReboot (events rem))))
  | Threw err =>
      Returned (mkInstallResult false
                  (Some (if Js.truthy (message err)
                         then Registry.override (message err) ""
                         else gettext "Failed to install updates"))
                  None)
  | Pending => Pending
  end.
Proof.
  destruct (installUpdatesOnHost_exact host onProgress securityOnly rem c u)
    as (c' & ->).
  reflexivity.
Qed.

(** X9: by the time an install settles, its progress callback has been
    called once for every [Percentage] and [ItemProgress] signal of at
    most 100 that arrived after the transaction was opened, in order of
    arrival, with the texts "Installing updates..." and
    "Updating <name>..."; signals above 100 and [Package] signals are
    not reported, and the callback is not called at all when the
    transaction cannot be created or made ready. *)
Theorem installUpdatesOnHost_progress_reports (host : string)
        (cb : Z -> string -> U -> U) (securityOnly : bool)
        (rem : Remote) (c : Client) (u : U) :
  snd (snd (installUpdatesOnHost gettext cockpit_format host (Some cb)
                                 securityOnly rem (c, u))) =
  if Terms.opens rem
  then Terms.report cb
         (Terms.forwarded gettext cockpit_format (events rem)) u
  else u.
Proof.
  destruct (installUpdatesOnHost_exact host (Some cb) securityOnly rem c u)
    as (c' & ->).
  reflexivity.
Qed.

End InstallMore.

(** *** Cache refresh *)

Lemma await_refresh (fid eid : nat) (evs : list Event) :
  forall (c : Client),
    isActive fid c = true -> isActive eid c = true ->
    exists p',
      awaitPromise (fun p : Promise => p) (fun p _ => p)
        [ (fid, "Finished", onRefreshFinished);
          (eid, "ErrorCode", onRefreshError) ] evs (c, None) =
      (Spec.streamOutcome evs, (c, p')).
Proof.
  induction evs as [| ev evs IH]; intros c Hfid Heid.
  - exists None. reflexivity.
  - cbn [awaitPromise snd].
    destruct ev as [[info pk | code | code details | pc | pk pc] | e];
      cbn [step deliver member String.eqb Ascii.eqb
           Bool.eqb andb fst snd Spec.streamOutcome];
      try (apply IH; assumption).
    + rewrite Hfid. unfold onRefreshFinished, resolve, settle.
      cbn [fst snd].
      rewrite awaitPromise_settled with (r := None) by reflexivity.
      exists (Some None). reflexivity.
    + rewrite Heid. unfold onRefreshError, reject, settle.
      cbn [fst snd].
      rewrite awaitPromise_settled with (r := Some (newError details))
        by reflexivity.
      exists (Some (Some (newError details))). reflexivity.
    + unfold reject, settle. cbn [fst snd].
      rewrite awaitPromise_settled with (r := Some e) by reflexivity.
      exists (Some (Some e)). reflexivity.
Qed.

(** The outcome of a cache refresh, path by path. *)
Lemma refreshPackageCache_exact (host : string) (rem : Remote)
      (c : Client) :
  exists c',
    refreshPackageCache gettext host rem c = (Terms.settles gettext rem, c').
Proof.
  unfold refreshPackageCache.
  unfold Async.bind at 1.
  destruct (@openTransaction_cases gettext Promise host rem (c, None))
    as (c1 & Heq & Hn & Ha).
  rewrite Heq. clear Heq. unfold Terms.settles.
  destruct (createTransaction rem) as [path | e |].
  - destruct (Js.truthy path).
    + destruct (proxyWait rem) as [[] | e |]; try (eexists; reflexivity).
      unfold Async.bind, onClient, call, Async.modify.
      cbn [fst snd subscribe record nextId active calls].
      match goal with
      | |- context [@awaitPromise ?L ?g ?s ?tbl ?evs ?w] =>
          match tbl with
          | [(?d, _, _); (?f, _, _)] =>
              assert (Ha3 : isActive d (fst w) = true) by active_here;
              assert (Ha4 : isActive f (fst w) = true) by active_here;
              destruct (@await_refresh d f evs (fst w) Ha3 Ha4)
                as (p' & Heq);
              assert (Heq' : @awaitPromise L g s tbl evs w =
                             (Spec.streamOutcome evs, (fst w, p')))
                by exact Heq;
              rewrite Heq'; clear Heq Heq'
          end
      end.
      destruct (Spec.streamOutcome (events rem)) as [[] | e |];
        eexists; reflexivity.
    + eexists; reflexivity.
  - eexists; reflexivity.
  - eexists; reflexivity.
Qed.

(** X10: unlike a check or an install, a cache refresh passes failures
    on: it resolves when the transaction finishes, whatever the exit
    code, rejects with the error of the step that failed (creating the
    transaction, an empty transaction path, waiting for it, an error
    event, a rejected call), and stays pending otherwise. *)
Theorem refreshPackageCache_outcome (host : string) (rem : Remote)
        (c : Client) :
  fst (refreshPackageCache gettext host rem c) =
  match createTransaction rem with
  | Rejects e => Threw e
  | Never => Pending
  | Resolves path =>
      if Js.truthy path then
        match proxyWait rem with
        | Rejects e => Threw e
        | Never => Pending
        | Resolves _ => Spec.streamOutcome (events rem)
        end
      else Threw (newError
                    (gettext "Failed to create PackageKit transaction"))
  end.
Proof.
  destruct (refreshPackageCache_exact host rem c) as (c' & ->).
  reflexivity.
Qed.

End TransactionsMore.
(** ** More on the connection prober *)

Section ProberMore.
Import Prober.

Lemma run_closed_in_time (ch : Channel) (t : Z) (problem : option string)
      (calls : list Call) :
  closeEvent ch = Some (t, problem) -> t < TIMEOUT ->
  run ch (mkProbe None true calls) =
  mkProbe (Some (if Js.truthy problem then "failed" else "connected"))
          false calls.
Proof.
  intros Hc Ht. unfold run. rewrite Hc.
  apply Z.ltb_lt in Ht. rewrite Ht.
  unfold onClose. destruct (Js.truthy problem); reflexivity.
Qed.

Lemma run_timed_out (ch : Channel) (calls : list Call) :
  Spec.silentUntilTimeout ch ->
  resolved (run ch (mkProbe None true calls)) =
  Some (match closeNotifies ch with
        | Some problem =>
            if Js.truthy problem then "failed" else "connected"
        | None => "failed"
        end) /\
  channelCalls (run ch (mkProbe None true calls)) =
  (calls ++ [CloseChannel])%list.
Proof.
  intros Hs. unfold run, Spec.silentUntilTimeout in *.
  destruct (closeEvent ch) as [[t problem] |].
  - apply Z.ltb_ge in Hs. rewrite Hs. cbn [timerArmed].
    unfold onTimeout, channelClose, onClose.
    destruct (closeNotifies ch) as [pr |];
      [destruct (Js.truthy pr) |]; destruct (Js.truthy problem);
      split; reflexivity.
  - cbn [timerArmed]. unfold onTimeout, channelClose, onClose.
    destruct (closeNotifies ch) as [pr |];
      [destruct (Js.truthy pr) |]; split; reflexivity.
Qed.

(** X11: when the channel to a remote host closes before the deadline,
    the probe answers by the close alone, connected for a close without
    a problem and failed otherwise, and it never calls [close] on the
    channel itself. *)
Theorem probe_answers_by_close_in_time (host : string) (ch : Channel)
        (t : Z) (problem : option string) :
  host <> "localhost" -> openThrows ch = false ->
  closeEvent ch = Some (t, problem) -> t < TIMEOUT ->
  checkMachineConnection host ch =
  (Returned (if Js.truthy problem then "failed" else "connected"),
   [OpenChannel host]).
Proof.
  intros Hh Ho Hc Ht. unfold checkMachineConnection.
  apply String.eqb_neq in Hh. rewrite Hh, Ho.
  now rewrite (run_closed_in_time ch [OpenChannel host] Hc Ht).
Qed.

(** X12: a remote host is reported connected only after a close
    without a problem: one that arrives before the deadline, or one the
    channel reports while the probe closes it at the deadline.  A
    channel that cannot be opened, or a close that arrives after the
    deadline, never gives connected. *)
Theorem probe_connected_only_after_clean_close (host : string)
        (ch : Channel) :
  fst (checkMachineConnection host ch) = Returned "connected" ->
  host = "localhost" \/
  (openThrows ch = false /\
   ((exists t problem, closeEvent ch = Some (t, problem) /\ t < TIMEOUT /\
                       Js.truthy problem = false) \/
    (Spec.silentUntilTimeout ch /\
     exists problem, closeNotifies ch = Some problem /\
                     Js.truthy problem = false))).
Proof.
  unfold checkMachineConnection.
  destruct (String.eqb host "localhost") eqn:Hh;
    [apply String.eqb_eq in Hh; now left |].
  destruct (openThrows ch); [discriminate |].
  intros H. right. split; [reflexivity |].
  destruct (closeEvent ch) as [[t problem] |] eqn:Hc.
  - destruct (Z.ltb_spec t TIMEOUT) as [Ht | Ht].
    + left. exists t, problem. split; [reflexivity |]. split; [exact Ht |].
      rewrite (run_closed_in_time ch [OpenChannel host] Hc Ht) in H.
      cbn [resolved fst] in H.
      destruct (Js.truthy problem); [discriminate | reflexivity].
    + right.
      assert (Hs : Spec.silentUntilTimeout ch)
        by (unfold Spec.silentUntilTimeout; now rewrite Hc).
      split; [exact Hs |].
      destruct (run_timed_out ch [OpenChannel host] Hs) as [Hr _].
      rewrite Hr in H. cbn [fst] in H.
      destruct (closeNotifies ch) as [pr |]; [| discriminate].
      exists pr. split; [reflexivity |].
      destruct (Js.truthy pr); [discriminate | reflexivity].
  - right.
    assert (Hs : Spec.silentUntilTimeout ch)
      by (unfold Spec.silentUntilTimeout; now rewrite Hc).
    split; [exact Hs |].
    destruct (run_timed_out ch [OpenChannel host] Hs) as [Hr _].
    rewrite Hr in H. cbn [fst] in H.
    destruct (closeNotifies ch) as [pr |]; [| discriminate].
    exists pr. split; [reflexivity |].
    destruct (Js.truthy pr); [discriminate | reflexivity].
Qed.

End ProberMore.

(** ** Watching the registry *)

Section WatcherFacts.
Import Watcher.
Variable SESSION_KEY : string.
Variable JSON_parse : string -> option MachinesData.
Variable localeCompare : string -> string -> Z.
Variable U : Type.
Variable callback : list Machine -> U -> U.

Local Abbreviation getMachinesList :=
  (Registry.getMachinesList SESSION_KEY JSON_parse localeCompare).
Local Abbreviation getItem := (Watcher.getItem SESSION_KEY).
Local Abbreviation notify :=
  (Watcher.notify SESSION_KEY JSON_parse localeCompare callback).
Local Abbreviation poll :=
  (Watcher.poll SESSION_KEY JSON_parse localeCompare callback).
Local Abbreviation step :=
  (Watcher.step SESSION_KEY JSON_parse localeCompare callback).
Local Abbreviation run :=
  (Watcher.run SESSION_KEY JSON_parse localeCompare callback).
Local Abbreviation subscribeMachines :=
  (Watcher.subscribeMachines SESSION_KEY JSON_parse localeCompare callback).
Local Abbreviation write := (@Watcher.write SESSION_KEY U).

Lemma sameData_eq (a c : option string) :
  sameData a c = true <-> a = c.
Proof.
  destruct a as [x |], c as [y |]; cbn; split; try congruence.
  - intros H. apply String.eqb_eq in H. now subst.
  - intros [= ->]. apply String.eqb_refl.
Qed.

Lemma sameData_refl (a : option string) : sameData a a = true.
Proof. now apply sameData_eq. Qed.

Lemma prop_setItem (k v : string) (items : list (string * string)) :
  Js.prop (setItem k v items) k = Some v.
Proof.
  induction items as [| [k' v'] rest IH]; cbn.
  - now rewrite String.eqb_refl.
  - destruct (String.eqb k' k) eqn:E; cbn.
    + now rewrite String.eqb_refl.
    + now rewrite E.
Qed.

Lemma prop_removeItem (k : string) (items : list (string * string)) :
  Js.prop (removeItem k items) k = None.
Proof.
  induction items as [| [k' v'] rest IH]; cbn; [reflexivity |].
  destruct (String.eqb k' k) eqn:E; cbn; [exact IH |].
  now rewrite E.
Qed.

Lemma getItem_write (value : option string) (w : World U) :
  getItem (browser (write value w)) = value.
Proof.
  unfold Watcher.write, Watcher.getItem. cbn [browser sessionStorage].
  destruct value as [v |]; [apply prop_setItem | apply prop_removeItem].
Qed.

Lemma getItem_notify (w : World U) :
  getItem (browser (notify w)) = getItem (browser w).
Proof.
  unfold Watcher.notify, Watcher.getItem.
  pose proof (@getMachinesList_browser SESSION_KEY JSON_parse localeCompare
                (browser w)) as [Hs _].
  destruct (getMachinesList (browser w)) as [roster b'].
  cbn [browser snd] in *. now rewrite Hs.
Qed.

Lemma handle_notify (w : World U) : handle (notify w) = handle w.
Proof.
  unfold Watcher.notify.
  now destruct (getMachinesList (browser w)).
Qed.

Lemma caller_notify (w : World U) :
  caller (notify w) =
  callback (fst (getMachinesList (browser w))) (caller w).
Proof.
  unfold Watcher.notify.
  now destruct (getMachinesList (browser w)).
Qed.

(** After a poll of an active subscription the remembered text is the
    stored one, and a second poll changes nothing. *)
Lemma poll_in_sync (w : World U) :
  isActive (handle w) = true ->
  lastData (handle (poll w)) = getItem (browser (poll w)).
Proof.
  intros Ha. unfold Watcher.poll. rewrite Ha. cbn [negb].
  destruct (sameData (getItem (browser w)) (lastData (handle w))) eqn:E;
    cbn [negb].
  - apply sameData_eq in E. now rewrite <- E.
  - now rewrite getItem_notify, handle_notify.
Qed.

Lemma poll_quiet (w : World U) :
  lastData (handle w) = getItem (browser w) -> poll w = w.
Proof.
  intros Hs. unfold Watcher.poll.
  destruct (isActive (handle w)); [| reflexivity]. cbn [negb].
  now rewrite <- Hs, sameData_refl.
Qed.

Lemma last_cons (A : Type) (l : list A) :
  forall v d : A, last (v :: l) d = last l v.
Proof.
  induction l as [| a l IH]; intros v d; [reflexivity |].
  change (last (v :: a :: l) d) with (last (a :: l) d).
  now rewrite (IH a d), (IH a v).
Qed.

Lemma run_writes (values : list (option string)) :
  forall w : World U,
    handle (run (map Write values) w) = handle w /\
    caller (run (map Write values) w) = caller w /\
    getItem (browser (run (map Write values) w)) =
    last values (getItem (browser w)).
Proof.
  unfold Watcher.run.
  induction values as [| v values IH]; intros w; [now cbn |].
  cbn [map fold_left Watcher.step].
  destruct (IH (write v w)) as (Hh & Hc & Hg).
  rewrite Hh, Hc, Hg, getItem_write, last_cons.
  repeat split.
Qed.

Lemma run_app (evs evs' : list Event) (w : World U) :
  run (evs ++ evs') w = run evs' (run evs w).
Proof. apply fold_left_app. Qed.

Lemma run_ticks_quiet (n : nat) (w : World U) :
  lastData (handle w) = getItem (browser w) ->
  run (repeat Tick n) w = w.
Proof.
  intros Hs. unfold Watcher.run.
  induction n as [| n IH]; [reflexivity |].
  cbn [repeat fold_left Watcher.step].
  destruct (polling (handle w)); [rewrite (poll_quiet w Hs) |]; exact IH.
Qed.

(** X13: subscribing calls back once, at once, with the current
    roster; as long as the registry item is not rewritten, no later
    poll calls back again. *)
Theorem subscription_calls_back_once (b : Browser) (u : U) (n : nat) :
  caller (subscribeMachines b u) = callback (fst (getMachinesList b)) u /\
  run (repeat Tick n) (subscribeMachines b u) = subscribeMachines b u.
Proof.
  unfold Watcher.subscribeMachines.
  split; [now rewrite caller_notify |].
  apply run_ticks_quiet. now rewrite getItem_notify, handle_notify.
Qed.

(** X14: polling compares texts.  When the registry item of a
    subscribed tab is rewritten any number of times between two polls,
    the next poll calls back once with the roster of the final text if
    that text differs from the one last seen, and not at all if it is
    the same; the polls after it are silent. *)
Theorem poll_reports_rewrites_once (w : World U)
        (values : list (option string)) (n : nat) :
  isActive (handle w) = true -> polling (handle w) = true ->
  lastData (handle w) = getItem (browser w) ->
  let written := run (map Write values) w in
  let polled := run (map Write values ++ [Tick]) w in
  caller polled =
  (if sameData (last values (lastData (handle w))) (lastData (handle w))
   then caller w
   else callback (fst (getMachinesList (browser written))) (caller w)) /\
  run (repeat Tick n) polled = polled.
Proof.
  intros Ha Hp Hs written polled.
  destruct (run_writes values w) as (Hh & Hc & Hg).
  fold written in Hh, Hc, Hg.
  assert (Hpolled : polled = poll written).
  { unfold polled. rewrite run_app. fold written.
    unfold Watcher.run at 1. cbn [fold_left Watcher.step].
    now rewrite Hh, Hp. }
  assert (Hact : isActive (handle written) = true) by now rewrite Hh.
  split.
  - rewrite Hpolled. unfold Watcher.poll. rewrite Hact. cbn [negb].
    rewrite Hg, Hh, <- Hs.
    destruct (sameData _ _); cbn [negb];
      [exact Hc |].
    rewrite caller_notify. unfold Watcher.setLastData.
    cbn [browser caller]. now rewrite Hc.
  - apply run_ticks_quiet. rewrite Hpolled.
    apply (poll_in_sync written Hact).
Qed.

(** X15: after unsubscribing, no storage event, poll or rewrite of the
    registry item reaches the callback any more. *)
Theorem unsubscribed_is_silent (w : World U) (events : list Event) :
  caller (run events (Watcher.unsubscribe w)) = caller w /\
  handle (run events (Watcher.unsubscribe w)) =
  handle (Watcher.unsubscribe w).
Proof.
  assert (H : forall w', listening (handle w') = false ->
                         polling (handle w') = false ->
                         isActive (handle w') = false ->
                         caller (run events w') = caller w' /\
                         handle (run events w') = handle w').
  { unfold Watcher.run.
    induction events as [| e events IH]; intros w' Hl Hp Ha; [now split |].
    cbn [fold_left].
    destruct e as [ev | | value |]; cbn [Watcher.step];
      rewrite ?Hl, ?Hp; try (now apply IH).
    - destruct (IH (write value w') Hl Hp Ha) as [-> ->]. now split.
    - destruct (IH (Watcher.unsubscribe w') eq_refl eq_refl eq_refl)
        as [-> ->].
      split; [reflexivity |]. unfold Watcher.unsubscribe. cbn [handle].
      destruct (handle w'); cbn in *; now subst. }
  apply (H (Watcher.unsubscribe w)); reflexivity.
Qed.

End WatcherFacts.
(** ** More on the dashboard: refreshing one machine *)

Section RefreshMore.
Import Dashboard.
Variable gettext : string -> string.
Variable cockpit_format : string -> list (option string) -> string.
Variable env : Env.

Local Abbreviation refreshMachine :=
  (Dashboard.refreshMachine gettext cockpit_format env).

Lemma callRefreshPackageCache_run (host : string) (q : Page) :
  callRefreshPackageCache gettext env host q =
  match Terms.settles gettext (refreshRemote env host (S (now q))) with
  | Pending => (Pending, log (Called RefreshPackageCache host) q)
  | r => (r, log (Settled RefreshPackageCache host)
                 (log (Called RefreshPackageCache host) q))
  end.
Proof.
  unfold callRefreshPackageCache, api. cbn [log now].
  destruct (@refreshPackageCache_exact gettext host
              (refreshRemote env host (S (now q))) DBus.newClient)
    as (c' & ->).
  cbn [fst].
  destruct (Terms.settles _ _) as [[] | e |]; reflexivity.
Qed.

Lemma callGetUpdates_run (host : string) (q : Page) :
  callGetUpdates gettext env host q =
  match Terms.checkOutcome gettext (S (now q))
                           (checkRemote env host (S (now q))) with
  | Pending => (Pending, log (Called GetUpdates host) q)
  | r => (r, log (Settled GetUpdates host) (log (Called GetUpdates host) q))
  end.
Proof.
  unfold callGetUpdates, api. cbn [log now].
  destruct (@getUpdatesForHost_exact gettext (S (now q)) host
              (checkRemote env host (S (now q))) DBus.newClient)
    as (c' & ->).
  cbn [fst]. fold (Terms.checkOutcome gettext (S (now q))
                     (checkRemote env host (S (now q)))).
  destruct (Terms.checkOutcome _ _ _) as [u | e |]; reflexivity.
Qed.

Lemma checkOutcome_never_throws (n : Date) (rem : DBus.Remote)
      (e : JsError) :
  Terms.checkOutcome gettext n rem <> Threw e.
Proof.
  unfold Terms.checkOutcome.
  destruct (Terms.settles gettext rem); discriminate.
Qed.

Lemma checkOutcome_loading (n : Date) (rem : DBus.Remote) (u : UpdateInfo) :
  Terms.checkOutcome gettext n rem = Returned u -> loading u = false.
Proof.
  unfold Terms.checkOutcome.
  destruct (Terms.settles gettext rem); intros [= <-]; reflexivity.
Qed.

(** [refreshUpdates], path by path. *)
Lemma refreshUpdates_run (host : string) (q : Page) :
  refreshUpdates gettext env host q =
  let q1 := log (Called RefreshPackageCache host) q in
  let q2 := log (Settled RefreshPackageCache host) q1 in
  let q3 := log (Called GetUpdates host) q2 in
  let q4 := log (Settled GetUpdates host) q3 in
  match Terms.settles gettext (refreshRemote env host (S (now q))) with
  | Pending => (Pending, q1)
  | Threw e => (Threw e, q2)
  | Returned _ =>
      match Terms.checkOutcome gettext (S (S (S (now q))))
              (checkRemote env host (S (S (S (now q))))) with
      | Pending => (Pending, q3)
      | Threw e => (Threw e, q4)
      | Returned u =>
          (Returned tt,
           setMachine host
             (fun m => withUpdates u (withState (Some "connected") m)) q4)
      end
  end.
Proof.
  unfold refreshUpdates. unfold Async.bind at 1.
  rewrite callRefreshPackageCache_run.
  destruct (Terms.settles _ _) as [[] | e |]; try reflexivity.
  unfold Async.bind. rewrite callGetUpdates_run. cbn [log now].
  destruct (Terms.checkOutcome _ _ _) as [u | e |]; reflexivity.
Qed.

Lemma refreshMachine_shape (snapshot : list MachineWithUpdates)
      (host : string) (p : Page) :
  refreshMachine snapshot host p =
  Async.tryCatch
    (match find (keyIs host) snapshot with
     | Some found =>
         if negb (stateIs "connected" found) then reconnect gettext env host
         else refreshUpdates gettext env host
     | None => refreshUpdates gettext env host
     end)
    (refreshFailed gettext cockpit_format host)
    (setMachine host markRefreshing p).
Proof. reflexivity. Qed.

Lemma refreshMachine_connected (snapshot : list MachineWithUpdates)
      (host : string) (p : Page) :
  Spec.connectedIn snapshot host ->
  refreshMachine snapshot host p =
  Async.tryCatch (refreshUpdates gettext env host)
                 (refreshFailed gettext cockpit_format host)
                 (setMachine host markRefreshing p).
Proof.
  intros Hc. rewrite refreshMachine_shape. unfold Spec.connectedIn in Hc.
  destruct (find (keyIs host) snapshot) as [found |]; [| reflexivity].
  now rewrite Hc.
Qed.

Lemma refreshMachine_never_throws (snapshot : list MachineWithUpdates)
      (host : string) (p : Page) (e : JsError) :
  fst (refreshMachine snapshot host p) <> Threw e.
Proof.
  rewrite refreshMachine_shape. unfold Async.tryCatch.
  generalize (setMachine host markRefreshing p).
  generalize (match find (keyIs host) snapshot with
              | Some found =>
                  if negb (stateIs "connected" found)
                  then reconnect gettext env host
                  else refreshUpdates gettext env host
              | None => refreshUpdates gettext env host
              end).
  intros body q0. destruct (body q0) as [[[] | e' |] q]; discriminate.
Qed.

(** X16: refreshing a machine never starts an install and never
    changes the key, the [updating] flag or the install progress of any
    entry, the selection or the bulk flag, however its calls end. *)
Theorem refreshMachine_leaves_installs_alone
        (snapshot : list MachineWithUpdates) (host : string) (p : Page) :
  let p' := snd (refreshMachine snapshot host p) in
  Spec.installs (trace p') = Spec.installs (trace p) /\
  Spec.framed [] p p' /\
  selectedMachines (dash p') = selectedMachines (dash p) /\
  bulkUpdating (dash p') = bulkUpdating (dash p).
Proof.
  cbv zeta. split; [| split; [| split]].
  - now apply (@refreshMachine_stable gettext cockpit_format env host _
                 (stable_installs host (Spec.installs (trace p)))).
  - apply (@refreshMachine_stable gettext cockpit_format env host _
             (stable_framed host [] p)), framed_refl.
  - apply (@refreshMachine_stable gettext cockpit_format env host
             (fun q => selectedMachines (dash q) = selectedMachines (dash p)));
      [split; intros; assumption | reflexivity].
  - apply (@refreshMachine_stable gettext cockpit_format env host
             (fun q => bulkUpdating (dash q) = bulkUpdating (dash p)));
      [split; intros; assumption | reflexivity].
Qed.

(** X17: a refresh of a machine that the closed-over roster holds as
    not connected probes the connection and nothing else: it makes no
    cache refresh and no update check, whatever the probe answers, and
    leaves every entry of the machine without a state and with the
    error "Machine not connected". *)
Theorem refreshMachine_of_disconnected_never_checks
        (snapshot : list MachineWithUpdates) (host : string)
        (found : MachineWithUpdates) (p : Page) :
  find (keyIs host) snapshot = Some found ->
  stateIs "connected" found = false ->
  let p' := snd (refreshMachine snapshot host p) in
  fst (refreshMachine snapshot host p) = Returned tt /\
  trace p' =
  (trace p ++ [Called CheckConnection host; Settled CheckConnection host])%list
  /\
  (forall m, In m (machines (dash p')) -> Spec.keyOf m = host ->
             state (machine m) = None /\
             error (updates m) = Some (gettext "Machine not connected")).
Proof.
  intros Hf Hs. cbv zeta. rewrite refreshMachine_shape, Hf, Hs.
  cbn [negb]. unfold Async.tryCatch.
  destruct (@reconnect_never_refreshes gettext env host
              (setMachine host markRefreshing p)) as (Ho & Ht & Hm).
  destruct (reconnect gettext env host (setMachine host markRefreshing p))
    as [o q]. cbn [fst snd] in *. subst o. cbn [fst snd].
  repeat split; try (apply Hm; assumption). exact Ht.
Qed.

(** *** Refreshing while the auto-refresh effect watches the page *)

Lemma filter_empty (A : Type) (f : A -> bool) (l : list A) :
  filter f l = [] <-> forall x, In x l -> f x = false.
Proof.
  induction l as [| y l IH]; cbn [filter]; [split; [intros _ x [] | auto] |].
  destruct (f y) eqn:E; split.
  - discriminate.
  - intros H. specialize (H y (or_introl eq_refl)). congruence.
  - intros H x [<- | Hx]; [exact E | now apply IH].
  - intros H. apply IH. intros x Hx. apply H. now right.
Qed.

(** A state update of an entry that is being updated does not make the
    auto-refresh effect start a check. *)
Lemma idle_setMachine (host : string)
      (f : MachineWithUpdates -> MachineWithUpdates) (q : Page) :
  (forall m, updating (f m) = updating m) ->
  Spec.allUpdating host q ->
  machinesNeedingRefresh (machines (dash q)) = [] ->
  machinesNeedingRefresh (machines (dash (setMachine host f q))) = [].
Proof.
  intros Hf Hu Hq. unfold machinesNeedingRefresh in *.
  rewrite filter_empty in Hq. apply filter_empty.
  cbn [setMachine dash machines]. intros m' Hin.
  apply in_map_iff in Hin. destruct Hin as (m & <- & Hin).
  destruct (keyIs host m) eqn:E; [| now apply Hq].
  unfold notUpdating. rewrite Hf, (Hu m Hin).
  - apply andb_false_r.
  - unfold keyIs in E. now apply String.eqb_eq in E.
Qed.

Lemma idle_machines (q q' : Page) :
  machines (dash q') = machines (dash q) ->
  machinesNeedingRefresh (machines (dash q)) = [] ->
  machinesNeedingRefresh (machines (dash q')) = [].
Proof. now intros ->. Qed.

Lemma refreshMachine_failure_run (snapshot : list MachineWithUpdates)
      (host : string) (p : Page) (err : JsError) :
  Spec.connectedIn snapshot host ->
  fst (Transactions.refreshPackageCache gettext host
         (refreshRemote env host (S (now p))) DBus.newClient) = Threw err ->
  refreshMachine snapshot host p =
  (Returned tt,
   snd (addAlert Danger
          (cockpit_format (gettext "Failed to check updates on $0: $1")
                          [Some host; message err])
          (setMachine host
             (fun m =>
                withUpdates
                  (mkUpdateInfo (total (updates m)) (security (updates m))
                                false (message err)
                                (lastChecked (updates m))) m)
             (log (Settled RefreshPackageCache host)
                (log (Called RefreshPackageCache host)
                   (setMachine host markRefreshing p)))))).
Proof.
  intros Hc Hs.
  destruct (@refreshPackageCache_exact gettext host
              (refreshRemote env host (S (now p))) DBus.newClient)
    as (c' & Hr).
  rewrite Hr in Hs. cbn [fst] in Hs. clear Hr.
  rewrite (@refreshMachine_connected snapshot host p Hc).
  unfold Async.tryCatch. rewrite refreshUpdates_run. cbv zeta.
  change (now (setMachine host markRefreshing p)) with (now p).
  rewrite Hs. reflexivity.
Qed.

Lemma refreshMachine_success_run (snapshot : list MachineWithUpdates)
      (host : string) (p : Page) (u : UpdateInfo) :
  Spec.connectedIn snapshot host ->
  fst (Transactions.refreshPackageCache gettext host
         (refreshRemote env host (S (now p))) DBus.newClient)
    = Returned tt ->
  fst (Transactions.getUpdatesForHost gettext (S (S (S (now p)))) host
         (checkRemote env host (S (S (S (now p))))) DBus.newClient)
    = Returned u ->
  refreshMachine snapshot host p =
  (Returned tt,
   setMachine host
     (fun m => withUpdates u (withState (Some "connected") m))
     (log (Settled GetUpdates host)
        (log (Called GetUpdates host)
           (log (Settled RefreshPackageCache host)
              (log (Called RefreshPackageCache host)
                 (setMachine host markRefreshing p)))))).
Proof.
  intros Hc Hs Hu.
  destruct (@refreshPackageCache_exact gettext host
              (refreshRemote env host (S (now p))) DBus.newClient)
    as (c' & Hr).
  rewrite Hr in Hs. cbn [fst] in Hs. clear Hr c'.
  destruct (@getUpdatesForHost_exact gettext (S (S (S (now p)))) host
              (checkRemote env host (S (S (S (now p))))) DBus.newClient)
    as (c' & Hr).
  rewrite Hr in Hu. cbn [fst] in Hu. clear Hr c'.
  fold (Terms.checkOutcome gettext (S (S (S (now p))))
          (checkRemote env host (S (S (S (now p)))))) in Hu.
  rewrite (@refreshMachine_connected snapshot host p Hc).
  unfold Async.tryCatch. rewrite refreshUpdates_run. cbv zeta.
  change (now (setMachine host markRefreshing p)) with (now p).
  rewrite Hs, Hu. reflexivity.
Qed.

(** X18: the refresh of a machine that is being updated, as
    [updateMachine] makes it after a successful install, on a page
    where no machine awaits an automatic check.  After each of the two
    state updates of the run the filter of the auto-refresh effect is
    still empty, so the effect starts no check of its own.  When the
    cache refresh rejects, the refresh stops there: no update check is
    made, every entry of the machine keeps its counts and its time of
    last check and gets [loading] false and the failure message as
    error, and one danger alert is added. *)
Theorem refreshMachine_cache_failure
        (snapshot : list MachineWithUpdates) (host : string) (p : Page)
        (err : JsError) :
  Spec.connectedIn snapshot host ->
  Spec.allUpdating host p ->
  machinesNeedingRefresh (machines (dash p)) = [] ->
  fst (Transactions.refreshPackageCache gettext host
         (refreshRemote env host (S (now p))) DBus.newClient) = Threw err ->
  let p' := snd (refreshMachine snapshot host p) in
  (machinesNeedingRefresh
     (machines (dash (setMachine host markRefreshing p))) = [] /\
   machinesNeedingRefresh (machines (dash p')) = []) /\
  fst (refreshMachine snapshot host p) = Returned tt /\
  trace p' =
  (trace p ++ [Called RefreshPackageCache host;
               Settled RefreshPackageCache host])%list /\
  machines (dash p') =
  map (fun m =>
         if keyIs host m
         then withUpdates
                (mkUpdateInfo (total (updates m)) (security (updates m))
                              false (message err) (lastChecked (updates m)))
                (withState (if stateIs "connected" m then Some "connected"
                            else Some "connecting") m)
         else m)
      (machines (dash p)) /\
  alerts (dash p') =
  (alerts (dash p)
   ++ [mkAlert (S (S (now p))) Danger
         (cockpit_format (gettext "Failed to check updates on $0: $1")
                         [Some host; message err])])%list.
Proof.
  intros Hc Hu Hq Hs. cbv zeta.
  rewrite (@refreshMachine_failure_run snapshot host p err Hc Hs).
  assert (H0 : machinesNeedingRefresh
                 (machines (dash (setMachine host markRefreshing p))) = [])
    by (apply idle_setMachine; auto).
  assert (Hu0 : Spec.allUpdating host (setMachine host markRefreshing p))
    by (apply allUpdating_setMachine; [intros m; split; reflexivity | exact Hu]).
  unfold addAlert, Async.modify. cbn [fst snd].
  split; [split; [exact H0 |] |].
  - cbn [dash machines].
    apply (@idle_setMachine host _
             (log (Settled RefreshPackageCache host)
                (log (Called RefreshPackageCache host)
                   (setMachine host markRefreshing p))));
      [reflexivity | exact Hu0 | exact H0].
  - split; [reflexivity |]. split; [| split].
    + cbn [setMachine log trace]. now rewrite <- app_assoc.
    + cbn [dash machines setMachine log]. rewrite map_map.
      apply map_ext. intros m.
      cbv beta. destruct (keyIs host m) eqn:E.
      * change (keyIs host (markRefreshing m)) with (keyIs host m).
        now rewrite E.
      * now rewrite E.
    + reflexivity.
Qed.

(** X19: the refresh of a machine that is being updated, as
    [updateMachine] makes it after a successful install, on a page
    where no machine awaits an automatic check.  After each of the two
    state updates of the run the filter of the auto-refresh effect is
    still empty, so the effect starts no check of its own.  When the
    cache refresh resolves and the update check then returns, every
    entry of the machine is shown as connected with exactly what the
    check returned, be it counts or an error of the check; the calls
    are one cache refresh followed by one update check, and no alert is
    raised, also not for a failed check. *)
Theorem refreshMachine_stores_check_result
        (snapshot : list MachineWithUpdates) (host : string) (p : Page)
        (u : UpdateInfo) :
  Spec.connectedIn snapshot host ->
  Spec.allUpdating host p ->
  machinesNeedingRefresh (machines (dash p)) = [] ->
  fst (Transactions.refreshPackageCache gettext host
         (refreshRemote env host (S (now p))) DBus.newClient)
    = Returned tt ->
  fst (Transactions.getUpdatesForHost gettext (S (S (S (now p)))) host
         (checkRemote env host (S (S (S (now p))))) DBus.newClient)
    = Returned u ->
  let p' := snd (refreshMachine snapshot host p) in
  (machinesNeedingRefresh
     (machines (dash (setMachine host markRefreshing p))) = [] /\
   machinesNeedingRefresh (machines (dash p')) = []) /\
  fst (refreshMachine snapshot host p) = Returned tt /\
  trace p' =
  (trace p ++ [Called RefreshPackageCache host;
               Settled RefreshPackageCache host;
               Called GetUpdates host; Settled GetUpdates host])%list /\
  machines (dash p') =
  map (fun m => if keyIs host m
                then withUpdates u (withState (Some "connected") m)
                else m)
      (machines (dash p)) /\
  alerts (dash p') = alerts (dash p).
Proof.
  intros Hc Hu Hq Hs Hg. cbv zeta.
  rewrite (@refreshMachine_success_run snapshot host p u Hc Hs Hg).
  assert (H0 : machinesNeedingRefresh
                 (machines (dash (setMachine host markRefreshing p))) = [])
    by (apply idle_setMachine; auto).
  assert (Hu0 : Spec.allUpdating host (setMachine host markRefreshing p))
    by (apply allUpdating_setMachine; [intros m; split; reflexivity | exact Hu]).
  cbn [fst snd].
  split; [split; [exact H0 |] |].
  - apply (@idle_setMachine host _
             (log (Settled GetUpdates host)
                (log (Called GetUpdates host)
                   (log (Settled RefreshPackageCache host)
                      (log (Called RefreshPackageCache host)
                         (setMachine host markRefreshing p))))));
      [reflexivity | exact Hu0 | exact H0].
  - split; [reflexivity |]. split; [| split].
    + cbn [setMachine log trace]. rewrite <- !app_assoc. reflexivity.
    + cbn [dash machines setMachine log]. rewrite map_map.
      apply map_ext. intros m.
      cbv beta. destruct (keyIs host m) eqn:E.
      * change (keyIs host (markRefreshing m)) with (keyIs host m).
        now rewrite E.
      * now rewrite E.
    + reflexivity.
Qed.

End RefreshMore.
(** ** More on the dashboard: bulk actions, selection, auto-refresh *)

Section BulkMore.
Import Dashboard Controls.
Variable gettext : string -> string.
Variable cockpit_format : string -> list (option string) -> string.
Variable env : Env.

Local Abbreviation updateMachine :=
  (Dashboard.updateMachine gettext cockpit_format env).
Local Abbreviation updateAll :=
  (Dashboard.updateAll gettext cockpit_format env).
Local Abbreviation updateSelected :=
  (Controls.updateSelected gettext cockpit_format env).
Local Abbreviation refreshAll :=
  (Controls.refreshAll gettext cockpit_format env).
Local Abbreviation autoRefreshOne := (Controls.autoRefreshOne gettext env).

Lemma forEach_never_throws (S A : Type) (body : A -> Async.t S unit)
      (e : JsError) :
  (forall x q, fst (body x q) <> Threw e) ->
  forall l q, fst (Async.forEach l body q) <> Threw e.
Proof.
  intros Hb. induction l as [| x l IH]; intros q; [discriminate |].
  cbn [Async.forEach]. unfold Async.bind.
  specialize (Hb x q).
  destruct (body x q) as [[[] | e' |] q1]; cbn [fst] in *;
    [apply IH | congruence | discriminate].
Qed.

Lemma forEach_filter (S A : Type) (test : A -> bool)
      (body : A -> Async.t S unit) (l : list A) :
  forall q,
    Async.forEach l (fun x => if test x then body x else Async.ret tt) q =
    Async.forEach (filter test l) body q.
Proof.
  induction l as [| x l IH]; intros q; [reflexivity |].
  cbn [Async.forEach filter]. destruct (test x).
  - cbn [Async.forEach]. unfold Async.bind.
    destruct (body x q) as [[[] | e |] q1]; [apply IH | |]; reflexivity.
  - unfold Async.bind, Async.ret. apply IH.
Qed.

Lemma filter_twice (A : Type) (f g : A -> bool) (l : list A) :
  filter g (filter f l) = filter (fun x => f x && g x) l.
Proof.
  induction l as [| x l IH]; [reflexivity |].
  cbn [filter]. destruct (f x); cbn [filter andb]; [| exact IH].
  destruct (g x); now rewrite IH.
Qed.

(** The machines [updateSelected] installs on. *)
Local Abbreviation chosen selection :=
  (fun m : MachineWithUpdates =>
     Js.mem (key (machine m)) selection && stateIs "connected" m
     && (0 <? total (updates m))).

Lemma updateSelected_shape (snapshot : list MachineWithUpdates)
      (selection : list string) (securityOnly : bool) (p : Page) :
  updateSelected snapshot selection securityOnly p =
  match Async.forEach (filter (chosen selection) snapshot)
          (fun m => updateMachine snapshot (key (machine m)) securityOnly)
          (setBulkUpdating true p) with
  | (Returned _, p1) =>
      (Returned tt, setSelectedMachines [] (setBulkUpdating false p1))
  | r => r
  end.
Proof.
  unfold Controls.updateSelected, Async.bind, Async.modify.
  rewrite forEach_filter, filter_twice.
  destruct (Async.forEach _ _ _) as [[[] | e |] p1]; reflexivity.
Qed.

Lemma updateAll_shape (snapshot : list MachineWithUpdates)
      (securityOnly : bool) (p : Page) :
  updateAll snapshot securityOnly p =
  match Async.forEach (filter needsUpdate snapshot)
          (fun m => updateMachine snapshot (key (machine m)) securityOnly)
          (setBulkUpdating true p) with
  | (Returned _, p1) => (Returned tt, setBulkUpdating false p1)
  | r => r
  end.
Proof.
  unfold Dashboard.updateAll, Async.bind, Async.modify.
  destruct (Async.forEach _ _ _) as [[[] | e |] p1]; reflexivity.
Qed.

(** X20: none of the dashboard's actions rejects: refreshing or
    updating one machine, refreshing all, updating the selection and
    updating all either complete or stay pending, whatever the calls
    they make do. *)
Theorem dashboard_actions_never_reject
        (snapshot : list MachineWithUpdates) (selection : list string)
        (host : string) (securityOnly : bool) (p : Page) (e : JsError) :
  fst (Dashboard.refreshMachine gettext cockpit_format env snapshot host p)
    <> Threw e /\
  fst (updateMachine snapshot host securityOnly p) <> Threw e /\
  fst (refreshAll snapshot p) <> Threw e /\
  fst (updateSelected snapshot selection securityOnly p) <> Threw e /\
  fst (updateAll snapshot securityOnly p) <> Threw e.
Proof.
  split; [apply refreshMachine_never_throws |].
  split; [apply updateMachine_never_throws |].
  split.
  { unfold Controls.refreshAll. apply forEach_never_throws.
    intros x q. apply refreshMachine_never_throws. }
  split; [| apply updateAll_never_throws].
  rewrite updateSelected_shape.
  pose proof (@forEach_never_throws Page MachineWithUpdates
                (fun m => updateMachine snapshot (key (machine m))
                                        securityOnly) e
                (fun x q => @updateMachine_never_throws gettext
                              cockpit_format env snapshot (key (machine x))
                              securityOnly q e)
                (filter (chosen selection) snapshot)
                (setBulkUpdating true p)) as H.
  destruct (Async.forEach _ _ _) as [[[] | e' |] p1]; cbn [fst] in *;
    [discriminate | exact H | discriminate].
Qed.

(** X21: when [updateSelected] completes, the installs it made are
    exactly one awaited install for each machine of the closed-over
    roster that is selected, connected and has [updates.total > 0], in
    roster order, machines already marked as updating included; every
    entry of a visited machine has [updating] false, the selection is
    empty and the bulk flag is off. *)
Theorem updateSelected_visits_selected_machines
        (snapshot : list MachineWithUpdates) (selection : list string)
        (securityOnly : bool) (p p' : Page) :
  updateSelected snapshot selection securityOnly p = (Returned tt, p') ->
  let visited := map Spec.keyOf (filter (chosen selection) snapshot) in
  Spec.installs (trace p') =
  (Spec.installs (trace p) ++ Spec.installRun securityOnly visited)%list /\
  (forall m, In m (machines (dash p')) -> In (Spec.keyOf m) visited ->
             updating m = Some false) /\
  selectedMachines (dash p') = [] /\
  bulkUpdating (dash p') = false.
Proof.
  rewrite updateSelected_shape. intros Hrun.
  destruct (Async.forEach _ _ _) as [o p1] eqn:E.
  destruct o as [[] | e |]; try discriminate.
  injection Hrun as <-.
  apply forEach_updateMachine in E. destruct E as (Ht & _ & Hc).
  cbv zeta. split; [exact Ht |]. split; [| split; reflexivity].
  intros m Hin Hv. now apply (Hc (Spec.keyOf m) Hv m Hin).
Qed.

Lemma keys_injective (l : list MachineWithUpdates) :
  NoDup (keysOf l) ->
  forall m m', In m l -> In m' l ->
               key (machine m) = key (machine m') -> m = m'.
Proof.
  unfold keysOf.
  induction l as [| x l IH]; intros Hnd m m' Hm Hm' Hk; [destruct Hm |].
  cbn [map] in Hnd. inversion Hnd as [| k ks Hnotin Hnd']; subst.
  destruct Hm as [<- | Hm], Hm' as [<- | Hm'].
  - reflexivity.
  - exfalso. apply Hnotin. rewrite Hk.
    now apply (in_map (fun m => key (machine m))).
  - exfalso. apply Hnotin. rewrite <- Hk.
    now apply (in_map (fun m => key (machine m))).
  - now apply IH.
Qed.

(** X22: on a roster without repeated keys, "select all" followed by
    "update selected" does what "update all" does, and then clears the
    selection. *)
Theorem select_all_then_update_is_update_all
        (snapshot : list MachineWithUpdates) (securityOnly : bool)
        (q p : Page) :
  NoDup (keysOf snapshot) ->
  updateSelected snapshot
    (selectedMachines (dash (selectAll snapshot true q))) securityOnly p =
  match updateAll snapshot securityOnly p with
  | (Returned _, p') => (Returned tt, setSelectedMachines [] p')
  | r => r
  end.
Proof.
  intros Hnd. rewrite updateSelected_shape, updateAll_shape.
  cbn [selectAll setSelectedMachines dash selectedMachines].
  assert (Hl : filter
                 (chosen
                    (Js.newSet
                       (map (fun m => key (machine m))
                            (filter (fun m => stateIs "connected" m
                                              && notUpdating m) snapshot))))
                 snapshot
               = filter needsUpdate snapshot).
  { apply filter_ext_in. intros m Hm. unfold needsUpdate.
    set (sel := Js.newSet _).
    assert (Hsel : Js.mem (key (machine m)) sel = true <->
                   stateIs "connected" m && notUpdating m = true).
    { unfold sel. rewrite mem_In, newSet_In, in_map_iff. split.
      - intros (m' & Hk & Hin). apply filter_In in Hin.
        destruct Hin as [Hin Hc].
        now rewrite <- (@keys_injective snapshot Hnd m' m Hin Hm Hk).
      - intros Hc. exists m. split; [reflexivity |].
        apply filter_In. split; [exact Hm | exact Hc]. }
    destruct (Js.mem (key (machine m)) sel) eqn:Em;
      destruct (stateIs "connected" m) eqn:Ec;
      destruct (notUpdating m) eqn:Eu;
      destruct (0 <? total (updates m)); cbn [andb] in *;
      try reflexivity;
      try (destruct Hsel as [H1 H2]; specialize (H1 eq_refl); discriminate);
      destruct Hsel as [H1 H2]; specialize (H2 eq_refl); discriminate. }
  rewrite Hl.
  destruct (Async.forEach _ _ _) as [[[] | e |] p1]; reflexivity.
Qed.


End BulkMore.
(** ** More on the dashboard: roster changes, selection, summary *)

Section RosterMore.
Import Dashboard Controls.

Lemma mergeOne_key (prev : list MachineWithUpdates) (newM : Machine) :
  key (machine (mergeOne prev newM)) = key newM.
Proof.
  unfold mergeOne. now destruct (find (keyIs (key newM)) prev).
Qed.

Lemma keysOf_merged (prev : list MachineWithUpdates)
      (newMachineList : list Machine) :
  keysOf (map (mergeOne prev) newMachineList) = map key newMachineList.
Proof.
  unfold keysOf. rewrite map_map. apply map_ext. intros newM.
  apply mergeOne_key.
Qed.

Lemma existsb_false (A : Type) (f : A -> bool) (l : list A) :
  existsb f l = false <-> forall x, In x l -> f x = false.
Proof.
  induction l as [| y l IH]; cbn; [tauto |].
  rewrite orb_false_iff, IH. split.
  - intros [Hy Hl] x [<- | Hx]; auto.
  - intros H. split; [apply H; now left | intros x Hx; apply H; now right].
Qed.

Lemma keysChanged_false (prev : list MachineWithUpdates)
      (newMachineList : list Machine) :
  keysChanged prev newMachineList = false ->
  forall k, In k (keysOf prev) <-> In k (map key newMachineList).
Proof.
  unfold keysChanged. intros H.
  apply orb_false_iff in H. destruct H as [H Hnew].
  apply orb_false_iff in H. destruct H as [_ Hprev].
  rewrite existsb_false in Hprev, Hnew. intros k. split; intros Hk.
  - apply newSet_In, mem_In. apply newSet_In in Hk.
    specialize (Hprev k Hk). now apply negb_false_iff in Hprev.
  - apply newSet_In, mem_In. apply newSet_In in Hk.
    specialize (Hnew k Hk). now apply negb_false_iff in Hnew.
Qed.

Lemma find_key (l : list MachineWithUpdates) :
  NoDup (keysOf l) ->
  forall m, In m l -> find (keyIs (key (machine m))) l = Some m.
Proof.
  unfold keysOf.
  induction l as [| x l IH]; intros Hnd m Hm; [destruct Hm |].
  cbn [map] in Hnd. inversion Hnd as [| k ks Hnotin Hnd']; subst.
  cbn [find]. unfold keyIs at 1.
  destruct Hm as [<- | Hm]; [now rewrite String.eqb_refl |].
  destruct (String.eqb_spec (key (machine x)) (key (machine m)))
    as [Heq | Hne].
  - exfalso. apply Hnotin. rewrite Heq.
    now apply (in_map (fun m => key (machine m))).
  - now apply IH.
Qed.

Lemma find_In (host : string) (l : list MachineWithUpdates)
      (m : MachineWithUpdates) :
  find (keyIs host) l = Some m -> In m l /\ key (machine m) = host.
Proof.
  intros H. apply find_some in H. destruct H as [Hin Hk].
  split; [exact Hin | now apply String.eqb_eq in Hk].
Qed.

Lemma spreadMachine_twice (existing newM : Machine) :
  spreadMachine (spreadMachine existing newM) newM =
  spreadMachine existing newM.
Proof.
  unfold spreadMachine. cbn.
  destruct (user newM), (color newM), (state newM), (visible newM),
    (avatar newM); reflexivity.
Qed.

Lemma spreadMachine_self (newM : Machine) : spreadMachine newM newM = newM.
Proof.
  destruct newM as [k a l u c s v av]. unfold spreadMachine. cbn.
  destruct u, c, s, v, av; reflexivity.
Qed.

Lemma sameState_refl (s : option string) : sameState s s = true.
Proof. apply sameData_refl. Qed.

(** Merging a machine again into the merged roster changes nothing. *)
Lemma mergeOne_again (prev merged : list MachineWithUpdates)
      (newM : Machine) :
  find (keyIs (key newM)) merged = Some (mergeOne prev newM) ->
  mergeOne merged newM = mergeOne prev newM.
Proof.
  intros Hf. unfold mergeOne at 1. rewrite Hf. unfold mergeOne.
  destruct (find (keyIs (key newM)) prev) as [existing |].
  - cbn [machine updates updateProgress updating selected].
    rewrite spreadMachine_twice.
    replace (negb (sameState
                     (state (spreadMachine (machine existing) newM))
                     (state newM))
             && sameState (state newM) (Some "connected"))
      with false; [reflexivity |].
    unfold spreadMachine. cbn [state].
    destruct (state newM) as [s |]; cbn [Registry.overrideOpt].
    + now rewrite sameState_refl.
    + now rewrite andb_false_r.
  - cbn [machine updates updateProgress updating selected].
    now rewrite spreadMachine_self, sameState_refl.
Qed.

(** X24: after a roster notification the dashboard lists exactly the
    hosts of the new roster: every key shown is a key of the new roster
    and every key of the new roster is shown. *)
Theorem mergeRoster_shows_the_new_hosts
        (newMachineList : list Machine) (prev : list MachineWithUpdates)
        (k : string) :
  In k (keysOf (mergeRoster newMachineList prev)) <->
  In k (map key newMachineList).
Proof.
  unfold mergeRoster.
  destruct (keysChanged prev newMachineList) eqn:Ek; cbn [orb].
  - now rewrite keysOf_merged.
  - destruct (stateChanged prev newMachineList).
    + now rewrite keysOf_merged.
    + now apply keysChanged_false.
Qed.

(** X25: a roster notification is idempotent: when the keys of the new
    roster are pairwise distinct, delivering the same roster a second
    time leaves the dashboard entries as the first delivery made
    them. *)
Theorem mergeRoster_twice
        (newMachineList : list Machine) (prev : list MachineWithUpdates) :
  NoDup (map key newMachineList) ->
  mergeRoster newMachineList (mergeRoster newMachineList prev) =
  mergeRoster newMachineList prev.
Proof.
  intros Hnd.
  destruct (keysChanged prev newMachineList
            || stateChanged prev newMachineList) eqn:E.
  - assert (H1 : mergeRoster newMachineList prev =
                 map (mergeOne prev) newMachineList)
      by (unfold mergeRoster; now rewrite E).
    rewrite H1. clear E H1. unfold mergeRoster.
    destruct (keysChanged _ _ || stateChanged _ _); [| reflexivity].
    apply map_ext_in. intros newM Hin. apply mergeOne_again.
    rewrite <- (mergeOne_key prev newM). apply find_key.
    + now rewrite keysOf_merged.
    + now apply in_map.
  - assert (H1 : mergeRoster newMachineList prev = prev)
      by (unfold mergeRoster; now rewrite E).
    rewrite H1. exact H1.
Qed.

(** X26: a roster notification never loses what the dashboard knows
    about a machine that stays on the roster: on a dashboard without
    repeated keys, the machine still has an entry afterwards, with the
    same [updating] flag, install progress, selection mark, update
    counts, error and time of last check. *)
Theorem mergeRoster_keeps_known_machines
        (newMachineList : list Machine) (prev : list MachineWithUpdates)
        (m : MachineWithUpdates) :
  NoDup (keysOf prev) -> In m prev ->
  In (key (machine m)) (map key newMachineList) ->
  exists m',
    In m' (mergeRoster newMachineList prev) /\
    key (machine m') = key (machine m) /\
    updating m' = updating m /\
    updateProgress m' = updateProgress m /\
    selected m' = selected m /\
    total (updates m') = total (updates m) /\
    security (updates m') = security (updates m) /\
    error (updates m') = error (updates m) /\
    lastChecked (updates m') = lastChecked (updates m).
Proof.
  intros Hnd Hm Hk. unfold mergeRoster.
  destruct (keysChanged _ _ || stateChanged _ _).
  - apply in_map_iff in Hk. destruct Hk as (newM & Hkey & Hin).
    exists (mergeOne prev newM). split; [now apply in_map |].
    unfold mergeOne. rewrite Hkey, (@find_key prev Hnd m Hm).
    cbn [machine updates updateProgress updating selected spreadMachine key].
    split; [exact Hkey |].
    destruct (_ && _); repeat split.
  - exists m. repeat split. exact Hm.
Qed.

Lemma machine_keys_injective (l : list Machine) :
  NoDup (map key l) ->
  forall m m', In m l -> In m' l -> key m = key m' -> m = m'.
Proof.
  induction l as [| x l IH]; intros Hnd m m' Hm Hm' Hk; [destruct Hm |].
  cbn [map] in Hnd. inversion Hnd as [| k ks Hnotin Hnd']; subst.
  destruct Hm as [<- | Hm], Hm' as [<- | Hm'].
  - reflexivity.
  - exfalso. apply Hnotin. rewrite Hk. now apply in_map.
  - exfalso. apply Hnotin. rewrite <- Hk. now apply in_map.
  - now apply IH.
Qed.

Lemma Forall2_In_r (A B : Type) (R : A -> B -> Prop) (l : list A)
      (l' : list B) :
  Forall2 R l l' -> forall y, In y l' -> exists x, In x l /\ R x y.
Proof.
  induction 1 as [| x y l l' Hxy _ IH]; intros z Hz; [destruct Hz |].
  destruct Hz as [<- | Hz].
  - exists x. split; [now left | exact Hxy].
  - destruct (IH z Hz) as (x' & Hx' & Hr). exists x'.
    split; [now right | exact Hr].
Qed.

Lemma Forall2_map_eq (A B C : Type) (f : A -> C) (g : B -> C)
      (R : A -> B -> Prop) (l : list A) (l' : list B) :
  (forall x y, R x y -> f x = g y) ->
  Forall2 R l l' -> map f l = map g l'.
Proof.
  intros Hfg. induction 1 as [| x y l l' Hxy _ IH]; [reflexivity |].
  cbn [map]. now rewrite (Hfg x y Hxy), IH.
Qed.

(** X27: a roster notification that changes neither the keys nor the
    states is dropped as a whole: when the new roster lists the same
    keys with the same states, entry by entry, the dashboard entries
    stay as they are, so a changed label, address, user or colour of
    the registry is not shown. *)
Theorem mergeRoster_ignores_relabelling
        (newMachineList : list Machine) (prev : list MachineWithUpdates) :
  NoDup (map key newMachineList) ->
  Forall2 (fun newM m => key newM = key (machine m) /\
                         state newM = state (machine m))
          newMachineList prev ->
  mergeRoster newMachineList prev = prev.
Proof.
  intros Hnd Hsame. unfold mergeRoster.
  assert (Hkeys : map key newMachineList = keysOf prev).
  { unfold keysOf.
    apply (@Forall2_map_eq _ _ _ key (fun m => key (machine m)) _ _ _
             (fun x y H => proj1 H) Hsame). }
  assert (Hk : keysChanged prev newMachineList = false).
  { unfold keysChanged. rewrite Hkeys, Nat.eqb_refl. cbn [negb orb].
    apply orb_false_iff. split; apply existsb_false; intros k Hin;
      apply negb_false_iff, mem_In; exact Hin. }
  assert (Hs : stateChanged prev newMachineList = false).
  { unfold stateChanged. apply existsb_false. intros newM Hin.
    destruct (find (keyIs (key newM)) prev) as [oldM |] eqn:Ef;
      [| reflexivity].
    apply find_In in Ef. destruct Ef as [Hold Hkey].
    destruct (@Forall2_In_r _ _ _ _ _ Hsame oldM Hold) as (newM' & Hin' & Hk' & Hs').
    assert (newM' = newM)
      by (apply (@machine_keys_injective newMachineList Hnd); auto; congruence).
    subst newM'. apply negb_false_iff. unfold sameState.
    rewrite Hs'. apply sameData_refl. }
  now rewrite Hk, Hs.
Qed.

(** X28: selecting works as on a set of hosts: after
    [handleSelect host selected] the host is selected exactly if
    [selected] is true, every other host is selected exactly if it was
    before, and no host is listed twice if none was. *)
Theorem handleSelect_sets_membership (host : string) (flag : bool)
        (p : Page) (h : string) :
  Js.mem h (selectedMachines (dash (handleSelect host flag p))) =
  (if String.eqb h host then flag
   else Js.mem h (selectedMachines (dash p))) /\
  (NoDup (selectedMachines (dash p)) ->
   NoDup (selectedMachines (dash (handleSelect host flag p)))).
Proof.
  unfold handleSelect. cbn [setSelectedMachines dash selectedMachines].
  set (prev := selectedMachines (dash p)). destruct flag.
  - destruct (Js.mem host prev) eqn:Em.
    + split; [| auto].
      destruct (String.eqb_spec h host) as [-> | Hne]; [exact Em |].
      reflexivity.
    + split.
      * unfold Js.mem. rewrite existsb_app. cbn [existsb].
        rewrite orb_false_r.
        destruct (String.eqb_spec h host) as [-> | Hne];
          [apply orb_true_r | apply orb_false_r].
      * intros Hnd. apply NoDup_app; [exact Hnd | repeat constructor; auto |].
        intros x Hx [<- | []].
        apply mem_In in Hx. congruence.
  - split.
    + unfold Js.mem. induction prev as [| x prev IH]; cbn [filter existsb].
      * now destruct (String.eqb h host).
      * destruct (String.eqb_spec x host) as [-> | Hx]; cbn [negb existsb].
        -- rewrite IH.
           destruct (String.eqb_spec h host) as [-> | Hne]; [reflexivity |].
           now destruct (String.eqb_spec h host).
        -- rewrite IH.
           destruct (String.eqb_spec h host) as [-> | Hne];
             [| reflexivity].
           destruct (String.eqb_spec host x); [congruence | reflexivity].
    + intros Hnd. now apply NoDup_filter.
Qed.

Lemma fold_sum (A : Type) (f : A -> Z) (l : list A) :
  forall a, fold_left (fun sum m => sum + f m) l a =
            a + fold_left (fun sum m => sum + f m) l 0.
Proof.
  induction l as [| x l IH]; intros a; cbn [fold_left]; [lia |].
  rewrite (IH (a + f x)), (IH (0 + f x)). lia.
Qed.

Lemma stateIs_exclusive (m : MachineWithUpdates) :
  stateIs "connected" m = true -> stateIs "failed" m = false.
Proof.
  unfold stateIs. destruct (state (machine m)) as [s |]; [| discriminate].
  intros H. apply String.eqb_eq in H. now subst.
Qed.

(** X29: the figures of the summary card are consistent: the machines
    shown as up to date are among the connected ones, connected and
    failed machines together are at most all machines, and, when every
    entry has [0 <= security <= total], the security updates are at
    most the total updates and the updates of the selection are at most
    the total updates. *)
Theorem summary_figures_consistent (ms : list MachineWithUpdates)
        (sel : list string) :
  (upToDate ms <= connectedCount ms)%nat /\
  (connectedCount ms + failedCount ms <= List.length ms)%nat /\
  ((forall m, In m ms ->
              0 <= security (updates m) <= total (updates m)) ->
   0 <= securityUpdates ms <= totalUpdates ms /\
   0 <= selectedUpdates sel ms <= totalUpdates ms).
Proof.
  unfold selectedUpdates, upToDate, connectedCount, failedCount,
    securityUpdates, totalUpdates.
  induction ms as [| m ms (IH1 & IH2 & IH3)]; cbn [filter fold_left List.length].
  - split; [| split]; [lia | lia | intros _; cbn; lia].
  - split; [| split].
    + destruct (stateIs "connected" m); cbn [andb];
        [destruct (_ && _) |]; cbn [List.length]; lia.
    + pose proof (stateIs_exclusive m) as Hx.
      destruct (stateIs "connected" m);
        [rewrite Hx by reflexivity | destruct (stateIs "failed" m)];
        cbn [List.length]; lia.
    + intros Hb.
      assert (Hm : 0 <= security (updates m) <= total (updates m))
        by (apply Hb; now left).
      destruct (IH3 (fun x Hx => Hb x (or_intror Hx))) as [Hs Ht].
      rewrite (fold_sum (fun m => total (updates m)) ms
                        (0 + total (updates m))),
        (fold_sum (fun m => security (updates m)) ms
                  (0 + security (updates m))).
      split; [lia |].
      destruct (Js.mem (key (machine m)) sel); cbn [fold_left];
        [rewrite (fold_sum (fun m => total (updates m)) _
                           (0 + total (updates m))) |]; lia.
Qed.

End RosterMore.
(** ** More on the dashboard: loading the roster *)

Section LoadMore.
Import Dashboard Controls.
Variable gettext : string -> string.
Variable cockpit_format : string -> list (option string) -> string.
Variable env : Env.

Local Abbreviation loadOne := (Controls.loadOne gettext env).

(** One round of the loop of [loadMachines], path by path. *)
Lemma loadOne_run (m : Machine) (q : Page) :
  loadOne m q =
  if needsProbe m then
    let q1 := setMachine (key m) (withState (Some "connecting")) q in
    let q2 := log (Settled CheckConnection (address m))
                  (log (Called CheckConnection (address m)) q1) in
    let q3 := setMachine (key m)
                (fun e => withLabel (label m) (withState None e)) q2 in
    (Returned tt,
     setMachine (key m) (withUpdates (mkUpdateInfo 0 0 false None None)) q3)
  else if sameState (state m) (Some "connected") then
    match Terms.checkOutcome gettext (S (now q))
            (checkRemote env (address m) (S (now q))) with
    | Returned u =>
        (Returned tt,
         setMachine (key m) (withUpdates u)
           (log (Settled GetUpdates (address m))
                (log (Called GetUpdates (address m)) q)))
    | _ => (Pending, log (Called GetUpdates (address m)) q)
    end
  else
    (Returned tt,
     setMachine (key m)
       (withUpdates
          (mkUpdateInfo 0 0 false
             (if sameState (state m) (Some "failed")
              then Some (gettext "Machine not connected") else None)
             None)) q).
Proof.
  unfold Controls.loadOne. destruct (needsProbe m).
  - unfold Async.bind, Async.modify, callCheckConnection, api.
    destruct (checkMachineConnection_resolves (address m)
                (probeChannel env (address m)
                   (now (log (Called CheckConnection (address m))
                             (setMachine (key m)
                                (withState (Some "connecting")) q)))))
      as (v & Hv & _).
    rewrite Hv.
    change (Prober.destructure v)
      with (Prober.JUndefined, Prober.JUndefined).
    reflexivity.
  - unfold Async.bind at 1, Async.ret at 1.
    destruct (sameState (state m) (Some "connected")); [| reflexivity].
    unfold Async.tryCatch, Async.bind. rewrite callGetUpdates_run.
    destruct (Terms.checkOutcome _ _ _) as [u | e |] eqn:Eu;
      [reflexivity | | reflexivity].
    now apply checkOutcome_never_throws in Eu.
Qed.

Lemma loadOne_step (m : Machine) (q q' : Page) :
  loadOne m q = (Returned tt, q') ->
  exists f,
    machines (dash q') =
    map (fun e => if keyIs (key m) e then f e else e) (machines (dash q)) /\
    (forall e, key (machine (f e)) = key (machine e) /\
               loading (updates (f e)) = false /\
               (needsProbe m = true -> state (machine (f e)) = None)) /\
    trace q' = (trace q ++ Terms.loadCalls m)%list.
Proof.
  rewrite loadOne_run. unfold Terms.loadCalls.
  destruct (needsProbe m).
  - cbv zeta. intros [= <-].
    exists (fun e => withUpdates (mkUpdateInfo 0 0 false None None)
                       (withLabel (label m) (withState None e))).
    split; [| split].
    + cbn [setMachine dash machines log]. rewrite !map_map.
      apply map_ext. intros e. cbv beta.
      destruct (keyIs (key m) e) eqn:E.
      * change (keyIs (key m) (withState (Some "connecting") e))
          with (keyIs (key m) e).
        rewrite E.
        change (keyIs (key m)
                  (withLabel (label m)
                     (withState None (withState (Some "connecting") e))))
          with (keyIs (key m) e).
        now rewrite E.
      * now rewrite !E.
    + intros e. repeat split.
    + cbn [setMachine log trace]. now rewrite <- app_assoc.
  - destruct (sameState (state m) (Some "connected")).
    + destruct (Terms.checkOutcome _ _ _) as [u | e |] eqn:Eu;
        try discriminate.
      intros [= <-]. exists (withUpdates u). split; [| split].
      * reflexivity.
      * intros e. repeat split; try discriminate.
        now apply checkOutcome_loading in Eu.
      * cbn [setMachine log trace]. now rewrite <- app_assoc.
    + intros [= <-]. eexists (withUpdates _). split; [| split].
      * reflexivity.
      * intros e. repeat split; discriminate.
      * cbn [setMachine trace]. now rewrite app_nil_r.
Qed.

Lemma loadOne_never_throws (m : Machine) (q : Page) (e : JsError) :
  fst (loadOne m q) <> Threw e.
Proof.
  rewrite loadOne_run.
  destruct (needsProbe m); [discriminate |].
  destruct (sameState _ _); [| discriminate].
  destruct (Terms.checkOutcome _ _ _); discriminate.
Qed.

Lemma Forall2_map_l (A B C : Type) (f : A -> B) (R : B -> C -> Prop)
      (l : list A) :
  forall l', Forall2 R (map f l) l' ->
             Forall2 (fun x y => R (f x) y) l l'.
Proof.
  induction l as [| x l IH]; intros l' H; inversion H; subst;
    constructor; auto.
Qed.

Lemma forEach_loadOne (l : list Machine) :
  forall q q',
    Async.forEach l loadOne q = (Returned tt, q') ->
    Forall2 (Terms.loaded l) (machines (dash q)) (machines (dash q')) /\
    trace q' = (trace q ++ flat_map Terms.loadCalls l)%list.
Proof.
  induction l as [| x l IH]; intros q q' Hrun.
  - injection Hrun as <-. cbn [flat_map]. rewrite app_nil_r.
    split; [| reflexivity].
    induction (machines (dash q)); constructor; auto.
    split; reflexivity.
  - cbn [Async.forEach] in Hrun. unfold Async.bind in Hrun.
    destruct (loadOne x q) as [o q1] eqn:E1.
    destruct o as [[] | e |]; try discriminate.
    apply loadOne_step in E1. destruct E1 as (f & Hm & Hf & Ht).
    destruct (IH q1 q' Hrun) as (Hl & Ht').
    split.
    + rewrite Hm in Hl. clear - Hl Hf.
      remember (machines (dash q')) as final eqn:Ef. clear Ef.
      revert final Hl.
      induction (machines (dash q)) as [| e es IHes]; intros final Hl;
        inversion Hl as [| e1 e' es1 final' [Hk Hrest] Hl']; subst;
        constructor; [| now apply IHes].
      unfold Terms.loaded in *. cbn [map Js.mem existsb].
      unfold keyIs in *.
      destruct (String.eqb (key (machine e)) (key x)) eqn:Ex.
      * destruct (Hf e) as (Hfk & Hfl & Hfs).
        rewrite Hfk in Hk, Hrest. split; [exact Hk |].
        cbn [orb]. fold (Js.mem (key (machine e)) (map key l)) in *.
        destruct (Js.mem (key (machine e)) (map key l)).
        -- destruct Hrest as [Hload Hstate]. split; [exact Hload |].
           intros Hall. apply Hstate. intros m Hin. apply Hall. now right.
        -- subst e'. split; [exact Hfl |]. intros Hall. apply Hfs.
           apply (Hall x); [now left |].
           apply String.eqb_eq in Ex. now rewrite Ex.
      * split; [exact Hk |].
        cbn [orb]. fold (Js.mem (key (machine e)) (map key l)) in *.
        destruct (Js.mem (key (machine e)) (map key l)); [| exact Hrest].
        destruct Hrest as [Hload Hstate]. split; [exact Hload |].
        intros Hall. apply Hstate. intros m Hin. apply Hall. now right.
    + rewrite Ht', Ht. cbn [flat_map]. now rewrite app_assoc.
Qed.

Section Registry.
Variable SESSION_KEY : string.
Variable JSON_parse : string -> option MachinesData.
Variable localeCompare : string -> string -> Z.

Local Abbreviation getMachinesList :=
  (Registry.getMachinesList SESSION_KEY JSON_parse localeCompare).
Local Abbreviation loadMachines :=
  (Controls.loadMachines gettext env SESSION_KEY JSON_parse localeCompare).

(** X30: [loadMachines] never rejects.  When it completes, the page is
    no longer loading, lists the keys of the roster in roster order,
    and no entry is left with [loading] true; the calls made are, per
    machine in roster order, one probe if the registry does not know
    its state and one update check if the registry holds it as
    connected, so a probed machine is never checked for updates, and
    its entries are left without a state. *)
Theorem loadMachines_completion (b : Browser) (a a' : App) :
  let roster := fst (getMachinesList b) in
  (forall e, fst (fst (loadMachines b) a) <> Threw e) /\
  (fst (loadMachines b) a = (Returned tt, a') ->
   pageLoading a' = false /\
   keysOf (machines (dash (page a'))) = map key roster /\
   (forall e, In e (machines (dash (page a'))) ->
              loading (updates e) = false) /\
   trace (page a') =
   (trace (page a) ++ flat_map Terms.loadCalls roster)%list /\
   (forall e, In e (machines (dash (page a'))) ->
              (forall m, In m roster -> key m = key (machine e) ->
                         needsProbe m = true) ->
              state (machine e) = None)).
Proof.
  cbv zeta. unfold Controls.loadMachines.
  destruct (getMachinesList b) as [roster b'] eqn:Er. cbn [fst].
  unfold loadMachinesFrom, Async.bind, Async.modify, onPage.
  cbn [page pageLoading].
  set (q0 := setMachines (map seedEntry roster) (page a)).
  split.
  { intros e.
    pose proof (@forEach_never_throws Page Machine loadOne e
                  (fun x q => @loadOne_never_throws x q e) roster q0) as H.
    destruct (Async.forEach roster loadOne q0) as [o q']. exact H. }
  destruct (Async.forEach roster loadOne q0) as [o q'] eqn:E.
  intros [= -> <-]. cbn [page pageLoading].
  apply forEach_loadOne in E. destruct E as (Hl & Ht).
  assert (Hseed : machines (dash q0) = map seedEntry roster) by reflexivity.
  rewrite Hseed in Hl.
  assert (Hall : forall e', In e' (machines (dash q')) ->
                   exists m, In m roster /\
                             Terms.loaded roster (seedEntry m) e').
  { intros e' Hin.
    destruct (@Forall2_In_r _ _ _ _ _ Hl e' Hin) as (e & He & Hr).
    apply in_map_iff in He. destruct He as (m & <- & Hm). now exists m. }
  assert (Hmem : forall m, In m roster ->
                   Js.mem (key (machine (seedEntry m))) (map key roster)
                   = true)
    by (intros m Hm; apply mem_In;
        change (In (key m) (map key roster)); now apply in_map).
  split; [reflexivity |]. split; [| split; [| split]].
  - unfold keysOf.
    rewrite <- (@Forall2_map_eq _ _ _ (fun m => key m)
                  (fun e => key (machine e))
                  (fun m e' => Terms.loaded roster (seedEntry m) e')
                  roster (machines (dash q'))); [reflexivity | |].
    + intros m e' [Hk _]. now rewrite Hk.
    + now apply Forall2_map_l.
  - intros e' Hin. destruct (Hall e' Hin) as (m & Hm & Hk & Hr).
    rewrite (Hmem m Hm) in Hr. apply Hr.
  - exact Ht.
  - intros e' Hin Hprobe. destruct (Hall e' Hin) as (m & Hm & Hk & Hr).
    rewrite (Hmem m Hm) in Hr. apply Hr.
    intros m' Hm' Hk'. apply Hprobe; [exact Hm' |].
    now rewrite Hk', Hk.
Qed.

End Registry.

End LoadMore.
(** ** The further properties on concrete inputs *)

(** X1 on the fleet registry: db1 is listed and not hidden. *)
Lemma roster_never_lists_hidden_witness :
  In (mkMachine "10.0.0.5" "10.0.0.5" "db1" None None None None None)
     (fst (Registry.getMachinesList Examples.SESSION_KEY
             (Examples.parseOnly Examples.fleetText Examples.fleetData)
             Spec.codeUnitCompare Examples.fleetBrowser)) /\
  visible (mkMachine "10.0.0.5" "10.0.0.5" "db1" None None None None None)
    <> Some false.
Proof.
  assert (H : In (mkMachine "10.0.0.5" "10.0.0.5" "db1" None None None None
                            None)
                 (fst (Registry.getMachinesList Examples.SESSION_KEY
                         (Examples.parseOnly Examples.fleetText
                                             Examples.fleetData)
                         Spec.codeUnitCompare Examples.fleetBrowser)))
    by (vm_compute; auto).
  split; [exact H |].
  exact (@roster_never_lists_hidden Examples.SESSION_KEY
           (Examples.parseOnly Examples.fleetText Examples.fleetData)
           Spec.codeUnitCompare Examples.fleetBrowser _ H).
Defined.

(** X2 on the fleet registry. *)
Lemma roster_rearranges_visible_records_witness :
  map label (Spec.visibleRecords Examples.SESSION_KEY
               (Examples.parseOnly Examples.fleetText Examples.fleetData)
               Examples.fleetBrowser) = ["zeta"; "localhost"; "db1"] /\
  Permutation
    (Spec.visibleRecords Examples.SESSION_KEY
       (Examples.parseOnly Examples.fleetText Examples.fleetData)
       Examples.fleetBrowser)
    (fst (Registry.getMachinesList Examples.SESSION_KEY
            (Examples.parseOnly Examples.fleetText Examples.fleetData)
            Spec.codeUnitCompare Examples.fleetBrowser)).
Proof.
  split; [vm_compute; reflexivity |].
  apply (@roster_rearranges_visible_records Examples.SESSION_KEY
           (Examples.parseOnly Examples.fleetText Examples.fleetData)
           Spec.codeUnitCompare Examples.fleetBrowser).
  vm_compute. discriminate.
Defined.

(** X3 on the fleet registry. *)
Lemma roster_keys_distinct_witness :
  Terms.keysNotOverridden Examples.fleetData = true /\
  NoDup (map key
           (fst (Registry.getMachinesList Examples.SESSION_KEY
                   (Examples.parseOnly Examples.fleetText Examples.fleetData)
                   Spec.codeUnitCompare Examples.fleetBrowser))).
Proof.
  split; [reflexivity |].
  apply (@roster_keys_distinct Examples.SESSION_KEY
           (Examples.parseOnly Examples.fleetText Examples.fleetData)
           Spec.codeUnitCompare Examples.fleetBrowser).
  intros parsed H. vm_compute in H. injection H as <-. reflexivity.
Defined.

(** X4 on the fleet registry, whose overlay hides the host old. *)
Lemma hidden_host_not_listed_witness :
  Js.prop (Registry.override (overlay Examples.fleetData) []) "old" =
  Some (mkPartial None None None None None None (Some false) None) /\
  forall m,
    In m (fst (Registry.getMachinesList Examples.SESSION_KEY
                 (Examples.parseOnly Examples.fleetText Examples.fleetData)
                 Spec.codeUnitCompare Examples.fleetBrowser)) ->
    key m <> "old".
Proof.
  split; [reflexivity |].
  apply (@hidden_host_not_listed Examples.SESSION_KEY
           (Examples.parseOnly Examples.fleetText Examples.fleetData)
           Spec.codeUnitCompare Examples.fleetBrowser Examples.fleetData
           "old" (mkPartial None None None None None None (Some false) None));
    [vm_compute; reflexivity | reflexivity | reflexivity | reflexivity
     | discriminate].
Defined.

(** X5 on the fleet registry, whose record of the local machine has no
    label. *)
Lemma roster_labels_not_empty_witness :
  hostname Examples.fleetBrowser <> "" /\
  Terms.hostsNamed Examples.fleetData = true /\
  forall m,
    In m (fst (Registry.getMachinesList Examples.SESSION_KEY
                 (Examples.parseOnly Examples.fleetText Examples.fleetData)
                 Spec.codeUnitCompare Examples.fleetBrowser)) ->
    label m <> "".
Proof.
  split; [discriminate |]. split; [reflexivity |].
  apply (@roster_labels_not_empty Examples.SESSION_KEY
           (Examples.parseOnly Examples.fleetText Examples.fleetData)
           Spec.codeUnitCompare Examples.fleetBrowser);
    [discriminate |].
  intros parsed H. vm_compute in H. injection H as <-. reflexivity.
Defined.

(** X6 on a transaction with one security update and one other
    update. *)
Lemma getUpdatesForHost_counts_packages_witness :
  Terms.settles Examples.gettext Examples.finishingRemote = Returned tt /\
  fst (Transactions.getUpdatesForHost Examples.gettext 7%nat "web2"
         Examples.finishingRemote DBus.newClient)
  = Returned (mkUpdateInfo 2 1 false None (Some 7%nat)).
Proof.
  split; [reflexivity |].
  exact (@getUpdatesForHost_counts_packages Examples.gettext 7%nat "web2"
           Examples.finishingRemote DBus.newClient eq_refl).
Defined.

(** X7 on a host without the package service and on a transaction that
    ends with an error event. *)
Lemma getUpdatesForHost_reports_failure_witness :
  (exists text,
     fst (Transactions.getUpdatesForHost Examples.gettext 7%nat "web2"
            Examples.missingService DBus.newClient)
     = Returned (mkUpdateInfo 0 0 false (Some text) (Some 7%nat)) /\
     text = "PackageKit not available") /\
  (exists text,
     fst (Transactions.getUpdatesForHost Examples.gettext 7%nat "web2"
            Examples.failingRemote DBus.newClient)
     = Returned (mkUpdateInfo 0 0 false (Some text) (Some 7%nat)) /\
     text = "no network").
Proof.
  split.
  - destruct (@getUpdatesForHost_reports_failure Examples.gettext 7%nat "web2"
                Examples.missingService DBus.newClient
                (mkError (Some "org.freedesktop.DBus.Error.ServiceUnknown"))
                eq_refl) as (text & Hr & Ha & _).
    exists text. split; [exact Hr |]. apply Ha. reflexivity.
  - destruct (@getUpdatesForHost_reports_failure Examples.gettext 7%nat "web2"
                Examples.failingRemote DBus.newClient
                (newError "no network") eq_refl) as (text & Hr & _ & Hm).
    exists text. split; [exact Hr |].
    destruct (Hm eq_refl) as [Hm1 _]. specialize (Hm1 eq_refl).
    now injection Hm1 as <-.
Defined.

(** X11 on a channel that closes cleanly after 80 ms and on one that
    closes with a problem after 120 ms. *)
Lemma probe_answers_by_close_in_time_witness :
  Prober.checkMachineConnection "db9" Samples.cleanChannel =
  (Returned "connected", [Prober.OpenChannel "db9"]) /\
  Prober.checkMachineConnection "db9" Examples.refusedChannel =
  (Returned "failed", [Prober.OpenChannel "db9"]).
Proof.
  split.
  - apply (@probe_answers_by_close_in_time "db9" Samples.cleanChannel 80
             None); [discriminate | reflexivity | reflexivity | reflexivity].
  - apply (@probe_answers_by_close_in_time "db9" Examples.refusedChannel 120
             (Some "no-host"));
      [discriminate | reflexivity | reflexivity | reflexivity].
Defined.

(** X12 on a channel that closes cleanly after 80 ms. *)
Lemma probe_connected_only_after_clean_close_witness :
  fst (Prober.checkMachineConnection "db9" Samples.cleanChannel)
  = Returned "connected" /\
  ("db9" = "localhost" \/
   (Prober.openThrows Samples.cleanChannel = false /\
    ((exists t problem,
        Prober.closeEvent Samples.cleanChannel = Some (t, problem) /\
        t < Prober.TIMEOUT /\ Js.truthy problem = false) \/
     (Spec.silentUntilTimeout Samples.cleanChannel /\
      exists problem,
        Prober.closeNotifies Samples.cleanChannel = Some problem /\
        Js.truthy problem = false)))).
Proof.
  split; [reflexivity |].
  apply (@probe_connected_only_after_clean_close "db9" Samples.cleanChannel).
  reflexivity.
Defined.

(** X14 on a tab subscribed to the db1 registry: the registry is
    rewritten twice, ending with the fleet document, and the poll after
    that is the second notification; rewriting the same text is not
    reported. *)
Lemma poll_reports_rewrites_once_witness :
  let w := Watcher.subscribeMachines Examples.SESSION_KEY Samples.parseBoth
             Spec.codeUnitCompare Samples.countCalls Examples.db1Browser
             0%nat in
  let run := Watcher.run Examples.SESSION_KEY Samples.parseBoth
               Spec.codeUnitCompare Samples.countCalls in
  Watcher.caller w = 1%nat /\
  Watcher.caller
    (run (map Watcher.Write [None; Some Examples.fleetText]
          ++ [Watcher.Tick])%list w) = 2%nat /\
  run (repeat Watcher.Tick 3%nat)
      (run (map Watcher.Write [None; Some Examples.fleetText]
            ++ [Watcher.Tick])%list w)
  = run (map Watcher.Write [None; Some Examples.fleetText]
         ++ [Watcher.Tick])%list w /\
  Watcher.caller
    (run (map Watcher.Write [None; Some Examples.db1Text]
          ++ [Watcher.Tick])%list w) = 1%nat.
Proof.
  cbv zeta. split; [reflexivity |].
  destruct (@poll_reports_rewrites_once Examples.SESSION_KEY
              Samples.parseBoth Spec.codeUnitCompare nat Samples.countCalls
              (Watcher.subscribeMachines Examples.SESSION_KEY
                 Samples.parseBoth Spec.codeUnitCompare Samples.countCalls
                 Examples.db1Browser 0%nat)
              [None; Some Examples.fleetText] 3%nat eq_refl eq_refl eq_refl)
    as [H1 H2].
  destruct (@poll_reports_rewrites_once Examples.SESSION_KEY
              Samples.parseBoth Spec.codeUnitCompare nat Samples.countCalls
              (Watcher.subscribeMachines Examples.SESSION_KEY
                 Samples.parseBoth Spec.codeUnitCompare Samples.countCalls
                 Examples.db1Browser 0%nat)
              [None; Some Examples.db1Text] 0%nat eq_refl eq_refl eq_refl)
    as [H3 _].
  split; [rewrite H1; vm_compute; reflexivity |].
  split; [exact H2 |].
  rewrite H3. vm_compute. reflexivity.
Defined.

(** X17 on the unreachable machine db9 of the fleet. *)
Lemma refreshMachine_of_disconnected_never_checks_witness :
  let run := Dashboard.refreshMachine Examples.gettext Examples.format
               Examples.env Examples.fleet "db9" Examples.fleetPage in
  fst run = Returned tt /\
  Dashboard.trace (snd run) =
  [ Dashboard.Called Dashboard.CheckConnection "db9";
    Dashboard.Settled Dashboard.CheckConnection "db9" ] /\
  (forall m, In m (Dashboard.machines (Dashboard.dash (snd run))) ->
             Spec.keyOf m = "db9" ->
             state (machine m) = None /\
             error (updates m) = Some "Machine not connected").
Proof.
  cbv zeta.
  apply (@refreshMachine_of_disconnected_never_checks Examples.gettext
           Examples.format Examples.env Examples.fleet "db9"
           (Examples.entry "db9" "db9" "failed" 5 None) Examples.fleetPage);
    reflexivity.
Defined.

(** X18 on web3, which is being updated, with a package service whose
    cache refresh ends with an error event. *)
Lemma refreshMachine_cache_failure_witness :
  let run := Dashboard.refreshMachine Examples.gettext Examples.format
               Samples.staleEnv Examples.fleet "web3" Examples.fleetPage in
  Dashboard.machinesNeedingRefresh
    (Dashboard.machines (Dashboard.dash Examples.fleetPage)) = [] /\
  Dashboard.machinesNeedingRefresh
    (Dashboard.machines
       (Dashboard.dash (Dashboard.setMachine "web3" Dashboard.markRefreshing
                                             Examples.fleetPage))) = [] /\
  Dashboard.machinesNeedingRefresh
    (Dashboard.machines (Dashboard.dash (snd run))) = [] /\
  fst run = Returned tt /\
  Dashboard.trace (snd run) =
  [ Dashboard.Called Dashboard.RefreshPackageCache "web3";
    Dashboard.Settled Dashboard.RefreshPackageCache "web3" ] /\
  map (fun m => (key (machine m), total (updates m), error (updates m),
                 updating m))
      (Dashboard.machines (Dashboard.dash (snd run))) =
  [ ("10.0.0.5", 0, None, None); ("db9", 5, None, None);
    ("localhost", 3, None, None); ("web2", 2, None, Some false);
    ("web3", 1, Some "no network", Some true) ] /\
  map title (Dashboard.alerts (Dashboard.dash (snd run))) =
  [ "Failed to check updates on $0: $1 web3 no network" ].
Proof.
  cbv zeta.
  assert (Hu : Spec.allUpdating "web3" Examples.fleetPage).
  { intros m Hin Hk. vm_compute in Hin.
    repeat (destruct Hin as [<- | Hin]; [first [discriminate Hk
                                              | reflexivity] |]).
    destruct Hin. }
  destruct (@refreshMachine_cache_failure Examples.gettext Examples.format
              Samples.staleEnv Examples.fleet "web3" Examples.fleetPage
              (newError "no network") eq_refl Hu eq_refl eq_refl)
    as ((H0 & H0') & H1 & H2 & H3 & H4).
  split; [reflexivity |]. split; [exact H0 |]. split; [exact H0' |].
  split; [exact H1 |]. split; [exact H2 |].
  split; [rewrite H3 | rewrite H4]; reflexivity.
Defined.

(** X19 on web3, which is being updated, with a package service that
    reports two updates. *)
Lemma refreshMachine_stores_check_result_witness :
  let run := Dashboard.refreshMachine Examples.gettext Examples.format
               Examples.env Examples.fleet "web3" Examples.fleetPage in
  Dashboard.machinesNeedingRefresh
    (Dashboard.machines (Dashboard.dash Examples.fleetPage)) = [] /\
  Dashboard.machinesNeedingRefresh
    (Dashboard.machines
       (Dashboard.dash (Dashboard.setMachine "web3" Dashboard.markRefreshing
                                             Examples.fleetPage))) = [] /\
  Dashboard.machinesNeedingRefresh
    (Dashboard.machines (Dashboard.dash (snd run))) = [] /\
  fst run = Returned tt /\
  Dashboard.trace (snd run) =
  [ Dashboard.Called Dashboard.RefreshPackageCache "web3";
    Dashboard.Settled Dashboard.RefreshPackageCache "web3";
    Dashboard.Called Dashboard.GetUpdates "web3";
    Dashboard.Settled Dashboard.GetUpdates "web3" ] /\
  map (fun m => (key (machine m), updates m, updating m))
      (filter (Dashboard.keyIs "web3")
              (Dashboard.machines (Dashboard.dash (snd run)))) =
  [ ("web3", mkUpdateInfo 2 1 false None (Some 13%nat), Some true) ] /\
  Dashboard.alerts (Dashboard.dash (snd run)) = [].
Proof.
  cbv zeta.
  assert (Hu : Spec.allUpdating "web3" Examples.fleetPage).
  { intros m Hin Hk. vm_compute in Hin.
    repeat (destruct Hin as [<- | Hin]; [first [discriminate Hk
                                              | reflexivity] |]).
    destruct Hin. }
  destruct (@refreshMachine_stores_check_result Examples.gettext
              Examples.format Examples.env Examples.fleet "web3"
              Examples.fleetPage
              (mkUpdateInfo 2 1 false None (Some 13%nat))
              eq_refl Hu eq_refl eq_refl eq_refl)
    as ((H0 & H0') & H1 & H2 & H3 & H4).
  split; [reflexivity |]. split; [exact H0 |]. split; [exact H0' |].
  split; [exact H1 |]. split; [exact H2 |].
  split; [rewrite H3 | rewrite H4]; reflexivity.
Defined.

(** X21 on the fleet with web2, web3 and db9 selected: web2 and web3
    are visited, web3 although it is already updating; db9 is not
    connected. *)
Lemma updateSelected_visits_selected_machines_witness :
  let run := Controls.updateSelected Examples.gettext Examples.format
               Examples.env Examples.fleet ["web2"; "web3"; "db9"] false
               Examples.fleetPage in
  fst run = Returned tt /\
  Spec.installs (Dashboard.trace (snd run))
    = Spec.installRun false ["web2"; "web3"] /\
  (forall m, In m (Dashboard.machines (Dashboard.dash (snd run))) ->
             In (Spec.keyOf m) ["web2"; "web3"] ->
             updating m = Some false) /\
  Dashboard.selectedMachines (Dashboard.dash (snd run)) = [] /\
  Dashboard.bulkUpdating (Dashboard.dash (snd run)) = false.
Proof.
  cbv zeta. split; [vm_compute; reflexivity |].
  apply (@updateSelected_visits_selected_machines Examples.gettext
           Examples.format Examples.env Examples.fleet
           ["web2"; "web3"; "db9"] false Examples.fleetPage).
  vm_compute. reflexivity.
Defined.

(** X22 on the fleet, whose five keys are distinct. *)
Lemma select_all_then_update_is_update_all_witness :
  Dashboard.selectedMachines
    (Dashboard.dash (Controls.selectAll Examples.fleet true
                                        Examples.fleetPage))
  = ["10.0.0.5"; "localhost"; "web2"] /\
  fst (Controls.updateSelected Examples.gettext Examples.format Examples.env
         Examples.fleet
         (Dashboard.selectedMachines
            (Dashboard.dash (Controls.selectAll Examples.fleet true
                                                Examples.fleetPage)))
         false Examples.fleetPage)
  = fst (Dashboard.updateAll Examples.gettext Examples.format Examples.env
           Examples.fleet false Examples.fleetPage).
Proof.
  split; [reflexivity |].
  rewrite (@select_all_then_update_is_update_all Examples.gettext
             Examples.format Examples.env Examples.fleet false
             Examples.fleetPage Examples.fleetPage).
  - vm_compute. reflexivity.
  - vm_compute.
    repeat (constructor; [cbn; intuition discriminate |]). constructor.
Defined.


(** X25 on the fleet and a later roster. *)
Lemma mergeRoster_twice_witness :
  Controls.keysOf (Controls.mergeRoster Samples.laterRoster Examples.fleet)
  = ["db7"; "web2"; "web3"] /\
  Controls.mergeRoster Samples.laterRoster
    (Controls.mergeRoster Samples.laterRoster Examples.fleet)
  = Controls.mergeRoster Samples.laterRoster Examples.fleet.
Proof.
  split; [reflexivity |].
  apply (@mergeRoster_twice Samples.laterRoster Examples.fleet).
  vm_compute.
  repeat (constructor; [cbn; intuition discriminate |]). constructor.
Defined.

(** X26 on web3 of the fleet, which is being updated while the roster
    changes. *)
Lemma mergeRoster_keeps_known_machines_witness :
  exists m',
    In m' (Controls.mergeRoster Samples.laterRoster Examples.fleet) /\
    key (machine m') = "web3" /\
    updating m' = Some true /\
    updateProgress m' = None /\
    selected m' = None /\
    total (updates m') = 1 /\
    security (updates m') = 0 /\
    error (updates m') = None /\
    lastChecked (updates m') = Some 1%nat.
Proof.
  apply (@mergeRoster_keeps_known_machines Samples.laterRoster
           Examples.fleet
           (Examples.entry "web3" "web3" "connected" 1 (Some true))).
  - vm_compute.
    repeat (constructor; [cbn; intuition discriminate |]). constructor.
  - vm_compute. tauto.
  - vm_compute. tauto.
Defined.

(** X27 on the fleet under new labels. *)
Lemma mergeRoster_ignores_relabelling_witness :
  map label Samples.relabelled =
  ["renamed"; "renamed"; "renamed"; "renamed"; "renamed"] /\
  Controls.mergeRoster Samples.relabelled Examples.fleet = Examples.fleet.
Proof.
  split; [reflexivity |].
  apply (@mergeRoster_ignores_relabelling Samples.relabelled Examples.fleet).
  - vm_compute.
    repeat (constructor; [cbn; intuition discriminate |]). constructor.
  - unfold Samples.relabelled, Examples.fleet. cbn [map].
    repeat (constructor; [split; reflexivity |]). constructor.
Defined.

(** X28 on a selection of two hosts. *)
Lemma handleSelect_sets_membership_witness :
  let p := Controls.setSelectedMachines ["web2"; "db9"]
             Examples.fleetPage in
  Dashboard.selectedMachines
    (Dashboard.dash (Controls.handleSelect "web3" true p))
  = ["web2"; "db9"; "web3"] /\
  NoDup (Dashboard.selectedMachines
           (Dashboard.dash (Controls.handleSelect "web3" true p))).
Proof.
  cbv zeta. split; [reflexivity |].
  apply (@handleSelect_sets_membership "web3" true
           (Controls.setSelectedMachines ["web2"; "db9"] Examples.fleetPage)
           "web3").
  vm_compute.
  repeat (constructor; [cbn; intuition discriminate |]). constructor.
Defined.

(** X29 on the fleet with web2 and db9 selected. *)
Lemma summary_figures_consistent_witness :
  Controls.totalUpdates Examples.fleet = 11 /\
  0 <= Controls.securityUpdates Examples.fleet
    <= Controls.totalUpdates Examples.fleet /\
  0 <= Controls.selectedUpdates ["web2"; "db9"] Examples.fleet
    <= Controls.totalUpdates Examples.fleet.
Proof.
  split; [reflexivity |].
  apply (@summary_figures_consistent Examples.fleet ["web2"; "db9"]).
  intros m Hin. vm_compute in Hin.
  repeat (destruct Hin as [<- | Hin]; [vm_compute; split; discriminate |]).
  destruct Hin.
Defined.

(** X30 on a registry with a connected machine, a machine of unknown
    state and a failed one: db1 is probed, web2 is checked for updates,
    and db1 ends without a state. *)
Lemma loadMachines_completion_witness :
  let run := fst (Controls.loadMachines Examples.gettext Examples.env
                    Examples.SESSION_KEY
                    (Examples.parseOnly Samples.mixedText Samples.mixedData)
                    Spec.codeUnitCompare Samples.mixedBrowser)
                 Samples.emptyApp in
  fst run = Returned tt /\
  pageLoading (snd run) = false /\
  Controls.keysOf (Dashboard.machines (Dashboard.dash (page (snd run))))
  = ["db1"; "old"; "web2"] /\
  (forall e, In e (Dashboard.machines (Dashboard.dash (page (snd run)))) ->
             loading (updates e) = false) /\
  Dashboard.trace (page (snd run)) =
  [ Dashboard.Called Dashboard.CheckConnection "db1";
    Dashboard.Settled Dashboard.CheckConnection "db1";
    Dashboard.Called Dashboard.GetUpdates "web2";
    Dashboard.Settled Dashboard.GetUpdates "web2" ].
Proof.
  cbv zeta.
  destruct (@loadMachines_completion Examples.gettext Examples.env
              Examples.SESSION_KEY
              (Examples.parseOnly Samples.mixedText Samples.mixedData)
              Spec.codeUnitCompare Samples.mixedBrowser Samples.emptyApp
              (snd (fst (Controls.loadMachines Examples.gettext Examples.env
                           Examples.SESSION_KEY
                           (Examples.parseOnly Samples.mixedText
                                               Samples.mixedData)
                           Spec.codeUnitCompare Samples.mixedBrowser)
                        Samples.emptyApp)))
    as [_ H].
  destruct (H ltac:(vm_compute; reflexivity)) as (H1 & H2 & H3 & H4 & _).
  split; [vm_compute; reflexivity |].
  split; [exact H1 |]. split; [rewrite H2; reflexivity |].
  split; [exact H3 |]. rewrite H4. reflexivity.
Defined.
